(** * ZFSBootMenu notcurses wizard: validation engine and screen state machine

    A shallow embedding of [tui/python/notcurses_components.py] and
    [tui/python/notcurses_ui.py].

    Modelling conventions.
    - The session state dict and the system-info dict are finite maps from
      string keys to Python values; [d.get(k, dflt)] is [get d k dflt].
    - A Python [str] is a [string] whose characters stand for the code points
      0..255 (Latin-1); [isalnum] and [lower] follow Python's Unicode rules on
      that range.
    - A computation that raises (TypeError, AttributeError, KeyError,
      IndexError) yields [None], or [Raised] at screen level.
    - Key presses are the successive return values of [wait_for_key]; a screen
      that waits for a key when none is left is [Blocked].
    - The device mapping is a dict of dicts: each device name is bound to a
      finite map from string keys to Python values.
    - Drawing calls ([clear], [putstr_yx], [render], [time.sleep], ...) have
      no effect on the state modelled here; the text drawn is left out, the
      reads of the dicts that drawing makes are kept where they can raise. *)

From stdpp Require Import gmap strings list fin_maps pretty.
From Stdlib Require Import Ascii String ZArith Mergesort Orders.

Open Scope string_scope.

(* ------------------------------------------------------------------ *)
(** ** Python strings *)

Definition NL : string := String "010"%char "".
Definition CR : string := String "013"%char "".

Definition in_range (lo hi n : N) : bool := ((lo <=? n) && (n <=? hi))%N.

(** [c.isalnum()] for a single character: letters, decimal digits, and the
    Latin-1 characters that Unicode classifies as alphabetic or numeric. *)
Definition isalnum_char (c : ascii) : bool :=
  let n := N_of_ascii c in
  in_range 48 57 n || in_range 65 90 n || in_range 97 122 n
  || (n =? 170)%N || (n =? 178)%N || (n =? 179)%N || (n =? 181)%N
  || (n =? 185)%N || (n =? 186)%N || in_range 188 190 n
  || in_range 192 214 n || in_range 216 246 n || in_range 248 255 n.

(** The characters of the class [A-Za-z0-9]. *)
Definition ascii_alnum_char (c : ascii) : bool :=
  let n := N_of_ascii c in
  in_range 48 57 n || in_range 65 90 n || in_range 97 122 n.

Fixpoint string_forallb (p : ascii → bool) (s : string) : bool :=
  match s with
  | EmptyString => true
  | String c s' => p c && string_forallb p s'
  end.

Fixpoint string_existsb (p : ascii → bool) (s : string) : bool :=
  match s with
  | EmptyString => false
  | String c s' => p c || string_existsb p s'
  end.

(** [s.isalnum()]: at least one character and all of them alphanumeric. *)
Definition isalnum (s : string) : bool :=
  match s with
  | EmptyString => false
  | _ => string_forallb isalnum_char s
  end.

(** [s.replace(c, "")] for a one-character [c]. *)
Fixpoint remove_char (c : ascii) (s : string) : string :=
  match s with
  | EmptyString => EmptyString
  | String a s' =>
      if Ascii.eqb a c then remove_char c s' else String a (remove_char c s')
  end.

Definition lower_char (c : ascii) : ascii :=
  let n := N_of_ascii c in
  if in_range 65 90 n || in_range 192 214 n || in_range 216 222 n
  then ascii_of_N (n + 32) else c.

(** [s.lower()]. *)
Fixpoint lower (s : string) : string :=
  match s with
  | EmptyString => EmptyString
  | String c s' => String (lower_char c) (lower s')
  end.

(** [c.isprintable()] for a single character: on the Latin-1 range all but
    the controls, the no-break space and the soft hyphen. *)
Definition printable_char (c : ascii) : bool :=
  let n := N_of_ascii c in
  in_range 32 126 n || (in_range 161 255 n && negb (n =? 173)%N).

Definition hex_digit (n : N) : ascii :=
  if (n <? 10)%N then ascii_of_N (48 + n) else ascii_of_N (87 + n).

(** The escape [\xNN] of a character, with lower-case hex digits. *)
Definition hex_escape (c : ascii) : string :=
  let n := N_of_ascii c in
  String "\"%char (String "x"%char
    (String (hex_digit (n / 16)) (String (hex_digit (n mod 16)) ""))).

(** How [repr] writes one character inside the quotes [quote]. *)
Definition repr_char (quote c : ascii) : string :=
  if Ascii.eqb c quote || Ascii.eqb c "\"%char
  then String "\"%char (String c "")
  else if Ascii.eqb c "009"%char then "\t"
  else if Ascii.eqb c "010"%char then "\n"
  else if Ascii.eqb c "013"%char then "\r"
  else if printable_char c then String c ""
  else hex_escape c.

(** [repr(s)]: double quotes when [s] holds a single quote and no double
    quote, single quotes otherwise. *)
Definition py_repr (s : string) : string :=
  let quote := if string_existsb (Ascii.eqb "'"%char) s
                  && negb (string_existsb (Ascii.eqb "034"%char) s)
               then "034"%char else "'"%char in
  String quote
    (String.concat "" (repr_char quote <$> list_ascii_of_string s)
     +:+ String quote "").

(** [repr(l)] for a list of str. *)
Definition repr_list (l : list string) : string :=
  "[" +:+ String.concat ", " (py_repr <$> l) +:+ "]".

(** [key in (k1, k2, ...)]. *)
Definition key_in (key : string) (ks : list string) : bool :=
  existsb (String.eqb key) ks.

(* ------------------------------------------------------------------ *)
(** ** Python values held by the dicts *)

Inductive value : Type :=
  | VNone
  | VBool (b : bool)
  | VInt (z : Z)
  | VStr (s : string)
  | VList (l : list string).

(** Truth value of an object, as used by [if], [not] and [all]. *)
Definition truthy (v : value) : bool :=
  match v with
  | VNone => false
  | VBool b => b
  | VInt z => negb (z =? 0)%Z
  | VStr s => negb (s =? "")
  | VList l => negb (Nat.eqb (List.length l) 0)
  end.

(** [len(v)]; raises TypeError on None, bool and int. *)
Definition py_len (v : value) : option nat :=
  match v with
  | VStr s => Some (String.length s)
  | VList l => Some (List.length l)
  | _ => None
  end.

(** [v >= n] for an int literal [n]; a bool counts as 0 or 1, other types
    raise TypeError. *)
Definition py_ge (v : value) (n : Z) : option bool :=
  match v with
  | VInt z => Some (n <=? z)%Z
  | VBool b => Some (n <=? (if b then 1 else 0))%Z
  | _ => None
  end.

(** [f"{v}"]: [str(v)], which is the [repr] for a list. *)
Definition py_str (v : value) : option string :=
  match v with
  | VNone => Some "None"
  | VBool b => Some (if b then "True" else "False")
  | VInt z => Some (pretty z)
  | VStr s => Some s
  | VList l => Some (repr_list l)
  end.

(** [v == s] for a str [s]. *)
Definition eq_str (v : value) (s : string) : bool :=
  match v with
  | VStr s' => String.eqb s' s
  | _ => false
  end.

(** [v.replace(c, "")]; only str has the method. *)
Definition py_remove (v : value) (c : ascii) : option string :=
  match v with
  | VStr s => Some (remove_char c s)
  | _ => None
  end.

(** [d.get(k, dflt)]. *)
Definition get (d : gmap string value) (k : string) (dflt : value) : value :=
  default dflt (d !! k).

(** [l[i]] with Python's negative indices; IndexError is [None]. *)
Definition py_index {A : Type} (l : list A) (i : Z) : option A :=
  let n := Z.of_nat (List.length l) in
  if (0 <=? i)%Z then l !! Z.to_nat i
  else if (- n <=? i)%Z then l !! Z.to_nat (n + i)
  else None.

(** [choices.index(current)]: first position holding a str equal to
    [current]; ValueError is [None]. *)
Fixpoint index_of (choices : list string) (current : value) : option nat :=
  match choices with
  | [] => None
  | c :: rest =>
      if eq_str current c then Some 0
      else S <$> index_of rest current
  end.

(* ------------------------------------------------------------------ *)
(** ** Outcome of an interactive screen *)

Inductive result (A : Type) : Type :=
  | Ret (a : A) (rest : list string)   (* returned, with the unread keys *)
  | Blocked                            (* waiting for a key for ever *)
  | Raised.                            (* an exception escaped *)
Arguments Ret {A} a rest.
Arguments Blocked {A}.
Arguments Raised {A}.

(* ------------------------------------------------------------------ *)
(** ** ZBMNotcursesTUI.__init__: the session state *)

Definition init_state : gmap string value :=
  <["mode" := VNone]> (
  <["drives" := VList []]> (
  <["pool_name" := VStr "zroot"]> (
  <["raid_level" := VStr "none"]> (
  <["bootloader" := VStr "zbm"]> (
  <["compression" := VStr "zstd"]> (
  <["ashift" := VStr ""]> (
  <["efi_size" := VStr "1G"]> (
  <["swap_size" := VStr "8G"]> (
  <["hostname" := VStr ""]> (
  <["source_root" := VStr "/"]> (
  <["copy_home" := VBool true]> (
  <["exclude_paths" := VList []]> ∅)))))))))))).

(* ------------------------------------------------------------------ *)
(** ** ValidationScreen *)

(** One entry of [self.checks]. *)
Record Check : Type := mkCheck {
  name : string;
  passed : value;
  message : string;
  critical : bool
}.

Definition min_drives : gmap string nat :=
  <["raidz1" := 3]> (<["raidz2" := 4]> (<["raidz3" := 5]> ∅)).

Module ValidationScreen.

Record t : Type := mk {
  state : gmap string value;
  system_info : gmap string value;
  checks : list Check;
  all_passed : bool
}.

Definition init (st si : gmap string value) : t :=
  {| state := st; system_info := si; checks := []; all_passed := false |}.

(** Check 1: EFI system. *)
Definition check_efi (si : gmap string value) : Check :=
  let is_efi := get si "is_efi" (VBool false) in
  {| name := "EFI System Check";
     passed := is_efi;
     message := if truthy is_efi then "System is EFI" else "BIOS not supported";
     critical := true |}.

(** Check 2: sufficient RAM. *)
Definition check_ram (si : gmap string value) : option Check :=
  let ram_gb := get si "ram_gb" (VInt 0) in
  ram_ok ← py_ge ram_gb 2;
  shown ← py_str ram_gb;
  Some {| name := "RAM Check";
          passed := VBool ram_ok;
          message := if ram_ok then shown +:+ "GB RAM available"
                     else "Only " +:+ shown +:+ "GB RAM (need 2GB+)";
          critical := true |}.

(** Check 3: drives selected. *)
Definition check_drives (st : gmap string value) : option Check :=
  let drives := get st "drives" (VList []) in
  n ← py_len drives;
  let drives_ok := Nat.ltb 0 n in
  Some {| name := "Drive Selection";
          passed := VBool drives_ok;
          message := if drives_ok then pretty n +:+ " drive(s) selected"
                     else "No drives selected";
          critical := true |}.

(** Check 4: RAID level valid for the drive count. *)
Definition check_raid (st : gmap string value) : option Check :=
  let drives := get st "drives" (VList []) in
  let raid_level := get st "raid_level" (VStr "none") in
  shown ← py_str raid_level;
  n ← py_len drives;
  '(raid_ok, raid_msg) ←
    (if eq_str raid_level "mirror" && Nat.ltb n 2
     then Some (false, "Mirror requires 2+ drives")
     else if existsb (eq_str raid_level) ["raidz1"; "raidz2"; "raidz3"]
     then
       need ← min_drives !! shown;
       if Nat.ltb n need
       then Some (false, shown +:+ " requires " +:+ pretty need +:+ "+ drives")
       else Some (true, "RAID level: " +:+ shown)
     else Some (true, "RAID level: " +:+ shown));
  Some {| name := "RAID Configuration";
          passed := VBool raid_ok;
          message := raid_msg;
          critical := true |}.

(** Check 5: pool name valid. *)
Definition check_pool (st : gmap string value) : option Check :=
  let pool_name := get st "pool_name" (VStr "") in
  n ← py_len pool_name;
  pool_ok ←
    (if Nat.ltb 0 n
     then s1 ← py_remove pool_name "_"%char;
          Some (isalnum (remove_char "-"%char s1))
     else Some false);
  msg ← (if pool_ok then s ← py_str pool_name; Some ("Pool name: " +:+ s)
         else Some "Invalid pool name");
  Some {| name := "Pool Name";
          passed := VBool pool_ok;
          message := msg;
          critical := true |}.

(** Check 6: hostname, for migration mode only. *)
Definition check_hostname (st : gmap string value) : option (list Check) :=
  if eq_str (get st "mode" VNone) "existing"
  then
    let hostname := get st "hostname" (VStr "") in
    n ← py_len hostname;
    let hostname_ok := Nat.ltb 0 n in
    msg ← (if hostname_ok then s ← py_str hostname; Some ("Hostname: " +:+ s)
           else Some "Hostname not set");
    Some [ {| name := "Hostname";
              passed := VBool hostname_ok;
              message := msg;
              critical := false |} ]
  else Some [].

(** [all(check["passed"] for check in checks if check["critical"])]. *)
Definition all_critical_passed (cs : list Check) : bool :=
  forallb (λ c, truthy (passed c)) (List.filter critical cs).

Definition run_validations (self : t) : option t :=
  let c1 := check_efi (system_info self) in
  c2 ← check_ram (system_info self);
  c3 ← check_drives (state self);
  c4 ← check_raid (state self);
  c5 ← check_pool (state self);
  c6 ← check_hostname (state self);
  let cs := ([c1; c2; c3; c4; c5] ++ c6)%list in
  Some {| state := state self;
          system_info := system_info self;
          checks := cs;
          all_passed := all_critical_passed cs |}.

(** The input loop at the end of [show]. *)
Fixpoint wait_loop (self : t) (keys : list string) : result string :=
  match keys with
  | [] => Blocked
  | key :: rest =>
      if key_in key [NL; CR] && all_passed self then Ret "valid" rest
      else if String.eqb key "escape" then Ret "back" rest
      else if String.eqb (lower key) "q" then Ret "quit" rest
      else wait_loop self rest
  end.

Definition show (self : t) (keys : list string) : result string :=
  match run_validations self with
  | None => Raised
  | Some self' => wait_loop self' keys
  end.

End ValidationScreen.


(* ------------------------------------------------------------------ *)
(** ** WelcomeScreen *)

Module WelcomeScreen.

(** The comparison [ram_gb >= 2] that [show] makes while it draws the
    system information; it raises when "ram_gb" is no number. *)
Definition ram_ok (system_info : gmap string value) : option bool :=
  py_ge (get system_info "ram_gb" (VInt 0)) 2.

(** The input loop at the end of [show]. *)
Fixpoint loop (keys : list string) : result string :=
  match keys with
  | [] => Blocked
  | key :: rest =>
      if key_in key [NL; CR; " "] then Ret "next" rest
      else if String.eqb (lower key) "q" then Ret "quit" rest
      else loop rest
  end.

(** [show] draws the system information, then waits for a key. *)
Definition show (system_info : gmap string value) (keys : list string)
  : result string :=
  match ram_ok system_info with
  | None => Raised
  | Some _ => loop keys
  end.

End WelcomeScreen.

(* ------------------------------------------------------------------ *)
(** ** ModeSelectionScreen *)

Module ModeSelectionScreen.

Definition modes : list (string * string * string) :=
  [ ("new", "New Installation", "Install ZFS on empty drives (DESTROYS data)");
    ("existing", "Migrate System", "Copy running system to new ZFS installation") ].

(** The loop of [show]; [selected] starts at 0. *)
Fixpoint loop (selected : Z) (keys : list string) : result string :=
  let n := Z.of_nat (List.length modes) in
  match keys with
  | [] => Blocked
  | key :: rest =>
      if String.eqb key NL || String.eqb key CR then
        match py_index modes selected with
        | Some (mode_id, _, _) => Ret mode_id rest
        | None => Raised
        end
      else if key_in key ["j"; "down"] then loop ((selected + 1) `mod` n)%Z rest
      else if key_in key ["k"; "up"] then loop ((selected - 1) `mod` n)%Z rest
      else if String.eqb key "escape" then Ret "back" rest
      else if String.eqb (lower key) "q" then Ret "quit" rest
      else loop selected rest
  end.

Definition show (keys : list string) : result string := loop 0 keys.

End ModeSelectionScreen.

(* ------------------------------------------------------------------ *)
(** ** DeviceSelectionScreen *)

(** What [DeviceSelectionScreen.show] returns: a str or a list. *)
Inductive str_or_list : Type :=
  | AStr (s : string)
  | AList (l : list string).

Fixpoint insert_sorted (x : string) (l : list string) : list string :=
  match l with
  | [] => [x]
  | y :: l' => if String.leb x y then x :: l else y :: insert_sorted x l'
  end.

(** [sorted(keys)] on pairwise distinct str keys. *)
Definition sorted (l : list string) : list string :=
  foldr insert_sorted [] l.

(** [set(v)]: the elements of a list, or the characters of a str. *)
Definition py_set (v : value) : option (gset string) :=
  match v with
  | VList l => Some (list_to_set l)
  | VStr s => Some (list_to_set ((λ c, String c "") <$> list_ascii_of_string s))
  | _ => None
  end.

Module DeviceSelectionScreen.

Record t : Type := mk {
  devices : gmap string (gmap string value);
  selected_drives : gset string;
  cursor : Z;
  device_list : list string
}.

Definition init (devs : gmap string (gmap string value)) (sel : value)
  : option t :=
  s ← py_set sel;
  Some {| devices := devs;
          selected_drives := s;
          cursor := 0;
          device_list := sorted (elements (dom devs)) |}.

Definition set_cursor (self : t) (c : Z) : t :=
  {| devices := devices self; selected_drives := selected_drives self;
     cursor := c; device_list := device_list self |}.

Definition set_selected (self : t) (s : gset string) : t :=
  {| devices := devices self; selected_drives := s;
     cursor := cursor self; device_list := device_list self |}.

(** [format_size]: [//] raises TypeError unless the size is a number. *)
Definition format_size (size_bytes : value) : option string :=
  z ← match size_bytes with
      | VInt z => Some z
      | VBool b => Some (if b then 1 else 0)%Z
      | _ => None
      end;
  let gb := (z / 1024 ^ 3)%Z in
  Some (if (1024 <? gb)%Z then pretty (gb / 1024)%Z +:+ "TB"
        else pretty gb +:+ "GB").

(** The reads that drawing one line of the device list makes of its entry:
    [dev_info["size_bytes"]] through [format_size], [dev_info["model"]]
    sliced and padded as a str, and [dev_info["type"]]. A missing key is a
    KeyError, a model that is no str a TypeError. *)
Definition draw_device (dev_info : gmap string value) : option unit :=
  size_bytes ← dev_info !! "size_bytes";
  _ ← format_size size_bytes;
  model ← dev_info !! "model";
  _ ← dev_info !! "type";
  match model with
  | VStr _ => Some ()
  | _ => None
  end.

(** The device list as [show] draws it at the start of every pass of its
    loop: [None] when an entry raises. *)
Definition draw (self : t) : option unit :=
  foldr (λ dev drawn, dev_info ← devices self !! dev;
                      _ ← draw_device dev_info;
                      drawn)
        (Some ()) (device_list self).

(** The loop of [show]: draw, then read a key. [list(self.selected_drives)]
    is returned in the order of [elements]; Python leaves the order
    unspecified. *)
Fixpoint show (self : t) (keys : list string) : result str_or_list :=
  let n := Z.of_nat (List.length (device_list self)) in
  match draw self with
  | None => Raised
  | Some _ =>
      match keys with
      | [] => Blocked
      | key :: rest =>
          if String.eqb key NL || String.eqb key CR then
            if Nat.ltb 0 (size (selected_drives self))
            then Ret (AList (elements (selected_drives self))) rest
            else show self rest
          else if String.eqb key " " then
            match device_list self with
            | [] => show self rest
            | _ =>
                match py_index (device_list self) (cursor self) with
                | None => Raised
                | Some dev =>
                    if bool_decide (dev ∈ selected_drives self)
                    then show (set_selected self (selected_drives self ∖ {[dev]})) rest
                    else show (set_selected self ({[dev]} ∪ selected_drives self)) rest
                end
            end
          else if key_in key ["j"; "down"] then
            match device_list self with
            | [] => show self rest
            | _ => show (set_cursor self ((cursor self + 1) `mod` n)%Z) rest
            end
          else if key_in key ["k"; "up"] then
            match device_list self with
            | [] => show self rest
            | _ => show (set_cursor self ((cursor self - 1) `mod` n)%Z) rest
            end
          else if String.eqb key "escape" then Ret (AStr "back") rest
          else if String.eqb (lower key) "q" then Ret (AStr "quit") rest
          else show self rest
      end
  end.

End DeviceSelectionScreen.

(* ------------------------------------------------------------------ *)
(** ** SettingsScreen *)

(** One entry of [self.fields]: (key, label, type) or
    (key, label, "choice", choices). *)
Record Field : Type := mkField {
  field_key : string;
  field_label : string;
  field_type : string;
  field_choices : option (list string)
}.

Module SettingsScreen.

Record t : Type := mk {
  state : gmap string value;
  cursor : Z;
  fields : list Field
}.

(** [__init__]: the field list is chosen by the mode. *)
Definition init (st : gmap string value) : t :=
  {| state := st;
     cursor := 0;
     fields :=
       if eq_str (get st "mode" VNone) "existing"
       then [ mkField "pool_name" "Pool Name" "text" None;
              mkField "hostname" "Hostname" "text" None;
              mkField "compression" "Compression" "choice"
                      (Some ["lz4"; "zstd"; "gzip-9"; "off"]);
              mkField "raid_level" "RAID Level" "choice"
                      (Some ["none"; "mirror"; "raidz1"; "raidz2"; "raidz3"]);
              mkField "bootloader" "Bootloader" "choice"
                      (Some ["zbm"; "systemd-boot"; "refind"]);
              mkField "ashift" "Ashift" "choice" (Some ["auto"; "9"; "12"; "13"]);
              mkField "efi_size" "EFI Size" "text" None;
              mkField "swap_size" "Swap Size" "text" None;
              mkField "source_root" "Source Root" "text" None;
              mkField "copy_home" "Copy /home" "bool" None ]
       else [ mkField "pool_name" "Pool Name" "text" None;
              mkField "hostname" "Hostname" "text" None;
              mkField "compression" "Compression" "choice"
                      (Some ["lz4"; "zstd"; "gzip-9"; "off"]);
              mkField "raid_level" "RAID Level" "choice"
                      (Some ["none"; "mirror"; "raidz1"; "raidz2"; "raidz3"]);
              mkField "bootloader" "Bootloader" "choice"
                      (Some ["zbm"; "systemd-boot"; "refind"]);
              mkField "ashift" "Ashift" "choice" (Some ["auto"; "9"; "12"; "13"]);
              mkField "efi_size" "EFI Size" "text" None;
              mkField "swap_size" "Swap Size" "text" None ] |}.

Definition set_state (self : t) (st : gmap string value) : t :=
  {| state := st; cursor := cursor self; fields := fields self |}.

Definition set_cursor (self : t) (c : Z) : t :=
  {| state := state self; cursor := c; fields := fields self |}.

(** [edit_text_field], given the key that its [wait_for_key] returns:
    [None] on escape, else the current value. *)
Definition edit_text_field (self : t) (field_key : string) (key : string) : value :=
  let current := get (state self) field_key (VStr "") in
  if String.eqb key "escape" then VNone else current.

Definition cycle_choice (self : t) (field_key : string) (choices : list string)
  : option string :=
  first ← choices !! 0%nat;
  let current := get (state self) field_key (VStr first) in
  let idx :=
    match index_of choices current with
    | Some idx => (idx + 1) `mod` List.length choices
    | None => 0
    end in
  choices !! idx.

Definition toggle_bool (self : t) (field_key : string) : bool :=
  negb (truthy (get (state self) field_key (VBool true))).

(** The loop of [show]; returns the outcome and the state dict as the
    screen leaves it. *)
Fixpoint loop (self : t) (keys : list string)
  : result (string * gmap string value) :=
  let n := Z.of_nat (List.length (fields self)) in
  match keys with
  | [] => Blocked
  | key :: rest =>
      if String.eqb (lower key) "c" then Ret ("next", state self) rest
      else if key_in key [" "; NL; CR] then
        match py_index (fields self) (cursor self) with
        | None => Raised
        | Some field_info =>
            let k := field_key field_info in
            if String.eqb (field_type field_info) "text" then
              match rest with
              | [] => Blocked
              | key2 :: rest2 =>
                  match edit_text_field self k key2 with
                  | VNone => loop self rest2
                  | v => loop (set_state self (<[k := v]> (state self))) rest2
                  end
              end
            else if String.eqb (field_type field_info) "choice" then
              match field_choices field_info with
              | None => Raised
              | Some choices =>
                  match cycle_choice self k choices with
                  | None => Raised
                  | Some c => loop (set_state self (<[k := VStr c]> (state self))) rest
                  end
              end
            else if String.eqb (field_type field_info) "bool" then
              loop (set_state self (<[k := VBool (toggle_bool self k)]> (state self))) rest
            else loop self rest
        end
      else if key_in key ["j"; "down"] then
        if (n =? 0)%Z then Raised
        else loop (set_cursor self ((cursor self + 1) `mod` n)%Z) rest
      else if key_in key ["k"; "up"] then
        if (n =? 0)%Z then Raised
        else loop (set_cursor self ((cursor self - 1) `mod` n)%Z) rest
      else if String.eqb key "escape" then Ret ("back", state self) rest
      else if String.eqb (lower key) "q" then Ret ("quit", state self) rest
      else loop self rest
  end.

Definition show (self : t) (keys : list string)
  : result (string * gmap string value) := loop self keys.

(** One edit of a choice field: [state[k] = cycle_choice(k, choices)]. *)
Definition cycle_field (k : string) (choices : list string)
  (st : gmap string value) : option (gmap string value) :=
  c ← cycle_choice (init st) k choices;
  Some (<[k := VStr c]> st).

End SettingsScreen.

(* ------------------------------------------------------------------ *)
(** ** ConfirmationScreen *)

Module ConfirmationScreen.

(** The reads that drawing the summary makes of the state:
    [for drive in drives] raises TypeError unless "drives" is a list or a
    str, [bl_desc.get(bootloader, bootloader)] raises TypeError when
    "bootloader" is a list, which cannot be hashed. *)
Definition draw (state : gmap string value) : option unit :=
  match get state "drives" (VList []) with
  | VList _ | VStr _ =>
      match get state "bootloader" (VStr "zbm") with
      | VList _ => None
      | _ => Some ()
      end
  | _ => None
  end.

(** The input loop at the end of [show]. *)
Fixpoint loop (keys : list string) : result string :=
  match keys with
  | [] => Blocked
  | key :: rest =>
      if String.eqb (lower key) "y" then Ret "proceed" rest
      else if String.eqb (lower key) "n" || String.eqb key "escape"
      then Ret "back" rest
      else if String.eqb (lower key) "q" then Ret "quit" rest
      else loop rest
  end.

(** [show] draws the summary, then waits for a key. *)
Definition show (state : gmap string value) (keys : list string)
  : result string :=
  match draw state with
  | None => Raised
  | Some _ => loop keys
  end.

End ConfirmationScreen.

(* ------------------------------------------------------------------ *)
(** ** InstallationScreen *)

Module InstallationScreen.

Record t : Type := mk {
  state : gmap string value;
  steps : list string;
  current_step : nat;
  log_lines : list string;
  max_log_lines : nat
}.

Definition init (st : gmap string value) : t :=
  {| state := st; steps := []; current_step := 0; log_lines := [];
     max_log_lines := 10 |}.

Definition init_steps (self : t) : t :=
  let mode := get (state self) "mode" (VStr "new") in
  {| state := state self;
     steps :=
       if eq_str mode "existing"
       then [ "Checking device fitness";
              "Preparing target drives";
              "Creating partitions";
              "Setting up ZFS pool";
              "Mounting filesystems";
              "Copying system files";
              "Zapping network configuration";
              "Installing bootloader";
              "Finalizing installation" ]
       else [ "Checking device fitness";
              "Preparing target drives";
              "Creating partitions";
              "Setting up ZFS pool";
              "Installing base system";
              "Installing bootloader";
              "Finalizing installation" ];
     current_step := current_step self;
     log_lines := log_lines self;
     max_log_lines := max_log_lines self |}.

Definition add_log (self : t) (msg : string) : t :=
  let appended := (log_lines self ++ [msg])%list in
  {| state := state self;
     steps := steps self;
     current_step := current_step self;
     log_lines :=
       if Nat.ltb (max_log_lines self) (List.length appended)
       then List.tl appended else appended;
     max_log_lines := max_log_lines self |}.

Definition set_current_step (self : t) (i : nat) : t :=
  {| state := state self; steps := steps self; current_step := i;
     log_lines := log_lines self; max_log_lines := max_log_lines self |}.

(** The body of [for i, step in enumerate(self.steps)], over the steps
    still to run, [i] being the index of the first of them. *)
Fixpoint run_steps (self : t) (i : nat) (todo : list string) : t :=
  match todo with
  | [] => self
  | step :: todo' =>
      let self1 := set_current_step self i in
      let self2 := add_log self1 ("Starting: " +:+ step) in
      let self3 := add_log self2 ("Completed: " +:+ step) in
      run_steps self3 (S i) todo'
  end.

(** [show] reads no key; it returns the screen as it ends and the outcome. *)
Definition show (self : t) : t * string :=
  let self1 := init_steps self in
  let self2 := run_steps self1 0 (steps self1) in
  let self3 := set_current_step self2 (List.length (steps self2)) in
  (self3, "success").

End InstallationScreen.

(* ------------------------------------------------------------------ *)
(** ** CompletionScreen *)

Module CompletionScreen.

Definition show (keys : list string) : result string :=
  match keys with
  | [] => Blocked
  | _ :: rest => Ret "quit" rest
  end.

End CompletionScreen.

(* ------------------------------------------------------------------ *)
(** ** ZBMNotcursesTUI: the orchestrator *)

Module ZBMNotcursesTUI.

Record t : Type := mk {
  current_screen : string;
  state : gmap string value;
  system_info : gmap string value;
  devices : gmap string (gmap string value)
}.

Definition init : t :=
  {| current_screen := "welcome"; state := init_state;
     system_info := ∅; devices := ∅ |}.

Definition goto (self : t) (screen : string) : t :=
  {| current_screen := screen; state := state self;
     system_info := system_info self; devices := devices self |}.

Definition set_state (self : t) (st : gmap string value) : t :=
  {| current_screen := current_screen self; state := st;
     system_info := system_info self; devices := devices self |}.

(** What one pass through the body of [while True] does. *)
Inductive step : Type :=
  | Continue (self : t)
  | Break (self : t).

Definition run_iter (self : t) (keys : list string) : result step :=
  if String.eqb (current_screen self) "welcome" then
    match WelcomeScreen.show (system_info self) keys with
    | Ret r rest =>
        if String.eqb r "quit" then Ret (Break self) rest
        else Ret (Continue (goto self "mode_select")) rest
    | Blocked => Blocked
    | Raised => Raised
    end
  else if String.eqb (current_screen self) "mode_select" then
    match ModeSelectionScreen.show keys with
    | Ret r rest =>
        if String.eqb r "back" then Ret (Continue (goto self "welcome")) rest
        else if key_in r ["new"; "existing"] then
          Ret (Continue (goto (set_state self (<["mode" := VStr r]> (state self)))
                              "device_select")) rest
        else if String.eqb r "quit" then Ret (Break self) rest
        else Ret (Continue self) rest
    | Blocked => Blocked
    | Raised => Raised
    end
  else if String.eqb (current_screen self) "device_select" then
    match state self !! "drives" with
    | None => Raised
    | Some drives =>
        match DeviceSelectionScreen.init (devices self) drives with
        | None => Raised
        | Some screen =>
            match DeviceSelectionScreen.show screen keys with
            | Ret (AStr r) rest =>
                if String.eqb r "back" then Ret (Continue (goto self "mode_select")) rest
                else if String.eqb r "quit" then Ret (Break self) rest
                else Ret (Continue self) rest
            | Ret (AList l) rest =>
                Ret (Continue (goto (set_state self (<["drives" := VList l]> (state self)))
                                    "settings")) rest
            | Blocked => Blocked
            | Raised => Raised
            end
        end
    end
  else if String.eqb (current_screen self) "settings" then
    match SettingsScreen.show (SettingsScreen.init (state self)) keys with
    | Ret (r, st) rest =>
        let self' := set_state self st in
        if String.eqb r "back" then Ret (Continue (goto self' "device_select")) rest
        else if String.eqb r "quit" then Ret (Break self') rest
        else if String.eqb r "next" then Ret (Continue (goto self' "validation")) rest
        else Ret (Continue self') rest
    | Blocked => Blocked
    | Raised => Raised
    end
  else if String.eqb (current_screen self) "validation" then
    match ValidationScreen.show
            (ValidationScreen.init (state self) (system_info self)) keys with
    | Ret r rest =>
        if String.eqb r "back" then Ret (Continue (goto self "settings")) rest
        else if String.eqb r "quit" then Ret (Break self) rest
        else if String.eqb r "valid" then Ret (Continue (goto self "confirm")) rest
        else Ret (Continue self) rest
    | Blocked => Blocked
    | Raised => Raised
    end
  else if String.eqb (current_screen self) "confirm" then
    match ConfirmationScreen.show (state self) keys with
    | Ret r rest =>
        if String.eqb r "back" then Ret (Continue (goto self "validation")) rest
        else if String.eqb r "quit" then Ret (Break self) rest
        else if String.eqb r "proceed" then Ret (Continue (goto self "install")) rest
        else Ret (Continue self) rest
    | Blocked => Blocked
    | Raised => Raised
    end
  else if String.eqb (current_screen self) "install" then
    let '(_, r) := InstallationScreen.show (InstallationScreen.init (state self)) in
    if String.eqb r "success" then Ret (Continue (goto self "complete")) keys
    else if String.eqb r "failed" then Ret (Continue (goto self "settings")) keys
    else if String.eqb r "quit" then Ret (Break self) keys
    else Ret (Continue self) keys
  else if String.eqb (current_screen self) "complete" then
    match CompletionScreen.show keys with
    | Ret _ rest => Ret (Break self) rest
    | Blocked => Blocked
    | Raised => Raised
    end
  else Ret (Break self) keys.

(** The [while True] loop, cut off after [fuel] passes ([None]); it yields
    the application as the loop leaves it. *)
Fixpoint run_loop (fuel : nat) (self : t) (keys : list string)
  : option (result t) :=
  match fuel with
  | O => None
  | S fuel' =>
      match run_iter self keys with
      | Ret (Continue self') rest => run_loop fuel' self' rest
      | Ret (Break self) rest => Some (Ret self rest)
      | Blocked => Some Blocked
      | Raised => Some Raised
      end
  end.

(** What [detect_devices] finds under one entry of /sys/block: the name,
    and the integers and text read from its [size], [device/model] and
    [queue/rotational] files, [None] where the read or the conversion
    raises. *)
Record sysfs_entry : Type := mk_sysfs_entry {
  entry_name : string;
  entry_sectors : option Z;
  entry_model : option string;
  entry_rotational : option Z
}.

(** [device.startswith(("loop", "ram", "dm-"))]. *)
Definition skipped_device (device : string) : bool :=
  String.prefix "loop" device || String.prefix "ram" device
  || String.prefix "dm-" device.

(** The dict built for one device. *)
Definition device_info (e : sysfs_entry) : gmap string value :=
  let size_bytes := match entry_sectors e with
                    | Some sectors => (sectors * 512)%Z
                    | None => 0%Z
                    end in
  let model := default "Unknown" (entry_model e) in
  let rotational := match entry_rotational e with
                    | Some r => (r =? 1)%Z
                    | None => false
                    end in
  let dev_type := if String.prefix "nvme" (entry_name e) then "NVMe"
                  else if rotational then "HDD" else "SSD" in
  <["size_bytes" := VInt size_bytes]> (
  <["size_gb" := VInt (size_bytes / 1024 ^ 3)]> (
  <["model" := VStr model]> (
  <["type" := VStr dev_type]> (
  <["rotational" := VBool rotational]> ∅)))).

(** [detect_devices] over the listing of /sys/block ([None]: the listing
    itself raises, and the mapping stays empty). *)
Definition detect_devices (listing : option (list sysfs_entry))
  : gmap string (gmap string value) :=
  match listing with
  | None => ∅
  | Some entries =>
      fold_left
        (λ devs e,
           if skipped_device (entry_name e) then devs
           else <[entry_name e := device_info e]> devs)
        entries ∅
  end.

End ZBMNotcursesTUI.

(* ------------------------------------------------------------------ *)
(** ** Auxiliary definitions used by the statements *)

Definition is_str (v : value) : bool :=
  match v with VStr _ => true | _ => false end.

Definition is_list (v : value) : bool :=
  match v with VList _ => true | _ => false end.

(** The entries that [run_validations] reads hold what [__init__] put
    there: a list under "drives", a str under the other three keys. *)
Definition typed_state (st : gmap string value) : bool :=
  is_list (get st "drives" (VList []))
  && is_str (get st "raid_level" (VStr "none"))
  && is_str (get st "pool_name" (VStr ""))
  && is_str (get st "hostname" (VStr "")).

(** "ram_gb", when present, is a number. *)
Definition typed_info (si : gmap string value) : bool :=
  match get si "ram_gb" (VInt 0) with
  | VInt _ | VBool _ => true
  | _ => false
  end.

(** A check passes when its "passed" entry is true. *)
Definition passes (c : Check) : bool := truthy (passed c).

(** The specification's table of RAID minimums, on the level names the
    code uses: Mirror 2, RaidZ1 3, RaidZ2 4, RaidZ3 5, None 0. *)
Definition spec_min_drives (level : string) : nat :=
  if String.eqb level "mirror" then 2
  else if String.eqb level "raidz1" then 3
  else if String.eqb level "raidz2" then 4
  else if String.eqb level "raidz3" then 5
  else 0.

(** How the failure message spells the level. *)
Definition raid_label (level : string) : string :=
  if String.eqb level "mirror" then "Mirror" else level.

(** The specification's character class [A-Za-z0-9_-]. *)
Definition spec_pool_char (c : ascii) : bool :=
  ascii_alnum_char c || Ascii.eqb c "_"%char || Ascii.eqb c "-"%char.

(** A character that [isalnum] accepts, an underscore or a hyphen. *)
Definition pool_char (c : ascii) : bool :=
  isalnum_char c || Ascii.eqb c "_"%char || Ascii.eqb c "-"%char.

(** [n] successive edits of a choice field. *)
Fixpoint cycle_times (n : nat) (k : string) (choices : list string)
  (st : gmap string value) : option (gmap string value) :=
  match n with
  | O => Some st
  | S n' =>
      st' ← SettingsScreen.cycle_field k choices st;
      cycle_times n' k choices st'
  end.

(** Sample inputs. *)
Definition efi_info : gmap string value :=
  <["is_efi" := VBool true]> (<["ram_gb" := VInt 8]> ∅).

Definition one_drive_state : gmap string value :=
  <["mode" := VStr "new"]> (<["drives" := VList ["sda"]]> init_state).

Definition migrate_state : gmap string value :=
  <["mode" := VStr "existing"]> (<["drives" := VList ["sda"]]> init_state).

Definition app_at (screen : string) (st si : gmap string value)
  : ZBMNotcursesTUI.t :=
  {| ZBMNotcursesTUI.current_screen := screen;
     ZBMNotcursesTUI.state := st;
     ZBMNotcursesTUI.system_info := si;
     ZBMNotcursesTUI.devices := ∅ |}.
(** The pool-name test of check 5, on a str. *)
Definition pool_ok (p : string) : bool :=
  Nat.ltb 0 (String.length p)
  && isalnum (remove_char "-" (remove_char "_" p)).

(** The rule as the specification words it: non-empty and every character
    in [A-Za-z0-9_-]. *)
Definition spec_pool_name_ok (p : string) : bool :=
  negb (String.eqb p "") && string_forallb spec_pool_char p.

(** The entries that checks 3 to 6 append when the state holds a list of
    drives, and str values for the RAID level, pool name and host name. *)
Definition drives_entry (n : nat) : Check :=
  {| name := "Drive Selection";
     passed := VBool (Nat.ltb 0 n);
     message := if Nat.ltb 0 n then pretty n +:+ " drive(s) selected"
                else "No drives selected";
     critical := true |}.

Definition raid_entry (level : string) (n : nat) : Check :=
  {| name := "RAID Configuration";
     passed := VBool (Nat.leb (spec_min_drives level) n);
     message := if Nat.leb (spec_min_drives level) n
                then "RAID level: " +:+ level
                else raid_label level +:+ " requires "
                     +:+ pretty (spec_min_drives level) +:+ "+ drives";
     critical := true |}.

Definition pool_entry (p : string) : Check :=
  {| name := "Pool Name";
     passed := VBool (pool_ok p);
     message := if pool_ok p then "Pool name: " +:+ p else "Invalid pool name";
     critical := true |}.

Definition hostname_entries (mode : value) (host : string) : list Check :=
  if eq_str mode "existing"
  then [ {| name := "Hostname";
            passed := VBool (Nat.ltb 0 (String.length host));
            message := if Nat.ltb 0 (String.length host)
                       then "Hostname: " +:+ host else "Hostname not set";
            critical := false |} ]
  else [].

(** The value [cycle_choice] starts from:
    [self.state.get(field_key, choices[0])]. *)
Definition current_choice (st : gmap string value) (k : string)
  (choices : list string) : option value :=
  first ← choices !! 0%nat;
  Some (get st k (VStr first)).

(** A field list whose edits keep the state typed: no field is keyed
    "drives", and no bool field is keyed by a str entry. *)
Definition field_safe (f : Field) : bool :=
  negb (String.eqb (field_key f) "drives")
  && (negb (String.eqb (field_type f) "bool")
      || negb (key_in (field_key f) ["raid_level"; "pool_name"; "hostname"])).

(** The application a pass of the main loop ends with. *)
Definition step_app (s : ZBMNotcursesTUI.step) : ZBMNotcursesTUI.t :=
  match s with
  | ZBMNotcursesTUI.Continue self => self
  | ZBMNotcursesTUI.Break self => self
  end.

(** A three-device machine and a session that walks from the welcome
    screen to completion in migration mode with two drives selected. *)
Definition sample_device (type : string) : gmap string value :=
  <["size_bytes" := VInt 0]> (
  <["size_gb" := VInt 0]> (
  <["model" := VStr "disk"]> (
  <["type" := VStr type]> (
  <["rotational" := VBool false]> ∅)))).

Definition sample_devices : gmap string (gmap string value) :=
  <["sdb" := sample_device "SSD"]> (
  <["sda" := sample_device "SSD"]> (
  <["nvme0n1" := sample_device "NVMe"]> ∅)).

Definition sample_keys : list string :=
  [NL; "j"; NL; " "; "j"; " "; NL; "c"; NL; "y"; "x"; "z"].

(* ------------------------------------------------------------------ *)
(** ** Further definitions: the loop as a transition system *)

(** The application as [run] has it when the loop starts: the welcome
    screen, the initial state, and what was loaded or detected. *)
Definition start_app (si : gmap string value) (devs : gmap string (gmap string value))
  : ZBMNotcursesTUI.t :=
  {| ZBMNotcursesTUI.current_screen := "welcome";
     ZBMNotcursesTUI.state := init_state;
     ZBMNotcursesTUI.system_info := si;
     ZBMNotcursesTUI.devices := devs |}.

(** [visits a b]: some keys take the loop from [a] to [b] in zero or more
    passes. *)
Inductive visits (a : ZBMNotcursesTUI.t) : ZBMNotcursesTUI.t → Prop :=
  | visits_here : visits a a
  | visits_pass (b c : ZBMNotcursesTUI.t) (keys rest : list string) :
      visits a b →
      ZBMNotcursesTUI.run_iter b keys = Ret (ZBMNotcursesTUI.Continue c) rest →
      visits a c.

(** The screens that follow each screen in [run]. *)
Definition next_screens (screen : string) : list string :=
  if String.eqb screen "welcome" then ["mode_select"]
  else if String.eqb screen "mode_select" then ["welcome"; "device_select"]
  else if String.eqb screen "device_select" then ["mode_select"; "settings"]
  else if String.eqb screen "settings" then ["device_select"; "validation"]
  else if String.eqb screen "validation" then ["settings"; "confirm"]
  else if String.eqb screen "confirm" then ["validation"; "install"]
  else if String.eqb screen "install" then ["complete"]
  else [].

(** The screens that come after the drives were chosen. *)
Definition after_devices : list string :=
  ["settings"; "validation"; "confirm"; "install"; "complete"].

(** The screens that come after the validation gate. *)
Definition after_validation : list string :=
  ["confirm"; "install"; "complete"].

(** A choice field has a non-empty option list. *)
Definition field_wf (f : Field) : bool :=
  if String.eqb (field_type f) "text" then true
  else if String.eqb (field_type f) "choice"
  then match field_choices f with
       | Some (_ :: _) => true
       | _ => false
       end
  else true.

(** The sample session at the install screen: migration mode, two drives. *)
Definition sample_install_app : ZBMNotcursesTUI.t :=
  {| ZBMNotcursesTUI.current_screen := "install";
     ZBMNotcursesTUI.state :=
       <["drives" := VList ["sda"; "nvme0n1"]]>
         (<["mode" := VStr "existing"]> init_state);
     ZBMNotcursesTUI.system_info := efi_info;
     ZBMNotcursesTUI.devices := sample_devices |}.

(** The entries no screen of a session alters. *)
Definition constant_keys : list string :=
  ["pool_name"; "hostname"; "efi_size"; "swap_size"; "source_root";
   "exclude_paths"].

(** The screens that come after the mode was chosen. *)
Definition after_mode : list string :=
  "device_select" :: after_devices.

(** What holds of the application on every pass of a session that started
    from [start_app si devs]. *)
Definition session_inv (si : gmap string value)
  (devs : gmap string (gmap string value)) (app : ZBMNotcursesTUI.t) : Prop :=
  ZBMNotcursesTUI.system_info app = si
  ∧ ZBMNotcursesTUI.devices app = devs
  ∧ typed_state (ZBMNotcursesTUI.state app) = true
  ∧ (∃ l, ZBMNotcursesTUI.state app !! "drives" = Some (VList l)
          ∧ NoDup l
          ∧ (∀ d, d ∈ l → d ∈ dom devs)
          ∧ (ZBMNotcursesTUI.current_screen app ∈ after_devices → l ≠ []))
  ∧ (ZBMNotcursesTUI.current_screen app ∈ after_mode →
     ZBMNotcursesTUI.state app !! "mode" = Some (VStr "new")
     ∨ ZBMNotcursesTUI.state app !! "mode" = Some (VStr "existing"))
  ∧ (ZBMNotcursesTUI.current_screen app ∈ after_validation →
     ∃ vs, ValidationScreen.run_validations
             (ValidationScreen.init (ZBMNotcursesTUI.state app) si) = Some vs
           ∧ ValidationScreen.all_passed vs = true)
  ∧ (∀ k, k ∈ constant_keys →
          ZBMNotcursesTUI.state app !! k = init_state !! k).

(** What bounds the passes still to come: two per unread key, and one more
    on the install screen, which reads no key. *)
Definition loop_measure (a : ZBMNotcursesTUI.t) (keys : list string) : nat :=
  2 * List.length keys
  + (if String.eqb (ZBMNotcursesTUI.current_screen a) "install" then 1 else 0).

(** A device entry that the device screen can draw: a number under
    "size_bytes", a str under "model", and some value under "type". *)
Definition drawable_entry (dev_info : gmap string value) : bool :=
  match dev_info !! "size_bytes", dev_info !! "model", dev_info !! "type" with
  | Some (VInt _ | VBool _), Some (VStr _), Some _ => true
  | _, _, _ => false
  end.

(** Every entry of the device mapping can be drawn. *)
Definition drawable_devices (devs : gmap string (gmap string value)) : bool :=
  forallb (λ entry, drawable_entry entry.2) (map_to_list devs).

(** "bootloader", when present, is a str. *)
Definition bootloader_str (st : gmap string value) : bool :=
  is_str (get st "bootloader" (VStr "zbm")).

(** No text or bool field is keyed "bootloader". *)
Definition field_keeps_bootloader (f : Field) : bool :=
  negb (String.eqb (field_key f) "bootloader")
  || String.eqb (field_type f) "choice".

(** A device mapping with an entry that lacks every key. *)
Definition bare_devices : gmap string (gmap string value) :=
  <["sda" := ∅]> ∅.

(** A listing of /sys/block with a loop device, a disk and an NVMe drive. *)
Definition sample_listing : list ZBMNotcursesTUI.sysfs_entry :=
  [ ZBMNotcursesTUI.mk_sysfs_entry "loop0" (Some 8%Z) None (Some 0%Z);
    ZBMNotcursesTUI.mk_sysfs_entry "sda" (Some 1953525168%Z) (Some "disk")
                                   (Some 1%Z);
    ZBMNotcursesTUI.mk_sysfs_entry "nvme0n1" (Some 1000215216%Z) None None ].

(* ================================================================== *)
(** * Properties *)

(** *** Strings *)

Lemma isalnum_unfold s :
  isalnum s = string_existsb (λ _, true) s && string_forallb isalnum_char s.
Proof. destruct s; reflexivity. Qed.

Lemma forallb_remove_char p c s :
  string_forallb p (remove_char c s)
  = string_forallb (λ a, Ascii.eqb a c || p a) s.
Proof.
  induction s as [|a s IH]; simpl; [reflexivity|].
  destruct (Ascii.eqb a c); simpl; rewrite IH; reflexivity.
Qed.

Lemma existsb_remove_char p c s :
  string_existsb p (remove_char c s)
  = string_existsb (λ a, negb (Ascii.eqb a c) && p a) s.
Proof.
  induction s as [|a s IH]; simpl; [reflexivity|].
  destruct (Ascii.eqb a c); simpl; rewrite IH; reflexivity.
Qed.

Lemma string_forallb_ext p q s :
  (∀ a, p a = q a) → string_forallb p s = string_forallb q s.
Proof. intros E. induction s; simpl; [|rewrite E, IHs]; reflexivity. Qed.

Lemma isalnum_char_not_sep a :
  isalnum_char a = true → Ascii.eqb a "_" = false ∧ Ascii.eqb a "-" = false.
Proof.
  destruct a as [[] [] [] [] [] [] [] []]; vm_compute; intuition congruence.
Qed.

Lemma ascii_alnum_is_alnum a : ascii_alnum_char a = true → isalnum_char a = true.
Proof.
  unfold ascii_alnum_char, isalnum_char. intros ->. reflexivity.
Qed.

Lemma existsb_alnum_under_pool_char s :
  string_forallb pool_char s = true →
  string_existsb (λ a, negb (Ascii.eqb a "_") && (negb (Ascii.eqb a "-") && true)) s
  = string_existsb isalnum_char s.
Proof.
  induction s as [|a s IH]; simpl; [reflexivity|].
  intros [Ha Hs]%andb_prop. rewrite (IH Hs). f_equal.
  unfold pool_char in Ha.
  destruct (isalnum_char a) eqn:E.
  - destruct (isalnum_char_not_sep a E) as [-> ->]. reflexivity.
  - simpl in Ha. destruct (Ascii.eqb a "_"), (Ascii.eqb a "-"); simpl in *; congruence.
Qed.

Lemma string_existsb_nonempty p s :
  string_existsb p s = true → Nat.ltb 0 (String.length s) = true.
Proof. destruct s; simpl; [discriminate|reflexivity]. Qed.

Lemma pool_ok_spec p :
  pool_ok p = true ↔
  string_forallb pool_char p = true ∧ string_existsb isalnum_char p = true.
Proof.
  unfold pool_ok. rewrite isalnum_unfold, !forallb_remove_char, !existsb_remove_char.
  rewrite (string_forallb_ext _ pool_char).
  2:{ intros a. unfold pool_char.
      destruct (Ascii.eqb a "_"), (Ascii.eqb a "-"), (isalnum_char a); reflexivity. }
  split.
  - intros [_ [H1 H2]%andb_prop]%andb_prop.
    rewrite existsb_alnum_under_pool_char in H1 by exact H2. auto.
  - intros [H1 H2]. rewrite existsb_alnum_under_pool_char by exact H1.
    rewrite H1, H2, (string_existsb_nonempty _ _ H2). reflexivity.
Qed.
Import ValidationScreen.

Lemma typed_state_inv st :
  typed_state st = true →
  ∃ drives level pool host,
    get st "drives" (VList []) = VList drives
    ∧ get st "raid_level" (VStr "none") = VStr level
    ∧ get st "pool_name" (VStr "") = VStr pool
    ∧ get st "hostname" (VStr "") = VStr host.
Proof.
  unfold typed_state. intros H.
  repeat (apply andb_prop in H as [H ?]).
  destruct (get st "drives" _), (get st "raid_level" _),
    (get st "pool_name" _), (get st "hostname" _); try discriminate.
  eauto 10.
Qed.

Lemma check_ram_typed si :
  typed_info si = true →
  ∃ c, check_ram si = Some c ∧ name c = "RAM Check" ∧ critical c = true.
Proof.
  unfold typed_info, check_ram. intros H.
  destruct (get si "ram_gb" _); try discriminate; simpl; eauto.
Qed.

Lemma check_drives_list st drives :
  get st "drives" (VList []) = VList drives →
  check_drives st =
    Some {| name := "Drive Selection";
            passed := VBool (Nat.ltb 0 (List.length drives));
            message := if Nat.ltb 0 (List.length drives)
                       then pretty (List.length drives) +:+ " drive(s) selected"
                       else "No drives selected";
            critical := true |}.
Proof. unfold check_drives. intros ->. reflexivity. Qed.

Lemma check_raid_typed st drives level :
  get st "drives" (VList []) = VList drives →
  get st "raid_level" (VStr "none") = VStr level →
  let ok := Nat.leb (spec_min_drives level) (List.length drives) in
  check_raid st =
    Some {| name := "RAID Configuration";
            passed := VBool ok;
            message := if ok then "RAID level: " +:+ level
                       else raid_label level +:+ " requires "
                            +:+ pretty (spec_min_drives level) +:+ "+ drives";
            critical := true |}.
Proof.
  intros Hd Hl. unfold check_raid. rewrite Hd, Hl. cbn [py_str py_len mbind option_bind].
  set (n := List.length drives).
  assert (Hlt : ∀ m, Nat.ltb n m = negb (Nat.leb m n)) by (intros; apply Nat.ltb_antisym).
  unfold eq_str at 1.
  destruct (String.eqb_spec level "mirror") as [->|Hm].
  { cbn -[Nat.ltb Nat.leb]. rewrite Hlt. destruct (Nat.leb 2 n); reflexivity. }
  destruct (String.eqb_spec level "raidz1") as [->|H1].
  { cbn -[Nat.ltb Nat.leb min_drives]. change (min_drives !! "raidz1") with (Some 3).
    cbn -[Nat.ltb Nat.leb]. rewrite Hlt. destruct (Nat.leb 3 n); reflexivity. }
  destruct (String.eqb_spec level "raidz2") as [->|H2].
  { cbn -[Nat.ltb Nat.leb min_drives]. change (min_drives !! "raidz2") with (Some 4).
    cbn -[Nat.ltb Nat.leb]. rewrite Hlt. destruct (Nat.leb 4 n); reflexivity. }
  destruct (String.eqb_spec level "raidz3") as [->|H3].
  { cbn -[Nat.ltb Nat.leb min_drives]. change (min_drives !! "raidz3") with (Some 5).
    cbn -[Nat.ltb Nat.leb]. rewrite Hlt. destruct (Nat.leb 5 n); reflexivity. }
  unfold spec_min_drives, raid_label.
  apply String.eqb_neq in Hm, H1, H2, H3.
  cbn -[Nat.ltb Nat.leb]. rewrite Hm, H1, H2, H3. reflexivity.
Qed.

Lemma check_pool_str st p :
  get st "pool_name" (VStr "") = VStr p →
  check_pool st =
    Some {| name := "Pool Name";
            passed := VBool (pool_ok p);
            message := if pool_ok p then "Pool name: " +:+ p
                       else "Invalid pool name";
            critical := true |}.
Proof.
  intros Hp. unfold check_pool, pool_ok. rewrite Hp. cbn [py_len py_remove py_str mbind option_bind].
  destruct (Nat.ltb 0 (String.length p)); cbn -[isalnum]; [|reflexivity].
  destruct (isalnum _); reflexivity.
Qed.

Lemma check_hostname_str st host :
  get st "hostname" (VStr "") = VStr host →
  check_hostname st =
    Some (if eq_str (get st "mode" VNone) "existing"
          then [ {| name := "Hostname";
                    passed := VBool (Nat.ltb 0 (String.length host));
                    message := if Nat.ltb 0 (String.length host)
                               then "Hostname: " +:+ host else "Hostname not set";
                    critical := false |} ]
          else []).
Proof.
  intros Hh. unfold check_hostname. rewrite Hh.
  destruct (eq_str _ _); [|reflexivity]. cbn -[Nat.ltb].
  destruct (Nat.ltb 0 (String.length host)); reflexivity.
Qed.

Lemma run_validations_typed st si :
  typed_state st = true → typed_info si = true →
  ∃ vs, run_validations (init st si) = Some vs.
Proof.
  intros (drives & level & pool & host & Hd & Hl & Hp & Hh)%typed_state_inv
         (c2 & Hc2 & _)%check_ram_typed.
  unfold run_validations. cbn [state system_info init].
  rewrite Hc2, (check_drives_list _ _ Hd), (check_raid_typed _ _ _ Hd Hl),
    (check_pool_str _ _ Hp), (check_hostname_str _ _ Hh).
  cbn. eauto.
Qed.

Lemma all_critical_passed_Forall cs :
  all_critical_passed cs = true ↔
  Forall (λ c, critical c = true → passes c = true) cs.
Proof.
  unfold all_critical_passed, passes.
  induction cs as [|c cs IH]; simpl.
  - split; [constructor|reflexivity].
  - rewrite Forall_cons. destruct (critical c); simpl.
    + rewrite andb_true_iff, IH. intuition.
    + rewrite IH. intuition congruence.
Qed.

Lemma wait_loop_valid vs keys rest :
  wait_loop vs keys = Ret "valid" rest → all_passed vs = true.
Proof.
  induction keys as [|key keys IH]; cbn [wait_loop]; [discriminate|].
  destruct (key_in key [NL; CR] && all_passed vs) eqn:E.
  - intros _. apply andb_prop in E. tauto.
  - destruct (String.eqb key "escape"); [discriminate|].
    destruct (String.eqb (lower key) "q"); [discriminate|]. exact IH.
Qed.

Lemma wait_loop_refuses vs keys :
  all_passed vs = false →
  wait_loop vs (NL :: keys) = wait_loop vs keys
  ∧ wait_loop vs (CR :: keys) = wait_loop vs keys.
Proof. intros H. cbn [wait_loop]. rewrite H. split; reflexivity. Qed.

Lemma all_passed_run self vs :
  run_validations self = Some vs →
  all_passed vs = all_critical_passed (checks vs) ∧ state vs = state self.
Proof.
  unfold run_validations. intros H.
  destruct (check_ram _); [|discriminate].
  destruct (check_drives _); [|discriminate].
  destruct (check_raid _); [|discriminate].
  destruct (check_pool _); [|discriminate].
  destruct (check_hostname _); [|discriminate].
  cbn in H. injection H as <-. split; reflexivity.
Qed.

Lemma show_valid scr keys rest :
  show scr keys = Ret "valid" rest →
  ∃ vs, run_validations scr = Some vs ∧ all_passed vs = true
        ∧ Forall (λ c, critical c = true → passes c = true) (checks vs).
Proof.
  unfold show. destruct (run_validations scr) as [vs|] eqn:E; [|discriminate].
  intros H%wait_loop_valid. exists vs. split; [reflexivity|]. split; [exact H|].
  apply all_critical_passed_Forall.
  destruct (all_passed_run _ _ E) as [<- _]. exact H.
Qed.

Import ZBMNotcursesTUI.

Ltac at_screen H :=
  unfold run_iter; rewrite H;
  cbn [String.eqb Ascii.eqb Bool.eqb andb].

Lemma run_iter_validation self keys :
  current_screen self = "validation" →
  run_iter self keys =
    match ValidationScreen.show
            (ValidationScreen.init (state self) (system_info self)) keys with
    | Ret r rest =>
        if String.eqb r "back" then Ret (Continue (goto self "settings")) rest
        else if String.eqb r "quit" then Ret (Break self) rest
        else if String.eqb r "valid" then Ret (Continue (goto self "confirm")) rest
        else Ret (Continue self) rest
    | Blocked => Blocked
    | Raised => Raised
    end.
Proof. intros H. at_screen H. reflexivity. Qed.

Lemma wait_loop_results vs keys r rest :
  wait_loop vs keys = Ret r rest → r = "valid" ∨ r = "back" ∨ r = "quit".
Proof.
  induction keys as [|key keys IH]; cbn [wait_loop]; [discriminate|].
  destruct (key_in key [NL; CR] && all_passed vs); [intros [= <- _]; auto|].
  destruct (String.eqb key "escape"); [intros [= <- _]; auto|].
  destruct (String.eqb (lower key) "q"); [intros [= <- _]; auto|]. exact IH.
Qed.

Lemma run_iter_validation_confirm self keys self' rest :
  current_screen self = "validation" →
  run_iter self keys = Ret (Continue self') rest →
  current_screen self' = "confirm" →
  ValidationScreen.show
    (ValidationScreen.init (state self) (system_info self)) keys = Ret "valid" rest.
Proof.
  intros H. rewrite (run_iter_validation _ _ H).
  destruct (ValidationScreen.show _ keys) as [r rest'| |] eqn:E; try discriminate.
  assert (Hr : r = "valid" ∨ r = "back" ∨ r = "quit").
  { unfold ValidationScreen.show in E.
    destruct (run_validations _); [|discriminate]. eapply wait_loop_results, E. }
  destruct Hr as [->|[->| ->]]; cbn; intros [= <- <-]; cbn; try discriminate.
  reflexivity.
Qed.

(** C1. From the Validation screen the wizard reaches Confirmation only when
    every critical check of the results computed on this entry passed: [show]
    returns "valid" only then, the main loop moves to "confirm" only then,
    and when some critical check failed no key sequence yields "valid", the
    loop never moves to "confirm", and an Enter key is skipped. *)
Theorem validation_gate (self : ZBMNotcursesTUI.t) (keys : list string) :
  current_screen self = "validation" →
  (∀ rest,
     ValidationScreen.show
       (ValidationScreen.init (state self) (system_info self)) keys
     = Ret "valid" rest →
     ∃ vs, run_validations (ValidationScreen.init (state self) (system_info self))
           = Some vs
           ∧ all_passed vs = true
           ∧ Forall (λ c, critical c = true → passes c = true) (checks vs))
  ∧ (∀ self' rest,
       run_iter self keys = Ret (Continue self') rest →
       current_screen self' = "confirm" →
       ∃ vs, run_validations (ValidationScreen.init (state self) (system_info self))
             = Some vs
             ∧ all_passed vs = true
             ∧ Forall (λ c, critical c = true → passes c = true) (checks vs))
  ∧ (∀ vs,
       run_validations (ValidationScreen.init (state self) (system_info self))
       = Some vs →
       ¬ Forall (λ c, critical c = true → passes c = true) (checks vs) →
       (∀ rest,
          ValidationScreen.show
            (ValidationScreen.init (state self) (system_info self)) keys
          ≠ Ret "valid" rest)
       ∧ (∀ self' rest,
            run_iter self keys = Ret (Continue self') rest →
            current_screen self' ≠ "confirm")
       ∧ ValidationScreen.show
           (ValidationScreen.init (state self) (system_info self)) (NL :: keys)
         = ValidationScreen.show
             (ValidationScreen.init (state self) (system_info self)) keys
       ∧ ValidationScreen.show
           (ValidationScreen.init (state self) (system_info self)) (CR :: keys)
         = ValidationScreen.show
             (ValidationScreen.init (state self) (system_info self)) keys).
Proof.
  intros Hscr. split; [|split].
  - intros rest. apply show_valid.
  - intros self' rest Hrun Hconf.
    eapply show_valid, run_iter_validation_confirm; eassumption.
  - intros vs Hvs Hnot.
    assert (Hno : ∀ rest,
              ValidationScreen.show
                (ValidationScreen.init (state self) (system_info self)) keys
              ≠ Ret "valid" rest).
    { intros rest (vs' & Hvs' & _ & Hall)%show_valid.
      rewrite Hvs in Hvs'. injection Hvs' as <-. exact (Hnot Hall). }
    split; [exact Hno|]. split.
    + intros self' rest Hrun Hconf.
      exact (Hno rest (run_iter_validation_confirm _ _ _ _ Hscr Hrun Hconf)).
    + assert (Hf : all_passed vs = false).
      { destruct (all_passed vs) eqn:E; [|reflexivity]. exfalso. apply Hnot.
        apply all_critical_passed_Forall.
        destruct (all_passed_run _ _ Hvs) as [<- _]. exact E. }
      unfold ValidationScreen.show. rewrite Hvs.
      apply wait_loop_refuses, Hf.
Qed.

Lemma validation_gate_witness :
  ∃ vs, run_validations (ValidationScreen.init one_drive_state efi_info) = Some vs
        ∧ all_passed vs = true
        ∧ Forall (λ c, critical c = true → passes c = true) (checks vs).
Proof.
  destruct (validation_gate (app_at "validation" one_drive_state efi_info) [NL] eq_refl)
    as [H _].
  apply (H []). vm_compute. reflexivity.
Defined.

(** Without EFI, everything else passing: only the EFI check fails, the
    screen skips Enter, and the loop stays away from "confirm". *)
Example no_efi_blocks_confirmation :
  ∃ vs,
    run_validations
      (ValidationScreen.init one_drive_state (<["is_efi" := VBool false]> efi_info))
    = Some vs
    ∧ all_passed vs = false
    ∧ List.filter (λ c, negb (passes c)) (checks vs)
      = [ {| name := "EFI System Check"; passed := VBool false;
             message := "BIOS not supported"; critical := true |} ]
    ∧ run_iter (app_at "validation" one_drive_state
                       (<["is_efi" := VBool false]> efi_info))
               [NL; CR; "escape"]
      = Ret (Continue (app_at "settings" one_drive_state
                              (<["is_efi" := VBool false]> efi_info))) [].
Proof.
  eexists. split; [vm_compute; reflexivity|].
  split; [reflexivity|]. split; [reflexivity|]. vm_compute. reflexivity.
Qed.

Lemma get_insert_eq (st : gmap string value) k v d : get (<[k := v]> st) k d = v.
Proof. unfold get. rewrite lookup_insert_eq. reflexivity. Qed.

Lemma get_insert_ne (st : gmap string value) k k' v d :
  k ≠ k' → get (<[k := v]> st) k' d = get st k' d.
Proof. intros H. unfold get. rewrite lookup_insert_ne by exact H. reflexivity. Qed.

Lemma run_validations_shape st si drives level pool host :
  typed_info si = true →
  get st "drives" (VList []) = VList drives →
  get st "raid_level" (VStr "none") = VStr level →
  get st "pool_name" (VStr "") = VStr pool →
  get st "hostname" (VStr "") = VStr host →
  ∃ c2 vs,
    check_ram si = Some c2 ∧ name c2 = "RAM Check" ∧ critical c2 = true
    ∧ run_validations (ValidationScreen.init st si) = Some vs
    ∧ checks vs = ([check_efi si; c2; drives_entry (List.length drives);
                    raid_entry level (List.length drives); pool_entry pool]
                   ++ hostname_entries (get st "mode" VNone) host)%list
    ∧ all_passed vs = all_critical_passed (checks vs).
Proof.
  intros (c2 & Hc2 & Hn & Hc)%check_ram_typed Hd Hl Hp Hh.
  exists c2. eexists. split; [exact Hc2|]. split; [exact Hn|]. split; [exact Hc|].
  unfold run_validations. cbn [ValidationScreen.state ValidationScreen.system_info ValidationScreen.init].
  rewrite Hc2, (check_drives_list _ _ Hd), (check_raid_typed _ _ _ Hd Hl),
    (check_pool_str _ _ Hp), (check_hostname_str _ _ Hh).
  cbn [mbind option_bind]. split; [reflexivity|]. split; reflexivity.
Qed.

Lemma all_critical_passed_fails cs c :
  c ∈ cs → critical c = true → passes c = false → all_critical_passed cs = false.
Proof.
  intros Hin Hc Hp. destruct (all_critical_passed cs) eqn:E; [|reflexivity].
  apply all_critical_passed_Forall in E. rewrite Forall_forall in E.
  specialize (E c Hin Hc). congruence.
Qed.

Lemma all_critical_passed_app_noncritical cs ds :
  Forall (λ c, critical c = false) ds →
  all_critical_passed (cs ++ ds)%list = all_critical_passed cs.
Proof.
  intros H. unfold all_critical_passed. rewrite List.filter_app.
  replace (List.filter critical ds) with (@nil Check).
  - rewrite app_nil_r. reflexivity.
  - induction H as [|d ds Hd _ IH]; simpl; [reflexivity|]. rewrite Hd. exact IH.
Qed.

Lemma hostname_entries_noncritical mode host :
  Forall (λ c, critical c = false) (hostname_entries mode host).
Proof.
  unfold hostname_entries. destruct (eq_str mode "existing"); repeat constructor.
Qed.

(** *** Pool name (check 5) *)

Lemma spec_pool_char_pool_char a : spec_pool_char a = true → pool_char a = true.
Proof.
  unfold spec_pool_char, pool_char.
  destruct (ascii_alnum_char a) eqn:E; [rewrite (ascii_alnum_is_alnum _ E); reflexivity|].
  destruct (Ascii.eqb a "_"), (Ascii.eqb a "-"), (isalnum_char a); simpl; congruence.
Qed.

Lemma string_forallb_impl (p q : ascii → bool) s :
  (∀ a, p a = true → q a = true) →
  string_forallb p s = true → string_forallb q s = true.
Proof.
  intros Hpq. induction s as [|a s IH]; simpl; [reflexivity|].
  intros [Ha Hs]%andb_prop. rewrite (Hpq _ Ha), (IH Hs). reflexivity.
Qed.

Lemma string_existsb_impl (p q : ascii → bool) s :
  (∀ a, p a = true → q a = true) →
  string_existsb p s = true → string_existsb q s = true.
Proof.
  intros Hpq. induction s as [|a s IH]; simpl; [discriminate|].
  intros [Ha|Hs]%orb_prop; [rewrite (Hpq _ Ha); reflexivity|].
  rewrite (IH Hs). apply orb_true_r.
Qed.

(** C2, as amended. On a typed state the fifth check is the critical
    "Pool Name" check; it passes exactly when every character of the name is
    alphanumeric ([str.isalnum]), an underscore or a hyphen, and at least one
    character is alphanumeric. Hence a name over [A-Za-z0-9_-] with at least
    one letter or digit passes, and a name having a character that is none of
    alphanumeric, underscore, hyphen fails. *)
Theorem pool_name_check (st si : gmap string value) (p : string) :
  typed_state st = true →
  typed_info si = true →
  get st "pool_name" (VStr "") = VStr p →
  ∃ vs c,
    run_validations (ValidationScreen.init st si) = Some vs
    ∧ checks vs !! 4%nat = Some c
    ∧ name c = "Pool Name"
    ∧ critical c = true
    ∧ (passes c = true ↔
       string_forallb pool_char p = true ∧ string_existsb isalnum_char p = true)
    ∧ (string_forallb spec_pool_char p = true →
       string_existsb ascii_alnum_char p = true → passes c = true)
    ∧ (string_forallb pool_char p = false → passes c = false).
Proof.
  intros (drives & level & pool & host & Hd & Hl & Hp & Hh)%typed_state_inv Hsi Hp'.
  rewrite Hp' in Hp. injection Hp as <-.
  destruct (run_validations_shape _ _ _ _ _ _ Hsi Hd Hl Hp' Hh)
    as (c2 & vs & _ & _ & _ & Hrun & Hchecks & _).
  exists vs, (pool_entry p). split; [exact Hrun|].
  split; [rewrite Hchecks; reflexivity|].
  split; [reflexivity|]. split; [reflexivity|].
  change (passes (pool_entry p)) with (pool_ok p).
  split; [apply pool_ok_spec|]. split.
  - intros Hall Hex. apply pool_ok_spec. split.
    + eapply string_forallb_impl, Hall. apply spec_pool_char_pool_char.
    + eapply string_existsb_impl, Hex. apply ascii_alnum_is_alnum.
  - intros Hbad. destruct (pool_ok p) eqn:E; [|reflexivity].
    apply pool_ok_spec in E as [E _]. congruence.
Qed.

Lemma pool_name_check_witness :
  ∃ vs c,
    run_validations (ValidationScreen.init one_drive_state efi_info) = Some vs
    ∧ checks vs !! 4%nat = Some c
    ∧ name c = "Pool Name"
    ∧ passes c = true.
Proof.
  destruct (pool_name_check one_drive_state efi_info "zroot" eq_refl eq_refl eq_refl)
    as (vs & c & Hrun & Hc & Hn & _ & _ & Hpass & _).
  exists vs, c. repeat split; try assumption.
  apply Hpass; reflexivity.
Defined.

(** The name "_" is non-empty and within [A-Za-z0-9_-], yet check 5 fails;
    the one-character name U+00E9 (e with acute accent) is outside
    [A-Za-z0-9_-], yet check 5 passes, since [str.isalnum] accepts it. *)
Lemma pool_name_claim_fails :
  (spec_pool_name_ok "_" = true
   ∧ ∃ vs c,
       run_validations
         (ValidationScreen.init (<["pool_name" := VStr "_"]> one_drive_state) efi_info)
       = Some vs
       ∧ checks vs !! 4%nat = Some c
       ∧ name c = "Pool Name"
       ∧ passes c = false)
  ∧ (spec_pool_name_ok (String "233"%char "") = false
     ∧ ∃ vs c,
         run_validations
           (ValidationScreen.init
              (<["pool_name" := VStr (String "233"%char "")]> one_drive_state) efi_info)
         = Some vs
         ∧ checks vs !! 4%nat = Some c
         ∧ name c = "Pool Name"
         ∧ passes c = true).
Proof.
  split; (split; [reflexivity|]);
    (eexists; eexists; split; [vm_compute; reflexivity|]);
    (split; [reflexivity|]); split; reflexivity.
Qed.

(** *** RAID configuration (check 4) *)

(** C3. On a typed state the fourth check is the critical
    "RAID Configuration" check. For mirror, raidz1, raidz2, raidz3 with fewer
    drives than the level's minimum (2, 3, 4, 5) it fails, [all_passed] is
    false and the message reads "<level> requires <minimum>+ drives"; with
    at least the minimum it passes, and level "none" always passes. *)
Theorem raid_check_minimum (st si : gmap string value) (level : string)
    (drives : list string) :
  typed_state st = true →
  typed_info si = true →
  get st "raid_level" (VStr "none") = VStr level →
  get st "drives" (VList []) = VList drives →
  ∃ vs c,
    run_validations (ValidationScreen.init st si) = Some vs
    ∧ checks vs !! 3%nat = Some c
    ∧ name c = "RAID Configuration"
    ∧ critical c = true
    ∧ (level ∈ ["mirror"; "raidz1"; "raidz2"; "raidz3"] →
       (List.length drives < spec_min_drives level)%nat →
       passes c = false
       ∧ all_passed vs = false
       ∧ message c = raid_label level +:+ " requires "
                     +:+ pretty (spec_min_drives level) +:+ "+ drives")
    ∧ ((spec_min_drives level ≤ List.length drives)%nat → passes c = true)
    ∧ (level = "none" → passes c = true).
Proof.
  intros (drives' & level' & pool & host & Hd & Hl & Hp & Hh)%typed_state_inv
         Hsi Hl' Hd'.
  rewrite Hl' in Hl. injection Hl as <-. rewrite Hd' in Hd. injection Hd as <-.
  destruct (run_validations_shape _ _ _ _ _ _ Hsi Hd' Hl' Hp Hh)
    as (c2 & vs & _ & _ & _ & Hrun & Hchecks & Hall).
  exists vs, (raid_entry level (List.length drives)).
  split; [exact Hrun|]. split; [rewrite Hchecks; reflexivity|].
  split; [reflexivity|]. split; [reflexivity|].
  unfold passes. cbn [passed raid_entry message truthy]. split; [|split].
  - intros _ Hlt. apply Nat.leb_gt in Hlt. rewrite Hlt.
    split; [reflexivity|]. split; [|reflexivity].
    rewrite Hall. apply all_critical_passed_fails with (raid_entry level (List.length drives)).
    + rewrite Hchecks. set_solver.
    + reflexivity.
    + unfold passes. cbn. exact Hlt.
  - intros Hle. apply Nat.leb_le in Hle. exact Hle.
  - intros ->. reflexivity.
Qed.

(** One drive under a mirror: "Mirror requires 2+ drives". *)
Lemma raid_check_minimum_witness :
  ∃ vs c,
    run_validations
      (ValidationScreen.init (<["raid_level" := VStr "mirror"]> one_drive_state) efi_info)
    = Some vs
    ∧ checks vs !! 3%nat = Some c
    ∧ passes c = false
    ∧ all_passed vs = false
    ∧ message c = "Mirror requires 2+ drives".
Proof.
  destruct (raid_check_minimum (<["raid_level" := VStr "mirror"]> one_drive_state)
              efi_info "mirror" ["sda"])
    as (vs & c & Hrun & Hc & _ & _ & Hfail & _);
    [vm_compute; reflexivity ..|].
  exists vs, c. split; [exact Hrun|]. split; [exact Hc|].
  apply Hfail; [constructor | vm_compute; lia].
Defined.

(** *** Hostname (check 6) *)

Lemma eq_str_true v s : eq_str v s = true ↔ v = VStr s.
Proof.
  destruct v; simpl; try (split; [discriminate|intros [=]]).
  rewrite String.eqb_eq. split; [intros ->; reflexivity|intros [= ->]; reflexivity].
Qed.

Lemma mode_existing_iff (st : gmap string value) :
  eq_str (get st "mode" VNone) "existing" = true
  ↔ st !! "mode" = Some (VStr "existing").
Proof.
  rewrite eq_str_true. unfold get.
  destruct (st !! "mode") as [v|]; simpl; split; congruence.
Qed.

(** C7. The results hold a check named "Hostname" exactly when the mode is
    "existing"; that check is not critical and passes exactly when the host
    name is non-empty; whatever the host name, [all_passed] is the same, and
    outside migration mode the whole list of checks is the same. *)
Theorem hostname_check_migration_only (st si : gmap string value) (host : string) :
  typed_state st = true →
  typed_info si = true →
  get st "hostname" (VStr "") = VStr host →
  ∃ vs,
    run_validations (ValidationScreen.init st si) = Some vs
    ∧ ((∃ c, c ∈ checks vs ∧ name c = "Hostname")
       ↔ st !! "mode" = Some (VStr "existing"))
    ∧ (∀ c, c ∈ checks vs → name c = "Hostname" →
         critical c = false ∧ (passes c = true ↔ host ≠ ""))
    ∧ (∀ host', ∃ vs',
         run_validations
           (ValidationScreen.init (<["hostname" := VStr host']> st) si) = Some vs'
         ∧ all_passed vs' = all_passed vs
         ∧ (st !! "mode" ≠ Some (VStr "existing") → checks vs' = checks vs)).
Proof.
  intros (drives & level & pool & host0 & Hd & Hl & Hp & Hh)%typed_state_inv Hsi Hh'.
  rewrite Hh' in Hh. injection Hh as <-.
  destruct (run_validations_shape _ _ _ _ _ _ Hsi Hd Hl Hp Hh')
    as (c2 & vs & Hc2 & Hn2 & _ & Hrun & Hchecks & Hall).
  exists vs. split; [exact Hrun|].
  assert (Hin : ∀ c, c ∈ checks vs → name c = "Hostname" →
                c ∈ hostname_entries (get st "mode" VNone) host).
  { intros c Hc Hname. rewrite Hchecks in Hc.
    apply elem_of_app in Hc as [Hc|Hc]; [|exact Hc].
    exfalso. set_unfold in Hc.
    destruct Hc as [->|[->|[->|[->|[->|[]]]]]]; try discriminate Hname.
    rewrite Hn2 in Hname. discriminate Hname. }
  split; [|split].
  - rewrite <- mode_existing_iff. split.
    + intros (c & Hc & Hname). specialize (Hin c Hc Hname).
      unfold hostname_entries in Hin.
      destruct (eq_str _ "existing"); [reflexivity|]. inversion Hin.
    + intros Hm. eexists. split.
      * rewrite Hchecks. apply elem_of_app. right.
        unfold hostname_entries. rewrite Hm. left.
      * reflexivity.
  - intros c Hc Hname. specialize (Hin c Hc Hname).
    unfold hostname_entries in Hin.
    destruct (eq_str _ "existing"); [|inversion Hin].
    apply list_elem_of_singleton in Hin as ->.
    split; [reflexivity|]. unfold passes. cbn [passed truthy].
    destruct host; cbn; split; intros H; try reflexivity; try discriminate H;
      try (intros E; discriminate E). contradiction.
  - intros host'.
    destruct (run_validations_shape (<["hostname" := VStr host']> st) si
                drives level pool host' Hsi)
      as (c2' & vs' & Hc2' & _ & _ & Hrun' & Hchecks' & Hall');
      try (rewrite get_insert_ne by discriminate; assumption).
    { apply get_insert_eq. }
    rewrite Hc2 in Hc2'. injection Hc2' as <-.
    rewrite get_insert_ne in Hchecks' by discriminate.
    exists vs'. split; [exact Hrun'|]. split.
    + rewrite Hall, Hall', Hchecks, Hchecks'.
      rewrite !all_critical_passed_app_noncritical
        by apply hostname_entries_noncritical.
      reflexivity.
    + intros Hm. rewrite Hchecks, Hchecks'. f_equal.
      unfold hostname_entries.
      destruct (eq_str _ "existing") eqn:E; [|reflexivity].
      apply mode_existing_iff in E. contradiction.
Qed.

(** New-install mode with no host name: five checks, none named Hostname,
    and validation passes. *)
Lemma hostname_check_migration_only_witness :
  ∃ vs,
    run_validations (ValidationScreen.init one_drive_state efi_info) = Some vs
    ∧ ¬ (∃ c, c ∈ checks vs ∧ name c = "Hostname")
    ∧ all_passed vs = true.
Proof.
  destruct (hostname_check_migration_only one_drive_state efi_info "")
    as (vs & Hrun & Habsent & _); [vm_compute; reflexivity ..|].
  exists vs. split; [exact Hrun|]. split.
  - intros H. apply Habsent in H. vm_compute in H. discriminate H.
  - vm_compute in Hrun. injection Hrun as <-. reflexivity.
Defined.

(** *** Back from Validation *)

Lemma run_validations_state self vs :
  run_validations self = Some vs → ValidationScreen.state vs = ValidationScreen.state self.
Proof. intros H. apply (all_passed_run _ _ H). Qed.

(** C6. Entering Validation and going back leaves the state dict as it was:
    [run_validations] returns a screen over the same dict, Escape leads to
    "settings" with the application otherwise unchanged, and any pass of the
    main loop that goes from "validation" to "settings" keeps the state, the
    system information and the devices. *)
Theorem validation_back_keeps_state (self : ZBMNotcursesTUI.t) (keys : list string) :
  current_screen self = "validation" →
  (∀ vs,
     run_validations (ValidationScreen.init (state self) (system_info self)) = Some vs →
     ValidationScreen.state vs = state self
     ∧ run_iter self ("escape" :: keys) = Ret (Continue (goto self "settings")) keys)
  ∧ (∀ self' rest,
       run_iter self keys = Ret (Continue self') rest →
       current_screen self' = "settings" →
       state self' = state self
       ∧ system_info self' = system_info self
       ∧ devices self' = devices self).
Proof.
  intros Hscr. split.
  - intros vs Hvs. split; [apply (run_validations_state _ _ Hvs)|].
    rewrite (run_iter_validation _ _ Hscr). unfold ValidationScreen.show.
    rewrite Hvs. cbn [wait_loop]. 
    replace (key_in "escape" [NL; CR]) with false by reflexivity.
    reflexivity.
  - intros self' rest Hrun _. revert Hrun.
    rewrite (run_iter_validation _ _ Hscr).
    destruct (ValidationScreen.show _ keys) as [r rest'| |]; try discriminate.
    destruct (String.eqb r "back"); [intros [= <- _]; auto|].
    destruct (String.eqb r "quit"); [discriminate|].
    destruct (String.eqb r "valid"); intros [= <- _]; auto.
Qed.

Lemma validation_back_keeps_state_witness :
  run_iter (app_at "validation" migrate_state efi_info) ["x"; "escape"]
  = Ret (Continue (app_at "settings" migrate_state efi_info)) []
  ∧ state (app_at "settings" migrate_state efi_info) = migrate_state.
Proof.
  destruct (validation_back_keeps_state
              (app_at "validation" migrate_state efi_info) ["x"; "escape"] eq_refl)
    as [_ H].
  assert (E : run_iter (app_at "validation" migrate_state efi_info) ["x"; "escape"]
              = Ret (Continue (app_at "settings" migrate_state efi_info)) [])
    by (vm_compute; reflexivity).
  split; [exact E|]. apply (H _ _ E). reflexivity.
Defined.

(** *** Settings fields *)

(** C5, as amended. The Settings field list depends on the mode: in
    migration mode it is the new-install list of eight fields followed by
    exactly two more, "source_root" and "copy_home". *)
Theorem settings_fields_by_mode (st_new st_mig : gmap string value) :
  st_new !! "mode" = Some (VStr "new") →
  st_mig !! "mode" = Some (VStr "existing") →
  SettingsScreen.fields (SettingsScreen.init st_mig)
  = (SettingsScreen.fields (SettingsScreen.init st_new)
     ++ [ mkField "source_root" "Source Root" "text" None;
          mkField "copy_home" "Copy /home" "bool" None ])%list
  ∧ List.length (SettingsScreen.fields (SettingsScreen.init st_new)) = 8%nat
  ∧ List.length (SettingsScreen.fields (SettingsScreen.init st_mig)) = 10%nat.
Proof.
  intros Hnew Hmig. unfold SettingsScreen.init, get.
  rewrite Hnew, Hmig. cbn [SettingsScreen.fields default from_option id eq_str].
  replace (String.eqb "new" "existing") with false by reflexivity.
  replace (String.eqb "existing" "existing") with true by reflexivity.
  split; [reflexivity|]. split; reflexivity.
Qed.

(** Of the four migration-only entries of the state, the field lists offer
    "hostname" in every mode and "exclude_paths" in none. *)
Lemma settings_fields_keys (st : gmap string value) :
  "hostname" ∈ field_key <$> SettingsScreen.fields (SettingsScreen.init st)
  ∧ "exclude_paths" ∉ field_key <$> SettingsScreen.fields (SettingsScreen.init st).
Proof.
  unfold SettingsScreen.init. cbn [SettingsScreen.fields].
  destruct (eq_str _ "existing"); cbn [fmap list_fmap field_key]; (split;
    [right; left
    |intros H; repeat (apply elem_of_cons in H as [H|H]; [discriminate H|]);
     inversion H]).
Qed.

Lemma settings_fields_by_mode_witness :
  SettingsScreen.fields (SettingsScreen.init migrate_state)
  = (SettingsScreen.fields (SettingsScreen.init one_drive_state)
     ++ [ mkField "source_root" "Source Root" "text" None;
          mkField "copy_home" "Copy /home" "bool" None ])%list.
Proof.
  apply (settings_fields_by_mode one_drive_state migrate_state);
    vm_compute; reflexivity.
Defined.

(** Migration mode adds two fields to the new-install list, not four. *)
Lemma settings_fields_not_four_extra :
  List.length (SettingsScreen.fields (SettingsScreen.init migrate_state))
  ≠ (List.length (SettingsScreen.fields (SettingsScreen.init one_drive_state)) + 4)%nat
  ∧ List.length (SettingsScreen.fields (SettingsScreen.init migrate_state))
    = (List.length (SettingsScreen.fields (SettingsScreen.init one_drive_state)) + 2)%nat.
Proof. split; [vm_compute; discriminate | vm_compute; reflexivity]. Qed.

(** *** Install steps *)

(** C9. [init_steps] chooses the step list by the mode: nine names for
    "existing", seven for "new" (and for any other value), the first always
    "Checking device fitness" and the last "Finalizing installation". *)
Theorem install_steps_by_mode (st : gmap string value) :
  let steps := InstallationScreen.steps
                 (InstallationScreen.init_steps (InstallationScreen.init st)) in
  (st !! "mode" = Some (VStr "existing") → List.length steps = 9%nat)
  ∧ (st !! "mode" = Some (VStr "new") → List.length steps = 7%nat)
  ∧ (List.length steps = 9%nat ∨ List.length steps = 7%nat)
  ∧ head steps = Some "Checking device fitness"
  ∧ last steps = Some "Finalizing installation".
Proof.
  cbn zeta. unfold InstallationScreen.init_steps, InstallationScreen.init, get.
  cbn [InstallationScreen.state InstallationScreen.steps].
  split; [intros ->; reflexivity|]. split; [intros ->; reflexivity|].
  destruct (eq_str _ "existing"); (split; [auto|split; reflexivity]).
Qed.

(** *** Install outcome *)

Lemma run_steps_steps self i todo :
  InstallationScreen.steps (InstallationScreen.run_steps self i todo)
  = InstallationScreen.steps self.
Proof.
  revert self i. induction todo as [|s todo IH]; intros self i; [reflexivity|].
  cbn [InstallationScreen.run_steps]. rewrite IH. reflexivity.
Qed.

Lemma show_install_result self :
  snd (InstallationScreen.show self) = "success"
  ∧ InstallationScreen.current_step (fst (InstallationScreen.show self))
    = List.length (InstallationScreen.steps (InstallationScreen.init_steps self))
  ∧ InstallationScreen.steps (fst (InstallationScreen.show self))
    = InstallationScreen.steps (InstallationScreen.init_steps self).
Proof.
  unfold InstallationScreen.show.
  cbn [fst snd InstallationScreen.set_current_step InstallationScreen.current_step
       InstallationScreen.steps].
  rewrite run_steps_steps. auto.
Qed.

Lemma add_log_fields self msg :
  InstallationScreen.state (InstallationScreen.add_log self msg)
  = InstallationScreen.state self
  ∧ InstallationScreen.steps (InstallationScreen.add_log self msg)
    = InstallationScreen.steps self
  ∧ InstallationScreen.current_step (InstallationScreen.add_log self msg)
    = InstallationScreen.current_step self
  ∧ InstallationScreen.max_log_lines (InstallationScreen.add_log self msg)
    = InstallationScreen.max_log_lines self.
Proof. repeat split. Qed.

Lemma add_log_drop self msg :
  (List.length (InstallationScreen.log_lines self)
   ≤ InstallationScreen.max_log_lines self)%nat →
  InstallationScreen.log_lines (InstallationScreen.add_log self msg)
  = drop (List.length (InstallationScreen.log_lines self) + 1
          - InstallationScreen.max_log_lines self)
         (InstallationScreen.log_lines self ++ [msg])%list
  ∧ (List.length (InstallationScreen.log_lines (InstallationScreen.add_log self msg))
     ≤ InstallationScreen.max_log_lines self)%nat.
Proof.
  intros Hlen. unfold InstallationScreen.add_log.
  cbn [InstallationScreen.log_lines]. rewrite length_app. cbn [List.length].
  destruct (Nat.ltb_spec (InstallationScreen.max_log_lines self)
              (List.length (InstallationScreen.log_lines self) + 1)) as [Hlt|Hge].
  - replace (List.length (InstallationScreen.log_lines self) + 1
             - InstallationScreen.max_log_lines self)%nat with 1%nat by lia.
    split.
    + destruct (InstallationScreen.log_lines self ++ [msg])%list; reflexivity.
    + destruct (InstallationScreen.log_lines self) as [|x xs] eqn:E; cbn in *.
      * lia.
      * rewrite length_app. cbn. lia.
  - replace (List.length (InstallationScreen.log_lines self) + 1
             - InstallationScreen.max_log_lines self)%nat with 0%nat by lia.
    split; [reflexivity|]. rewrite length_app. cbn. lia.
Qed.

Lemma fold_add_log_last (self : InstallationScreen.t) (msgs : list string) :
  (List.length (InstallationScreen.log_lines self)
   ≤ InstallationScreen.max_log_lines self)%nat →
  InstallationScreen.log_lines (fold_left InstallationScreen.add_log msgs self)
  = drop (List.length (InstallationScreen.log_lines self ++ msgs)%list
          - InstallationScreen.max_log_lines self)
         (InstallationScreen.log_lines self ++ msgs)%list
  ∧ (List.length
       (InstallationScreen.log_lines (fold_left InstallationScreen.add_log msgs self))
     ≤ InstallationScreen.max_log_lines self)%nat
  ∧ InstallationScreen.max_log_lines (fold_left InstallationScreen.add_log msgs self)
    = InstallationScreen.max_log_lines self.
Proof.
  revert self. induction msgs as [|m ms IH]; intros self Hlen.
  - cbn [fold_left]. rewrite app_nil_r.
    replace (_ - _)%nat with 0%nat by lia. auto.
  - cbn [fold_left].
    destruct (add_log_drop self m Hlen) as [Hlog Hlen'].
    destruct (IH (InstallationScreen.add_log self m)) as (IH1 & IH2 & IH3).
    { exact Hlen'. }
    cbn [InstallationScreen.max_log_lines InstallationScreen.add_log] in IH1, IH2, IH3.
    split; [|split; [exact IH2|exact IH3]].
    rewrite IH1. clear IH1 IH2 IH3.
    change (InstallationScreen.log_lines (InstallationScreen.add_log self m))
      with (InstallationScreen.log_lines (InstallationScreen.add_log self m)).
    rewrite Hlog. clear Hlog Hlen'.
    set (log := InstallationScreen.log_lines self) in *.
    set (mx := InstallationScreen.max_log_lines self) in *.
    rewrite !length_app, length_drop, !length_app. cbn [List.length].
    destruct (decide (List.length log + 1 ≤ mx)%nat) as [Hle|Hgt].
    + replace (List.length log + 1 - mx)%nat with 0%nat by lia.
      rewrite drop_0, <- app_assoc. cbn. f_equal. lia.
    + replace (List.length log + 1 - mx)%nat with 1%nat by lia.
      replace (List.length log + S (List.length ms) - mx)%nat
        with (S (List.length ms)) by lia.
      replace (List.length log + 1 - 1 + List.length ms - mx)%nat
        with (List.length ms) by lia.
      change (S (List.length ms)) with (1 + List.length ms)%nat.
      rewrite <- drop_drop. f_equal.
      replace (log ++ m :: ms)%list with ((log ++ [m]) ++ ms)%list
        by (rewrite <- app_assoc; reflexivity).
      destruct (log ++ [m])%list eqn:E; [destruct log; discriminate E|reflexivity].
Qed.

Lemma fold_add_log_ext msgs :
  ∀ a b,
    InstallationScreen.log_lines a = InstallationScreen.log_lines b →
    InstallationScreen.max_log_lines a = InstallationScreen.max_log_lines b →
    InstallationScreen.log_lines (fold_left InstallationScreen.add_log msgs a)
    = InstallationScreen.log_lines (fold_left InstallationScreen.add_log msgs b).
Proof.
  induction msgs as [|m ms IH]; intros a b Hl Hm; [exact Hl|].
  cbn [fold_left]. apply IH.
  - unfold InstallationScreen.add_log. cbn. rewrite Hl, Hm. reflexivity.
  - exact Hm.
Qed.

Lemma run_steps_log todo :
  ∀ self i,
    InstallationScreen.log_lines (InstallationScreen.run_steps self i todo)
    = InstallationScreen.log_lines
        (fold_left InstallationScreen.add_log
           (flat_map (λ s, ["Starting: " +:+ s; "Completed: " +:+ s]) todo) self)
    ∧ InstallationScreen.state (InstallationScreen.run_steps self i todo)
      = InstallationScreen.state self.
Proof.
  induction todo as [|s todo IH]; intros self i; [split; reflexivity|].
  cbn [InstallationScreen.run_steps flat_map fold_left app].
  destruct (IH (InstallationScreen.add_log
                  (InstallationScreen.add_log
                     (InstallationScreen.set_current_step self i)
                     ("Starting: " +:+ s)) ("Completed: " +:+ s)) (S i))
    as [IH1 IH2].
  split; [|rewrite IH2; reflexivity].
  rewrite IH1. apply fold_add_log_ext; reflexivity.
Qed.



(** *** Defaults *)

(** C4. The entries of the freshly built state. Every default named by the
    specification is there except one: "ashift" holds the empty string, not
    "auto", and the empty string is not among the options of the field. *)
Theorem init_state_defaults :
  init_state !! "pool_name" = Some (VStr "zroot")
  ∧ init_state !! "raid_level" = Some (VStr "none")
  ∧ init_state !! "bootloader" = Some (VStr "zbm")
  ∧ init_state !! "compression" = Some (VStr "zstd")
  ∧ init_state !! "efi_size" = Some (VStr "1G")
  ∧ init_state !! "swap_size" = Some (VStr "8G")
  ∧ init_state !! "copy_home" = Some (VBool true)
  ∧ init_state !! "drives" = Some (VList [])
  ∧ init_state !! "mode" = Some VNone
  ∧ init_state !! "ashift" = Some (VStr "")
  ∧ init_state !! "ashift" ≠ Some (VStr "auto")
  ∧ "" ∉ ["auto"; "9"; "12"; "13"].
Proof.
  repeat split; try (vm_compute; reflexivity).
  - vm_compute. discriminate.
  - intros H. repeat (apply elem_of_cons in H as [H|H]; [discriminate H|]).
    inversion H.
Qed.

(** *** Cyclic choice *)

Lemma index_of_lookup choices v i :
  NoDup choices → choices !! i = Some v → index_of choices (VStr v) = Some i.
Proof.
  intros Hnd. revert i. induction Hnd as [|c cs Hc Hnd IH]; intros i Hi.
  - destruct i; discriminate Hi.
  - cbn [index_of eq_str]. destruct i as [|i]; cbn in Hi.
    + injection Hi as ->. rewrite String.eqb_refl. reflexivity.
    + destruct (String.eqb_spec v c) as [->|_].
      * exfalso. apply Hc. eapply list_elem_of_lookup_2, Hi.
      * rewrite (IH _ Hi). reflexivity.
Qed.

Lemma index_of_None choices v :
  index_of choices v = None ↔ ∀ s, v = VStr s → s ∉ choices.
Proof.
  induction choices as [|c cs IH]; cbn [index_of].
  - split; [intros _ s _ H; inversion H|reflexivity].
  - destruct (eq_str v c) eqn:E.
    + apply eq_str_true in E. split; [discriminate|].
      intros H. exfalso. apply (H c E). left.
    + rewrite fmap_None, IH. split; intros H s Hs.
      * apply not_elem_of_cons. split; [|exact (H s Hs)].
        intros ->. subst v. cbn in E. rewrite String.eqb_refl in E. discriminate E.
      * specialize (H s Hs). apply not_elem_of_cons in H. tauto.
Qed.

Lemma cycle_choice_found st k choices i v :
  NoDup choices →
  choices !! i = Some v →
  current_choice st k choices = Some (VStr v) →
  SettingsScreen.cycle_choice (SettingsScreen.init st) k choices
  = choices !! ((i + 1) `mod` List.length choices)%nat.
Proof.
  intros Hnd Hi. unfold current_choice, SettingsScreen.cycle_choice.
  destruct (choices !! 0%nat) as [first|]; [|discriminate].
  unfold SettingsScreen.init. cbn [mbind option_bind SettingsScreen.state].
  intros [= ->]. rewrite (index_of_lookup _ _ _ Hnd Hi). reflexivity.
Qed.

Lemma cycle_choice_not_found st k choices cur :
  current_choice st k choices = Some cur →
  index_of choices cur = None →
  SettingsScreen.cycle_choice (SettingsScreen.init st) k choices = choices !! 0%nat.
Proof.
  unfold current_choice, SettingsScreen.cycle_choice.
  destruct (choices !! 0%nat) as [first|] eqn:E0; [|discriminate].
  unfold SettingsScreen.init. cbn [mbind option_bind SettingsScreen.state].
  intros [= ->] ->. exact E0.
Qed.

Lemma current_choice_insert st k choices v :
  is_Some (choices !! 0%nat) →
  current_choice (<[k := VStr v]> st) k choices = Some (VStr v).
Proof.
  intros [first E0]. unfold current_choice. rewrite E0. cbn.
  rewrite get_insert_eq. reflexivity.
Qed.

Lemma cycle_times_found k choices j :
  NoDup choices →
  ∀ st i v,
    choices !! i = Some v →
    current_choice st k choices = Some (VStr v) →
    ∃ v', choices !! ((i + j) `mod` List.length choices)%nat = Some v'
          ∧ cycle_times j k choices st
            = Some (match j with O => st | S _ => <[k := VStr v']> st end).
Proof.
  intros Hnd. induction j as [|j IH]; intros st i v Hi Hk.
  - exists v. rewrite Nat.add_0_r.
    rewrite Nat.mod_small by (eapply lookup_lt_Some, Hi).
    split; [exact Hi|reflexivity].
  - assert (Hlen : (i < List.length choices)%nat) by (eapply lookup_lt_Some, Hi).
    assert (Hpos : List.length choices ≠ 0%nat) by lia.
    destruct (lookup_lt_is_Some_2 choices ((i + 1) `mod` List.length choices)%nat)
      as [v1 Hv1]; [apply Nat.mod_upper_bound, Hpos|].
    cbn [cycle_times]. unfold SettingsScreen.cycle_field.
    rewrite (cycle_choice_found _ _ _ _ _ Hnd Hi Hk), Hv1.
    cbn [mbind option_bind].
    destruct (IH (<[k := VStr v1]> st) _ v1 Hv1) as (v' & Hv' & Hrun).
    { apply current_choice_insert, lookup_lt_is_Some_2. lia. }
    rewrite Nat.Div0.add_mod_idemp_l in Hv'.
    replace (i + 1 + j)%nat with (i + S j)%nat in Hv' by lia.
    exists v'. split; [exact Hv'|]. rewrite Hrun.
    destruct j as [|j].
    + rewrite Nat.add_1_r in Hv1. rewrite Nat.add_1_r in Hv'. congruence.
    + rewrite insert_insert_eq. reflexivity.
Qed.

Lemma cycle_times_full k choices st v :
  NoDup choices →
  v ∈ choices →
  current_choice st k choices = Some (VStr v) →
  cycle_times (List.length choices) k choices st = Some (<[k := VStr v]> st).
Proof.
  intros Hnd [i Hi]%list_elem_of_lookup_1 Hk.
  destruct (cycle_times_found k choices (List.length choices) Hnd st i v Hi Hk)
    as (v' & Hv' & Hrun).
  assert (Hlen : (i < List.length choices)%nat) by (eapply lookup_lt_Some, Hi).
  replace ((i + List.length choices) `mod` List.length choices)%nat with i in Hv'.
  - rewrite Hi in Hv'. injection Hv' as <-. rewrite Hrun.
    destruct (List.length choices); [lia|reflexivity].
  - rewrite <- Nat.Div0.add_mod_idemp_r, Nat.Div0.mod_same, Nat.add_0_r.
    symmetry. apply Nat.mod_small, Hlen.
Qed.

Lemma choice_fields_NoDup st f choices :
  f ∈ SettingsScreen.fields (SettingsScreen.init st) →
  field_choices f = Some choices →
  NoDup choices.
Proof.
  unfold SettingsScreen.init. cbn [SettingsScreen.fields].
  destruct (eq_str _ "existing"); intros Hf Hc;
    repeat (apply elem_of_cons in Hf as [->|Hf];
            [first [discriminate Hc
                   | injection Hc as <-; apply (bool_decide_unpack _); vm_compute; reflexivity]|]);
    inversion Hf.
Qed.

(** C8. For every choice field of the Settings screen with option list
    [choices] of length N: when the current value occurs in the list, N edits
    leave the field at that value (and the state dict unchanged when the key
    was present), each edit moving to the next option and wrapping at the
    end; when the current value does not occur, one edit yields the option
    at index 0. *)
Theorem cycle_choice_wraps (st0 st : gmap string value) (f : Field)
    (choices : list string) :
  f ∈ SettingsScreen.fields (SettingsScreen.init st0) →
  field_type f = "choice" →
  field_choices f = Some choices →
  (∀ v, current_choice st (field_key f) choices = Some (VStr v) → v ∈ choices →
     cycle_times (List.length choices) (field_key f) choices st
     = Some (<[field_key f := VStr v]> st)
     ∧ (st !! field_key f = Some (VStr v) →
        cycle_times (List.length choices) (field_key f) choices st = Some st))
  ∧ (∀ i v, current_choice st (field_key f) choices = Some (VStr v) →
       choices !! i = Some v →
       SettingsScreen.cycle_choice (SettingsScreen.init st) (field_key f) choices
       = choices !! ((i + 1) `mod` List.length choices)%nat
       ∧ is_Some (choices !! ((i + 1) `mod` List.length choices)%nat))
  ∧ (∀ cur, current_choice st (field_key f) choices = Some cur →
       (∀ v, cur = VStr v → v ∉ choices) →
       SettingsScreen.cycle_choice (SettingsScreen.init st) (field_key f) choices
       = choices !! 0%nat
       ∧ is_Some (choices !! 0%nat)).
Proof.
  intros Hf _ Hc. pose proof (choice_fields_NoDup _ _ _ Hf Hc) as Hnd.
  assert (Hne : is_Some (choices !! 0%nat)).
  { revert Hf Hc. unfold SettingsScreen.init. cbn [SettingsScreen.fields].
    destruct (eq_str _ "existing"); intros Hf Hc;
      repeat (apply elem_of_cons in Hf as [->|Hf];
              [first [discriminate Hc | injection Hc as <-; eexists; reflexivity]|]);
      inversion Hf. }
  split; [|split].
  - intros v Hk Hv. pose proof (cycle_times_full _ _ _ _ Hnd Hv Hk) as Hfull.
    split; [exact Hfull|]. intros Hpresent.
    rewrite Hfull, insert_id by exact Hpresent. reflexivity.
  - intros i v Hk Hi. split; [exact (cycle_choice_found _ _ _ _ _ Hnd Hi Hk)|].
    apply lookup_lt_is_Some_2, Nat.mod_upper_bound.
    apply lookup_lt_Some in Hi. lia.
  - intros cur Hk Hcur. split; [|exact Hne].
    apply (cycle_choice_not_found _ _ _ _ Hk), index_of_None, Hcur.
Qed.

(** Four edits of "compression" from "zstd" come back to "zstd"; the initial
    "ashift", which is not an option, moves to "auto". *)
Lemma cycle_choice_wraps_witness :
  cycle_times 4 "compression" ["lz4"; "zstd"; "gzip-9"; "off"] init_state
  = Some init_state
  ∧ SettingsScreen.cycle_choice (SettingsScreen.init init_state) "ashift"
      ["auto"; "9"; "12"; "13"] = Some "auto".
Proof.
  destruct (cycle_choice_wraps init_state init_state
              (mkField "compression" "Compression" "choice"
                       (Some ["lz4"; "zstd"; "gzip-9"; "off"]))
              ["lz4"; "zstd"; "gzip-9"; "off"]) as (Hwrap & _ & _).
  { vm_compute. do 2 right. left. }
  { reflexivity. }
  { reflexivity. }
  split.
  - apply (Hwrap "zstd"); [vm_compute; reflexivity| right; left |vm_compute; reflexivity].
  - vm_compute. reflexivity.
Defined.

(** *** The typing invariant of the session state *)

Lemma typed_state_init : typed_state init_state = true.
Proof. vm_compute. reflexivity. Qed.

Lemma typed_insert_other (st : gmap string value) k v :
  k ≠ "drives" → k ≠ "raid_level" → k ≠ "pool_name" → k ≠ "hostname" →
  typed_state (<[k := v]> st) = typed_state st.
Proof.
  intros. unfold typed_state. rewrite !get_insert_ne by assumption. reflexivity.
Qed.

Lemma typed_insert_drives (st : gmap string value) l :
  typed_state st = true → typed_state (<["drives" := VList l]> st) = true.
Proof.
  unfold typed_state. rewrite get_insert_eq, !get_insert_ne by discriminate.
  intros H. repeat (apply andb_prop in H as [H ?]).
  repeat (apply andb_true_intro; split); assumption || reflexivity.
Qed.

Lemma typed_insert_str (st : gmap string value) k s :
  k ≠ "drives" → typed_state st = true → typed_state (<[k := VStr s]> st) = true.
Proof.
  intros Hk H.
  destruct (decide (k = "raid_level")) as [->|?];
    [|destruct (decide (k = "pool_name")) as [->|?];
      [|destruct (decide (k = "hostname")) as [->|?]]];
    try (rewrite typed_insert_other by assumption; exact H);
    unfold typed_state in *;
    rewrite ?get_insert_eq, !get_insert_ne by discriminate;
    repeat (apply andb_prop in H as [H ?]);
    repeat (apply andb_true_intro; split); assumption || reflexivity.
Qed.

Lemma typed_get_str (st : gmap string value) k d :
  typed_state st = true →
  k = "raid_level" ∨ k = "pool_name" ∨ k = "hostname" →
  is_str (get st k (VStr d)) = true.
Proof.
  unfold typed_state, get. intros H Hk.
  repeat (apply andb_prop in H as [H ?]).
  destruct Hk as [->|[->| ->]];
    match goal with
    | |- context [?m !! ?key] => destruct (m !! key); [assumption|reflexivity]
    end.
Qed.

Lemma fields_safe_init st :
  forallb field_safe (SettingsScreen.fields (SettingsScreen.init st)) = true.
Proof.
  unfold SettingsScreen.init. cbn [SettingsScreen.fields].
  destruct (eq_str _ "existing"); reflexivity.
Qed.

Lemma py_index_elem {A} (l : list A) i x : py_index l i = Some x → x ∈ l.
Proof.
  unfold py_index. destruct (0 <=? i)%Z; [apply list_elem_of_lookup_2|].
  destruct (_ <=? i)%Z; [apply list_elem_of_lookup_2|discriminate].
Qed.

Lemma field_safe_elem fs f :
  forallb field_safe fs = true → f ∈ fs → field_safe f = true.
Proof.
  rewrite forallb_forall. intros H Hf. apply H, list_elem_of_In, Hf.
Qed.

Lemma key_not_drives f : field_safe f = true → field_key f ≠ "drives".
Proof.
  unfold field_safe. intros [H _]%andb_prop E. rewrite E in H. discriminate H.
Qed.

Lemma typed_text_edit st f :
  field_safe f = true → typed_state st = true →
  typed_state (<[field_key f := get st (field_key f) (VStr "")]> st) = true.
Proof.
  intros Hs Ht. pose proof (key_not_drives _ Hs) as Hd.
  destruct (decide (field_key f = "raid_level"
                    ∨ field_key f = "pool_name" ∨ field_key f = "hostname"))
    as [Hk|Hk].
  - pose proof (typed_get_str st _ "" Ht Hk) as Hstr.
    destruct (get st (field_key f) (VStr "")); try discriminate Hstr.
    apply typed_insert_str; assumption.
  - rewrite typed_insert_other; [exact Ht|exact Hd|..]; intros E; apply Hk; auto.
Qed.

Lemma typed_bool_edit st f b :
  field_safe f = true → String.eqb (field_type f) "bool" = true →
  typed_state st = true →
  typed_state (<[field_key f := VBool b]> st) = true.
Proof.
  intros Hs Hb Ht. pose proof (key_not_drives _ Hs) as Hd.
  unfold field_safe in Hs. apply andb_prop in Hs as [_ Hs]. rewrite Hb in Hs.
  cbn [negb orb key_in existsb] in Hs. apply negb_true_iff in Hs.
  repeat (apply orb_false_elim in Hs as [? Hs]).
  rewrite typed_insert_other; [exact Ht|exact Hd|..]; intros E; rewrite E in *;
    discriminate.
Qed.

Lemma settings_loop_typed n :
  ∀ keys self r st' rest,
    (List.length keys ≤ n)%nat →
    forallb field_safe (SettingsScreen.fields self) = true →
    typed_state (SettingsScreen.state self) = true →
    SettingsScreen.loop self keys = Ret (r, st') rest →
    typed_state st' = true.
Proof.
  induction n as [|n IH]; intros keys self r st' rest Hlen Hsafe Ht.
  { destruct keys; [discriminate|cbn in Hlen; lia]. }
  destruct keys as [|key keys]; [discriminate|]. cbn in Hlen.
  cbn [SettingsScreen.loop].
  destruct (String.eqb (lower key) "c"); [intros [= _ <- _]; exact Ht|].
  destruct (key_in key [" "; NL; CR]).
  { destruct (py_index _ _) as [f|] eqn:Ef; [|discriminate].
    pose proof (field_safe_elem _ _ Hsafe (py_index_elem _ _ _ Ef)) as Hf.
    destruct (String.eqb (field_type f) "text").
    { destruct keys as [|key2 keys]; [discriminate|]. cbn in Hlen.
      unfold SettingsScreen.edit_text_field.
      destruct (String.eqb key2 "escape").
      - apply IH; [lia|exact Hsafe|exact Ht].
      - pose proof (typed_text_edit _ _ Hf Ht) as Ht'.
        destruct (get (SettingsScreen.state self) (field_key f) (VStr "")) eqn:Eg;
          (apply IH; [lia|exact Hsafe|first [exact Ht|exact Ht']]). }
    destruct (String.eqb (field_type f) "choice").
    { destruct (field_choices f) as [choices|]; [|discriminate].
      destruct (SettingsScreen.cycle_choice _ _ _) as [c|]; [|discriminate].
      apply IH; [lia|exact Hsafe|].
      apply typed_insert_str; [apply key_not_drives, Hf|exact Ht]. }
    destruct (String.eqb (field_type f) "bool") eqn:Eb.
    { apply IH; [lia|exact Hsafe|]. apply typed_bool_edit; assumption. }
    apply IH; [lia|exact Hsafe|exact Ht]. }
  destruct (key_in key ["j"; "down"]).
  { destruct (_ =? 0)%Z; [discriminate|]. apply IH; [lia|exact Hsafe|exact Ht]. }
  destruct (key_in key ["k"; "up"]).
  { destruct (_ =? 0)%Z; [discriminate|]. apply IH; [lia|exact Hsafe|exact Ht]. }
  destruct (String.eqb key "escape"); [intros [= _ <- _]; exact Ht|].
  destruct (String.eqb (lower key) "q"); [intros [= _ <- _]; exact Ht|].
  apply IH; [lia|exact Hsafe|exact Ht].
Qed.

(** Every pass of the main loop keeps the state typed. *)
Lemma run_iter_typed self keys s rest :
  typed_state (state self) = true →
  run_iter self keys = Ret s rest →
  typed_state (state (step_app s)) = true.
Proof.
  intros Ht. unfold run_iter.
  destruct (String.eqb (current_screen self) "welcome").
  { destruct (WelcomeScreen.show _ keys) as [r rest'| |]; try discriminate.
    destruct (String.eqb r "quit"); intros [= <- _]; exact Ht. }
  destruct (String.eqb (current_screen self) "mode_select").
  { destruct (ModeSelectionScreen.show keys) as [r rest'| |]; try discriminate.
    destruct (String.eqb r "back"); [intros [= <- _]; exact Ht|].
    destruct (key_in r ["new"; "existing"]).
    { intros [= <- _]. cbn [step_app state goto set_state].
      rewrite typed_insert_other by discriminate. exact Ht. }
    destruct (String.eqb r "quit"); intros [= <- _]; exact Ht. }
  destruct (String.eqb (current_screen self) "device_select").
  { destruct (state self !! "drives"); [|discriminate].
    destruct (DeviceSelectionScreen.init _ _) as [scr|]; [|discriminate].
    destruct (DeviceSelectionScreen.show scr keys) as [[r|l] rest'| |];
      try discriminate.
    - destruct (String.eqb r "back"); [intros [= <- _]; exact Ht|].
      destruct (String.eqb r "quit"); intros [= <- _]; exact Ht.
    - intros [= <- _]. cbn [step_app state goto set_state].
      apply typed_insert_drives, Ht. }
  destruct (String.eqb (current_screen self) "settings").
  { destruct (SettingsScreen.show _ keys) as [[r st'] rest'| |] eqn:E;
      try discriminate.
    assert (Ht' : typed_state st' = true).
    { eapply (settings_loop_typed _ keys); [reflexivity|apply fields_safe_init| |exact E].
      exact Ht. }
    destruct (String.eqb r "back"); [intros [= <- _]; exact Ht'|].
    destruct (String.eqb r "quit"); [intros [= <- _]; exact Ht'|].
    destruct (String.eqb r "next"); intros [= <- _]; exact Ht'. }
  destruct (String.eqb (current_screen self) "validation").
  { destruct (ValidationScreen.show _ keys) as [r rest'| |]; try discriminate.
    destruct (String.eqb r "back"); [intros [= <- _]; exact Ht|].
    destruct (String.eqb r "quit"); [intros [= <- _]; exact Ht|].
    destruct (String.eqb r "valid"); intros [= <- _]; exact Ht. }
  destruct (String.eqb (current_screen self) "confirm").
  { destruct (ConfirmationScreen.show _ keys) as [r rest'| |]; try discriminate.
    destruct (String.eqb r "back"); [intros [= <- _]; exact Ht|].
    destruct (String.eqb r "quit"); [intros [= <- _]; exact Ht|].
    destruct (String.eqb r "proceed"); intros [= <- _]; exact Ht. }
  destruct (String.eqb (current_screen self) "install").
  { destruct (InstallationScreen.show _) as [scr r].
    destruct (String.eqb r "success"); [intros [= <- _]; exact Ht|].
    destruct (String.eqb r "failed"); [intros [= <- _]; exact Ht|].
    destruct (String.eqb r "quit"); intros [= <- _]; exact Ht. }
  destruct (String.eqb (current_screen self) "complete").
  { destruct (CompletionScreen.show keys); try discriminate.
    intros [= <- _]. exact Ht. }
  intros [= <- _]. exact Ht.
Qed.

(** The state the main loop ends with is typed, so validation never raises
    on a state the wizard built. *)
Lemma run_loop_typed fuel :
  ∀ self keys self' rest,
    typed_state (state self) = true →
    run_loop fuel self keys = Some (Ret self' rest) →
    typed_state (state self') = true.
Proof.
  induction fuel as [|fuel IH]; intros self keys self' rest Ht; [discriminate|].
  cbn [run_loop].
  destruct (run_iter self keys) as [[next|final] rest'| |] eqn:E; try discriminate.
  - apply IH. apply (run_iter_typed _ _ _ _ Ht E).
  - intros [= <- _]. apply (run_iter_typed _ _ _ _ Ht E).
Qed.

Example full_session :
  ∃ final,
    run_loop 20 {| current_screen := "welcome"; state := init_state;
                   system_info := efi_info; devices := sample_devices |}
             sample_keys
    = Some (Ret final ["z"])
    ∧ current_screen final = "complete"
    ∧ state final !! "mode" = Some (VStr "existing")
    ∧ py_len (get (state final) "drives" (VList [])) = Some 2%nat.
Proof. eexists. split; [vm_compute; reflexivity|]. repeat split. Qed.

(* ================================================================== *)
(** * Further properties *)

(** ** The screens one by one *)

Lemma welcome_results si keys r rest :
  WelcomeScreen.show si keys = Ret r rest → r = "next" ∨ r = "quit".
Proof.
  unfold WelcomeScreen.show. destruct (WelcomeScreen.ram_ok si); [|discriminate].
  induction keys as [|key keys IH]; cbn [WelcomeScreen.loop]; [discriminate|].
  destruct (key_in key [NL; CR; " "]); [intros [= <- _]; auto|].
  destruct (String.eqb (lower key) "q"); [intros [= <- _]; auto|]. exact IH.
Qed.

Lemma mode_loop_results keys :
  ∀ sel r rest,
    (0 ≤ sel < 2)%Z →
    ModeSelectionScreen.loop sel keys = Ret r rest →
    r = "new" ∨ r = "existing" ∨ r = "back" ∨ r = "quit".
Proof.
  induction keys as [|key keys IH]; intros sel r rest Hsel;
    cbn [ModeSelectionScreen.loop]; [discriminate|].
  destruct (String.eqb key NL || String.eqb key CR).
  { assert (sel = 0 ∨ sel = 1)%Z as [-> | ->] by lia; cbn; intros [= <- _]; auto. }
  change (Z.of_nat (List.length ModeSelectionScreen.modes)) with 2%Z.
  destruct (key_in key ["j"; "down"]).
  { apply IH. apply Z.mod_pos_bound. lia. }
  destruct (key_in key ["k"; "up"]).
  { apply IH. apply Z.mod_pos_bound. lia. }
  destruct (String.eqb key "escape"); [intros [= <- _]; auto|].
  destruct (String.eqb (lower key) "q"); [intros [= <- _]; auto|].
  apply IH, Hsel.
Qed.

Lemma mode_results keys r rest :
  ModeSelectionScreen.show keys = Ret r rest →
  r = "new" ∨ r = "existing" ∨ r = "back" ∨ r = "quit".
Proof. apply mode_loop_results. lia. Qed.

Lemma device_results keys :
  ∀ self r rest,
    DeviceSelectionScreen.show self keys = Ret r rest →
    r = AStr "back" ∨ r = AStr "quit"
    ∨ ∃ sel : gset string, r = AList (elements sel) ∧ sel ≠ ∅
        ∧ sel ⊆ DeviceSelectionScreen.selected_drives self
                ∪ list_to_set (DeviceSelectionScreen.device_list self).
Proof.
  induction keys as [|key keys IH]; intros self r rest;
    cbn [DeviceSelectionScreen.show];
    (destruct (DeviceSelectionScreen.draw self); [|discriminate]);
    [discriminate|].
  assert (Hstep : ∀ self',
            DeviceSelectionScreen.device_list self'
            = DeviceSelectionScreen.device_list self →
            DeviceSelectionScreen.selected_drives self'
            ⊆ DeviceSelectionScreen.selected_drives self
              ∪ list_to_set (DeviceSelectionScreen.device_list self) →
            DeviceSelectionScreen.show self' keys = Ret r rest →
            r = AStr "back" ∨ r = AStr "quit"
            ∨ ∃ sel : gset string, r = AList (elements sel) ∧ sel ≠ ∅
                ∧ sel ⊆ DeviceSelectionScreen.selected_drives self
                        ∪ list_to_set (DeviceSelectionScreen.device_list self)).
  { intros self' Hl Hs Hshow.
    destruct (IH _ _ _ Hshow) as [?|[?|(sel & ? & ? & Hsub)]]; auto.
    right. right. exists sel. split; [assumption|]. split; [assumption|].
    rewrite Hl in Hsub. set_solver. }
  destruct (String.eqb key NL || String.eqb key CR).
  { destruct (Nat.ltb 0 (size _)) eqn:Esz; [|apply Hstep; [reflexivity|set_solver]].
    intros [= <- _]. right. right. eexists. split; [reflexivity|]. split.
    - intros E. rewrite E, size_empty in Esz. discriminate Esz.
    - set_solver. }
  destruct (String.eqb key " ").
  { destruct (DeviceSelectionScreen.device_list self) as [|d0 dl] eqn:Edl;
      [apply Hstep; [exact Edl|set_solver]|].
    destruct (py_index _ _) as [dev|] eqn:Edev; [|discriminate].
    assert (Hin : dev ∈ d0 :: dl).
    { unfold py_index in Edev.
      destruct (0 <=? _)%Z; [eapply list_elem_of_lookup_2, Edev|].
      destruct (_ <=? _)%Z; [eapply list_elem_of_lookup_2, Edev|discriminate]. }
    destruct (bool_decide _); apply Hstep; cbn; try exact Edl; set_solver. }
  destruct (key_in key ["j"; "down"]).
  { destruct (DeviceSelectionScreen.device_list self) eqn:Edl;
      apply Hstep; cbn; try exact Edl; set_solver. }
  destruct (key_in key ["k"; "up"]).
  { destruct (DeviceSelectionScreen.device_list self) eqn:Edl;
      apply Hstep; cbn; try exact Edl; set_solver. }
  destruct (String.eqb key "escape"); [intros [= <- _]; auto|].
  destruct (String.eqb (lower key) "q"); [intros [= <- _]; auto|].
  apply Hstep; [reflexivity|set_solver].
Qed.

Lemma settings_results keys :
  ∀ self r st' rest,
    SettingsScreen.loop self keys = Ret (r, st') rest →
    r = "next" ∨ r = "back" ∨ r = "quit".
Proof.
  induction keys as [keys IH] using (induction_ltof1 _ (@List.length string)).
  unfold ltof in IH. intros self r st' rest.
  destruct keys as [|key keys]; cbn [SettingsScreen.loop]; [discriminate|].
  destruct (String.eqb (lower key) "c"); [intros [= <- _ _]; auto|].
  destruct (key_in key [" "; NL; CR]).
  { destruct (py_index _ _) as [f|]; [|discriminate].
    destruct (String.eqb (field_type f) "text").
    { destruct keys as [|key2 keys]; [discriminate|].
      destruct (SettingsScreen.edit_text_field _ _ _); apply IH; cbn; lia. }
    destruct (String.eqb (field_type f) "choice").
    { destruct (field_choices f); [|discriminate].
      destruct (SettingsScreen.cycle_choice _ _ _); [|discriminate].
      apply IH; cbn; lia. }
    destruct (String.eqb (field_type f) "bool"); apply IH; cbn; lia. }
  destruct (key_in key ["j"; "down"]).
  { destruct (_ =? 0)%Z; [discriminate|]. apply IH; cbn; lia. }
  destruct (key_in key ["k"; "up"]).
  { destruct (_ =? 0)%Z; [discriminate|]. apply IH; cbn; lia. }
  destruct (String.eqb key "escape"); [intros [= <- _ _]; auto|].
  destruct (String.eqb (lower key) "q"); [intros [= <- _ _]; auto|].
  apply IH; cbn; lia.
Qed.

Lemma validation_results scr keys r rest :
  ValidationScreen.show scr keys = Ret r rest →
  r = "valid" ∨ r = "back" ∨ r = "quit".
Proof.
  unfold ValidationScreen.show. destruct (run_validations scr); [|discriminate].
  apply wait_loop_results.
Qed.

Lemma confirmation_results st keys r rest :
  ConfirmationScreen.show st keys = Ret r rest →
  r = "proceed" ∨ r = "back" ∨ r = "quit".
Proof.
  unfold ConfirmationScreen.show. destruct (ConfirmationScreen.draw st); [|discriminate].
  induction keys as [|key keys IH]; cbn [ConfirmationScreen.loop]; [discriminate|].
  destruct (String.eqb (lower key) "y"); [intros [= <- _]; auto|].
  destruct (_ || _); [intros [= <- _]; auto|].
  destruct (String.eqb (lower key) "q"); [intros [= <- _]; auto|]. exact IH.
Qed.

(** ** The transition graph of [run] *)

Lemma run_iter_next (self self' : ZBMNotcursesTUI.t)
    (keys rest : list string) :
  run_iter self keys = Ret (Continue self') rest →
  current_screen self' ∈ next_screens (current_screen self).
Proof.
  unfold run_iter.
  destruct (String.eqb_spec (current_screen self) "welcome") as [E|_].
  { rewrite E. destruct (WelcomeScreen.show _ keys) as [r rest'| |] eqn:Es;
      try discriminate.
    destruct (welcome_results _ _ _ _ Es) as [-> | ->]; cbn; [|discriminate].
    intros [= <- _]. cbn. left. }
  destruct (String.eqb_spec (current_screen self) "mode_select") as [E|_].
  { rewrite E. destruct (ModeSelectionScreen.show keys) as [r rest'| |] eqn:Es;
      try discriminate.
    destruct (mode_results _ _ _ Es) as [-> |[-> |[-> | ->]]]; cbn;
      try discriminate; intros [= <- _]; cbn.
    - right. left.
    - right. left.
    - left. }
  destruct (String.eqb_spec (current_screen self) "device_select") as [E|_].
  { rewrite E. destruct (state self !! "drives"); [|discriminate].
    destruct (DeviceSelectionScreen.init _ _) as [scr|]; [|discriminate].
    destruct (DeviceSelectionScreen.show scr keys) as [r rest'| |] eqn:Es;
      try discriminate.
    destruct (device_results _ _ _ _ Es) as [-> |[-> |(sel & -> & _)]]; cbn;
      try discriminate; intros [= <- _]; cbn.
    - left.
    - right. left. }
  destruct (String.eqb_spec (current_screen self) "settings") as [E|_].
  { rewrite E. destruct (SettingsScreen.show _ keys) as [[r st'] rest'| |] eqn:Es;
      try discriminate.
    destruct (settings_results _ _ _ _ _ Es) as [-> |[-> | ->]]; cbn;
      try discriminate; intros [= <- _]; cbn.
    - right. left.
    - left. }
  destruct (String.eqb_spec (current_screen self) "validation") as [E|_].
  { rewrite E. destruct (ValidationScreen.show _ keys) as [r rest'| |] eqn:Es;
      try discriminate.
    destruct (validation_results _ _ _ _ Es) as [-> |[-> | ->]]; cbn;
      try discriminate; intros [= <- _]; cbn.
    - right. left.
    - left. }
  destruct (String.eqb_spec (current_screen self) "confirm") as [E|_].
  { rewrite E. destruct (ConfirmationScreen.show _ keys) as [r rest'| |] eqn:Es;
      try discriminate.
    destruct (confirmation_results _ _ _ _ Es) as [-> |[-> | ->]]; cbn;
      try discriminate; intros [= <- _]; cbn.
    - right. left.
    - left. }
  destruct (String.eqb_spec (current_screen self) "install") as [E|_].
  { rewrite E. destruct (show_install_result (InstallationScreen.init (state self)))
      as (Hres & _).
    destruct (InstallationScreen.show _) as [scr r]. cbn in Hres. subst r. cbn.
    intros [= <- _]. cbn. left. }
  destruct (String.eqb (current_screen self) "complete").
  { destruct (CompletionScreen.show keys); discriminate. }
  discriminate.
Qed.

(** X1. A pass of the main loop that goes on leads from each screen only to
    a neighbour: welcome to mode_select; mode_select to welcome or
    device_select; device_select to mode_select or settings; settings to
    device_select or validation; validation to settings or confirm; confirm
    to validation or install; install to complete; and the complete screen is
    never left for another. *)
Theorem run_iter_next_screen (self self' : ZBMNotcursesTUI.t)
    (keys rest : list string) :
  run_iter self keys = Ret (Continue self') rest →
  current_screen self' ∈ next_screens (current_screen self)
  ∧ current_screen self ≠ "complete".
Proof.
  intros H. split; [exact (run_iter_next _ _ _ _ H)|].
  intros E. apply run_iter_next in H. rewrite E in H. inversion H.
Qed.

Lemma run_iter_next_screen_witness :
  "device_select" ∈ next_screens "mode_select".
Proof.
  eapply proj1.
  apply (run_iter_next_screen (app_at "mode_select" init_state efi_info)
           (app_at "device_select" (<["mode" := VStr "existing"]> init_state) efi_info)
           ["j"; NL] []).
  vm_compute. reflexivity.
Defined.

(** ** What the Settings screen leaves alone *)

Lemma settings_loop_keeps (k : string) keys :
  ∀ self r st' rest,
    SettingsScreen.loop self keys = Ret (r, st') rest →
    is_Some (SettingsScreen.state self !! k) →
    (∀ f, f ∈ SettingsScreen.fields self → field_key f = k →
          field_type f = "text") →
    st' !! k = SettingsScreen.state self !! k.
Proof.
  induction keys as [keys IH] using (induction_ltof1 _ (@List.length string)).
  unfold ltof in IH. intros self r st' rest.
  destruct keys as [|key keys]; cbn [SettingsScreen.loop]; [discriminate|].
  destruct (String.eqb (lower key) "c"); [intros [= _ <- _]; reflexivity|].
  destruct (key_in key [" "; NL; CR]).
  { destruct (py_index _ _) as [f|] eqn:Ef; [|discriminate].
    apply py_index_elem in Ef.
    destruct (String.eqb (field_type f) "text") eqn:Et.
    { destruct keys as [|key2 keys]; [discriminate|].
      unfold SettingsScreen.edit_text_field.
      intros Hrun [v Hv] Hf.
      assert (Hstep : ∀ w,
                get (SettingsScreen.state self) (field_key f) (VStr "") = w →
                SettingsScreen.loop
                  (SettingsScreen.set_state self
                     (<[field_key f := w]> (SettingsScreen.state self))) keys
                = Ret (r, st') rest →
                st' !! k = SettingsScreen.state self !! k).
      { intros w Hw Hrun'.
        rewrite (IH keys ltac:(cbn; lia) _ _ _ _ Hrun'); cbn [SettingsScreen.state SettingsScreen.set_state SettingsScreen.fields].
        - destruct (decide (field_key f = k)) as [E|E].
          + rewrite E in *. rewrite lookup_insert_eq. unfold get in Hw.
            rewrite Hv in Hw. cbn in Hw. congruence.
          + rewrite lookup_insert_ne by exact E. reflexivity.
        - destruct (decide (field_key f = k)) as [E|E].
          + rewrite E, lookup_insert_eq. eauto.
          + rewrite lookup_insert_ne by exact E. eauto.
        - exact Hf. }
      destruct (String.eqb key2 "escape").
      { apply (IH keys ltac:(cbn; lia) _ _ _ _ Hrun); eauto. }
      destruct (get (SettingsScreen.state self) (field_key f) (VStr "")) eqn:Eg;
        first [ apply (IH keys ltac:(cbn; lia) _ _ _ _ Hrun); eauto; fail
              | eapply Hstep; [reflexivity|exact Hrun] ]. }
    assert (Hne : field_key f ≠ k → ∀ w,
              SettingsScreen.loop
                (SettingsScreen.set_state self
                   (<[field_key f := w]> (SettingsScreen.state self))) keys
              = Ret (r, st') rest →
              is_Some (SettingsScreen.state self !! k) →
              (∀ f, f ∈ SettingsScreen.fields self → field_key f = k →
                    field_type f = "text") →
              st' !! k = SettingsScreen.state self !! k).
    { intros E w Hrun Hk Hf.
      rewrite (IH keys ltac:(cbn; lia) _ _ _ _ Hrun);
        cbn [SettingsScreen.state SettingsScreen.set_state SettingsScreen.fields];
        rewrite ?lookup_insert_ne by exact E; auto. }
    assert (Hkey : (∀ f, f ∈ SettingsScreen.fields self → field_key f = k →
                         field_type f = "text") → field_key f ≠ k).
    { intros Hf E. rewrite (Hf f Ef E) in Et. discriminate Et. }
    destruct (String.eqb (field_type f) "choice").
    { destruct (field_choices f); [|discriminate].
      destruct (SettingsScreen.cycle_choice _ _ _); [|discriminate].
      intros Hrun Hk Hf. eapply Hne; eauto. }
    destruct (String.eqb (field_type f) "bool").
    { intros Hrun Hk Hf. eapply Hne; eauto. }
    intros Hrun. apply (IH keys ltac:(cbn; lia) _ _ _ _ Hrun). }
  destruct (key_in key ["j"; "down"]).
  { destruct (_ =? 0)%Z; [discriminate|].
    intros Hrun. apply (IH keys ltac:(cbn; lia) _ _ _ _ Hrun). }
  destruct (key_in key ["k"; "up"]).
  { destruct (_ =? 0)%Z; [discriminate|].
    intros Hrun. apply (IH keys ltac:(cbn; lia) _ _ _ _ Hrun). }
  destruct (String.eqb key "escape"); [intros [= _ <- _]; reflexivity|].
  destruct (String.eqb (lower key) "q"); [intros [= _ <- _]; reflexivity|].
  intros Hrun. apply (IH keys ltac:(cbn; lia) _ _ _ _ Hrun).
Qed.

Lemma init_fields_text_or_absent st k f :
  k ∈ ["pool_name"; "hostname"; "efi_size"; "swap_size"; "source_root";
       "mode"; "drives"; "exclude_paths"] →
  f ∈ SettingsScreen.fields (SettingsScreen.init st) →
  field_key f = k → field_type f = "text".
Proof.
  intros Hk. unfold SettingsScreen.init. cbn [SettingsScreen.fields].
  destruct (eq_str _ "existing"); intros Hf;
    repeat (apply elem_of_cons in Hf as [->|Hf]; [cbn; intros <-|]);
    try reflexivity; try (inversion Hf; fail);
    exfalso; repeat (apply elem_of_cons in Hk as [Hk|Hk]; [discriminate Hk|]);
    inversion Hk.
Qed.

Lemma settings_show_keeps (st st' : gmap string value)
    (keys rest : list string) (r k : string) :
  SettingsScreen.show (SettingsScreen.init st) keys = Ret (r, st') rest →
  k ∈ ["pool_name"; "hostname"; "efi_size"; "swap_size"; "source_root";
       "mode"; "drives"; "exclude_paths"] →
  is_Some (st !! k) →
  st' !! k = st !! k.
Proof.
  intros Hrun Hk Hsome.
  apply (settings_loop_keeps k _ _ _ _ _ Hrun Hsome).
  intros f. apply init_fields_text_or_absent, Hk.
Qed.

(** X6. Whatever keys the Settings screen reads, it leaves the entries
    "pool_name", "hostname", "efi_size", "swap_size", "source_root" (text
    fields, whose edit writes the current value back) and "mode", "drives",
    "exclude_paths" (no field) as they were, when they are present. *)
Theorem settings_changes_only_choices (st st' : gmap string value)
    (keys rest : list string) (r k : string) :
  SettingsScreen.show (SettingsScreen.init st) keys = Ret (r, st') rest →
  k ∈ ["pool_name"; "hostname"; "efi_size"; "swap_size"; "source_root";
       "mode"; "drives"; "exclude_paths"] →
  is_Some (st !! k) →
  st' !! k = st !! k.
Proof. apply settings_show_keeps. Qed.

(** Enter on "Pool Name", Enter to keep, then down five times and Enter on
    "Ashift": the pool name stays, the ashift moves. *)
Lemma settings_changes_only_choices_witness :
  ∃ st', SettingsScreen.show (SettingsScreen.init init_state)
           [NL; NL; "j"; "j"; "j"; "j"; "j"; NL; "c"] = Ret ("next", st') []
         ∧ st' !! "pool_name" = Some (VStr "zroot")
         ∧ st' !! "ashift" = Some (VStr "auto").
Proof.
  eexists. split; [vm_compute; reflexivity|]. split.
  - rewrite (settings_changes_only_choices init_state _
               [NL; NL; "j"; "j"; "j"; "j"; "j"; NL; "c"] [] "next" "pool_name").
    + vm_compute. reflexivity.
    + vm_compute. reflexivity.
    + left.
    + vm_compute. eauto.
  - vm_compute. reflexivity.
Defined.

(** ** Invariants of a session *)

Lemma elem_of_insert_sorted x y l : x ∈ insert_sorted y l ↔ x = y ∨ x ∈ l.
Proof.
  induction l as [|z l IH]; cbn [insert_sorted].
  - rewrite list_elem_of_singleton, elem_of_nil. tauto.
  - destruct (String.leb y z); rewrite !elem_of_cons, ?IH; tauto.
Qed.

Lemma elem_of_sorted x l : x ∈ sorted l ↔ x ∈ l.
Proof.
  unfold sorted. induction l as [|y l IH]; cbn [foldr]; [reflexivity|].
  rewrite elem_of_insert_sorted, elem_of_cons, IH. reflexivity.
Qed.

(** What one pass does, screen by screen. *)
Lemma run_iter_cases a b keys rest :
  run_iter a keys = Ret (Continue b) rest →
  (current_screen a = "welcome" ∧ b = goto a "mode_select")
  ∨ (current_screen a = "mode_select"
     ∧ (b = goto a "welcome"
        ∨ ∃ r, (r = "new" ∨ r = "existing")
               ∧ b = goto (set_state a (<["mode" := VStr r]> (state a)))
                          "device_select"))
  ∨ (current_screen a = "device_select"
     ∧ (b = goto a "mode_select"
        ∨ (∃ (l : list string) (sel : gset string),
             state a !! "drives" = Some (VList l)
             ∧ sel ≠ ∅
             ∧ sel ⊆ list_to_set l ∪ dom (devices a)
             ∧ b = goto (set_state a (<["drives" := VList (elements sel)]> (state a)))
                        "settings")
        ∨ (∃ (s : string) (sel : gset string),
             state a !! "drives" = Some (VStr s)
             ∧ sel ≠ ∅
             ∧ b = goto (set_state a (<["drives" := VList (elements sel)]> (state a)))
                        "settings")))
  ∨ (current_screen a = "settings"
     ∧ ∃ r st',
         SettingsScreen.show (SettingsScreen.init (state a)) keys = Ret (r, st') rest
         ∧ (b = goto (set_state a st') "device_select"
            ∨ b = goto (set_state a st') "validation"))
  ∨ (current_screen a = "validation"
     ∧ (b = goto a "settings"
        ∨ (b = goto a "confirm"
           ∧ ValidationScreen.show
               (ValidationScreen.init (state a) (system_info a)) keys
             = Ret "valid" rest)))
  ∨ (current_screen a = "confirm"
     ∧ (b = goto a "validation" ∨ b = goto a "install"))
  ∨ (current_screen a = "install" ∧ b = goto a "complete").
Proof.
  unfold run_iter.
  destruct (String.eqb_spec (current_screen a) "welcome") as [E|_].
  { destruct (WelcomeScreen.show _ keys) as [r rest'| |] eqn:Es; try discriminate.
    destruct (welcome_results _ _ _ _ Es) as [-> | ->]; cbn; [|discriminate].
    intros [= <- _]. auto. }
  destruct (String.eqb_spec (current_screen a) "mode_select") as [E|_].
  { destruct (ModeSelectionScreen.show keys) as [r rest'| |] eqn:Es;
      try discriminate.
    destruct (mode_results _ _ _ Es) as [-> |[-> |[-> | ->]]]; cbn;
      try discriminate; intros [= <- _]; right; left; split; eauto 6. }
  destruct (String.eqb_spec (current_screen a) "device_select") as [E|_].
  { destruct (state a !! "drives") as [v|]; [|discriminate].
    destruct (DeviceSelectionScreen.init _ _) as [scr|] eqn:Ei; [|discriminate].
    destruct (DeviceSelectionScreen.show scr keys) as [r rest'| |] eqn:Es;
      try discriminate.
    unfold DeviceSelectionScreen.init in Ei.
    destruct (py_set v) as [s0|] eqn:Ev; [|discriminate].
    cbn in Ei. injection Ei as <-.
    destruct (device_results _ _ _ _ Es) as [-> |[-> |(sel & -> & Hne & Hsub)]];
      cbn; try discriminate; intros [= <- _]; do 2 right; left;
      (split; [exact E|]); auto.
    cbn [DeviceSelectionScreen.selected_drives DeviceSelectionScreen.device_list]
      in Hsub.
    destruct v; try discriminate Ev; cbn in Ev; injection Ev as <-.
    - right. right. eauto 6.
    - right. left. exists l, sel. split; [reflexivity|]. split; [exact Hne|].
      split; [|reflexivity].
      intros x Hx. apply Hsub in Hx. apply elem_of_union in Hx as [Hx|Hx].
      + apply elem_of_union. left. exact Hx.
      + apply elem_of_union. right.
        apply elem_of_list_to_set, elem_of_sorted, elem_of_elements in Hx.
        exact Hx. }
  destruct (String.eqb_spec (current_screen a) "settings") as [E|_].
  { destruct (SettingsScreen.show _ keys) as [[r st'] rest'| |] eqn:Es;
      try discriminate.
    destruct (settings_results _ _ _ _ _ Es) as [-> |[-> | ->]]; cbn;
      try discriminate; intros [= <- <-]; do 3 right; left;
      (split; [exact E|]); eauto. }
  destruct (String.eqb_spec (current_screen a) "validation") as [E|_].
  { destruct (ValidationScreen.show _ keys) as [r rest'| |] eqn:Es;
      try discriminate.
    destruct (validation_results _ _ _ _ Es) as [-> |[-> | ->]]; cbn;
      try discriminate; intros [= <- <-]; do 4 right; left;
      (split; [exact E|]); auto. }
  destruct (String.eqb_spec (current_screen a) "confirm") as [E|_].
  { destruct (ConfirmationScreen.show _ keys) as [r rest'| |] eqn:Es;
      try discriminate.
    destruct (confirmation_results _ _ _ _ Es) as [-> |[-> | ->]]; cbn;
      try discriminate; intros [= <- _]; do 5 right; left;
      (split; [exact E|]); auto. }
  destruct (String.eqb_spec (current_screen a) "install") as [E|_].
  { destruct (show_install_result (InstallationScreen.init (state a))) as (Hres & _).
    destruct (InstallationScreen.show _) as [scr r]. cbn in Hres. subst r. cbn.
    intros [= <- _]. do 6 right. auto. }
  destruct (String.eqb (current_screen a) "complete").
  { destruct (CompletionScreen.show keys); discriminate. }
  discriminate.
Qed.

Lemma not_in_after (s : string) (l : list string) :
  forallb (λ x, negb (String.eqb s x)) l = true → s ∉ l.
Proof.
  rewrite forallb_forall. intros H Hin.
  apply list_elem_of_In, H in Hin. rewrite String.eqb_refl in Hin. discriminate Hin.
Qed.

Lemma in_after (s : string) (l : list string) :
  existsb (String.eqb s) l = true → s ∈ l.
Proof.
  rewrite existsb_exists. intros (x & Hx & ->%String.eqb_eq).
  apply list_elem_of_In, Hx.
Qed.

(** Goals [s ∈ l → s' ∈ l'] and [s ∈ l] over literal screen names. *)
Ltac screens :=
  try (let H := fresh in intros H);
  first [ apply in_after; reflexivity
        | exfalso;
          match goal with
          | H : _ ∈ _ |- _ => revert H; apply not_in_after; reflexivity
          end ].

Lemma constant_keys_other k :
  k ∈ constant_keys → k ≠ "mode" ∧ k ≠ "drives".
Proof.
  intros Hk. split; intros ->; revert Hk; apply not_in_after; reflexivity.
Qed.

Lemma session_inv_start si devs : session_inv si devs (start_app si devs).
Proof.
  unfold session_inv, start_app. cbn.
  split; [reflexivity|]. split; [reflexivity|]. split; [apply typed_state_init|].
  split; [|split; [|split]].
  - exists []. split; [reflexivity|]. split; [constructor|].
    split; [intros d Hd; inversion Hd|]. screens.
  - screens.
  - screens.
  - reflexivity.
Qed.

(** A pass that only changes the screen. *)
Lemma session_inv_goto si devs a screen :
  session_inv si devs a →
  (screen ∈ after_devices → current_screen a ∈ after_devices) →
  (screen ∈ after_mode → current_screen a ∈ after_mode) →
  (screen ∈ after_validation →
   current_screen a ∈ after_validation
   ∨ ∃ vs, run_validations (ValidationScreen.init (state a) si) = Some vs
           ∧ all_passed vs = true) →
  session_inv si devs (goto a screen).
Proof.
  intros (Hsi & Hdevs & Htyped & (l & Hl & Hnd & Hsub & Hnonempty) & Hmode & Hvalid
          & Hconst) Hd Hm Hv.
  split; [assumption|]. split; [assumption|]. split; [assumption|].
  cbn [state goto current_screen]. split; [|split; [|split]].
  - exists l. repeat split; try assumption. intros H. apply Hnonempty, Hd, H.
  - intros H. apply Hmode, Hm, H.
  - intros H. destruct (Hv H) as [H'|H']; [apply Hvalid, H'|exact H'].
  - exact Hconst.
Qed.

Lemma session_inv_step si devs a b keys rest :
  session_inv si devs a →
  run_iter a keys = Ret (Continue b) rest →
  session_inv si devs b.
Proof.
  intros Hinv Hrun.
  pose proof Hinv as (Hsi & Hdevs & Htyped & (l & Hl & Hnd & Hsub & Hnonempty)
                      & Hmode & Hvalid & Hconst).
  pose proof (run_iter_typed _ _ _ _ Htyped Hrun) as Htyped'. cbn in Htyped'.
  destruct (run_iter_cases _ _ _ _ Hrun)
    as [[E ->]|[[E Hb]|[[E Hb]|[[E Hb]|[[E Hb]|[[E Hb]|[E ->]]]]]]].
  - (* welcome *)
    apply session_inv_goto; [exact Hinv|screens..].
  - (* mode_select *)
    destruct Hb as [-> |(r & Hr & ->)].
    + apply session_inv_goto; [exact Hinv|screens..].
    + split; [assumption|]. split; [assumption|]. split; [assumption|].
      cbn [state goto set_state current_screen]. split; [|split; [|split]].
      * exists l. rewrite lookup_insert_ne by discriminate.
        repeat split; try assumption. screens.
      * intros _. rewrite lookup_insert_eq. destruct Hr as [-> | ->]; auto.
      * screens.
      * intros k Hk. rewrite lookup_insert_ne; [apply Hconst, Hk|].
        intros <-. destruct (constant_keys_other _ Hk); congruence.
  - (* device_select *)
    destruct Hb as [-> |[(l' & sel & Hl' & Hne & Hsel & ->)|(s & sel & Hs & _)]].
    + apply session_inv_goto; [exact Hinv|screens..].
    + rewrite Hl in Hl'. injection Hl' as <-.
      split; [assumption|]. split; [assumption|]. split; [assumption|].
      cbn [state goto set_state current_screen]. split; [|split; [|split]].
      * exists (elements sel). rewrite lookup_insert_eq.
        split; [reflexivity|]. split; [apply NoDup_elements|]. split.
        -- intros d Hd. apply elem_of_elements, Hsel, elem_of_union in Hd.
           destruct Hd as [Hd|Hd]; [apply elem_of_list_to_set in Hd; apply Hsub, Hd|].
           rewrite <- Hdevs. exact Hd.
        -- intros _ Hnil. apply Hne. apply elements_empty_inv in Hnil.
           apply leibniz_equiv, Hnil.
      * intros _. rewrite lookup_insert_ne by discriminate.
        apply Hmode. rewrite E. screens.
      * screens.
      * intros k Hk. rewrite lookup_insert_ne; [apply Hconst, Hk|].
        intros <-. destruct (constant_keys_other _ Hk); congruence.
    + rewrite Hl in Hs. discriminate Hs.
  - (* settings *)
    destruct Hb as (r & st' & Hshow & Hb).
    assert (Hkeep : ∀ k v, k ∈ ["pool_name"; "hostname"; "efi_size"; "swap_size";
                                "source_root"; "mode"; "drives"; "exclude_paths"] →
                           state a !! k = Some v → st' !! k = Some v).
    { intros k v Hk Hv. rewrite <- Hv.
      apply (settings_show_keeps _ _ _ _ _ _ Hshow Hk). rewrite Hv. eauto. }
    assert (Hcommon :
              ∀ screen, screen ∈ after_mode → screen ∉ after_validation →
                session_inv si devs (goto (set_state a st') screen)).
    { intros screen Hin Hnot.
      split; [assumption|]. split; [assumption|].
      split; [destruct Hb as [-> | ->]; exact Htyped'|].
      cbn [state goto set_state current_screen]. split; [|split; [|split]].
      - exists l. split; [apply Hkeep; [screens|exact Hl]|].
        repeat split; try assumption.
        intros _. apply Hnonempty. rewrite E. screens.
      - intros _.
        destruct (Hmode ltac:(rewrite E; screens)) as [Hm|Hm]; [left|right];
          (apply Hkeep; [screens|exact Hm]).
      - intros H. contradiction.
      - intros k Hk. pose proof (Hconst k Hk) as Hk'.
        destruct (init_state !! k) as [v|] eqn:Ev.
        + apply Hkeep; [|exact Hk'].
          revert Hk. unfold constant_keys. rewrite !elem_of_cons. tauto.
        + exfalso. revert Ev. clear -Hk. unfold constant_keys in Hk.
          repeat (apply elem_of_cons in Hk as [-> |Hk]; [vm_compute; discriminate|]).
          inversion Hk. }
    destruct Hb as [-> | ->]; apply Hcommon;
      try (apply not_in_after; reflexivity); screens.
  - (* validation *)
    destruct Hb as [-> |[-> Hshow]].
    + apply session_inv_goto; [exact Hinv|rewrite E; screens..].
    + apply session_inv_goto; [exact Hinv|rewrite E; screens..|].
      intros _. right. rewrite Hsi in Hshow.
      destruct (show_valid _ _ _ Hshow) as (vs & Hvs & Hall & _). eauto.
  - (* confirm *)
    destruct Hb as [-> | ->].
    + apply session_inv_goto; [exact Hinv|rewrite E; screens..].
    + apply session_inv_goto; [exact Hinv|rewrite E; screens..|].
      intros _. left. rewrite E. screens.
  - (* install *)
    apply session_inv_goto; [exact Hinv|rewrite E; screens..|].
    intros _. left. rewrite E. screens.
Qed.

Lemma session_inv_visits si devs app :
  visits (start_app si devs) app → session_inv si devs app.
Proof.
  induction 1 as [|b c keys rest _ IH Hrun]; [apply session_inv_start|].
  exact (session_inv_step _ _ _ _ _ _ IH Hrun).
Qed.

(** ** Sessions from the welcome screen *)

Lemma visits_one a b keys rest :
  run_iter a keys = Ret (Continue b) rest → visits a b.
Proof. intros H. eapply visits_pass; [apply visits_here|exact H]. Qed.

Lemma visits_trans a b c : visits a b → visits b c → visits a c.
Proof.
  intros Hab Hbc. induction Hbc as [|c d keys rest _ IH Hrun]; [exact Hab|].
  eapply visits_pass; [exact IH|exact Hrun].
Qed.

(** Enter; down, Enter; space, down, space, Enter; c; Enter; y. *)
Lemma sample_visits_install :
  visits (start_app efi_info sample_devices) sample_install_app.
Proof.
  eapply visits_trans; [apply (visits_one _ _ [NL] []); vm_compute; reflexivity|].
  eapply visits_trans; [apply (visits_one _ _ ["j"; NL] []); vm_compute; reflexivity|].
  eapply visits_trans;
    [apply (visits_one _ _ [" "; "j"; " "; NL] []); vm_compute; reflexivity|].
  eapply visits_trans; [apply (visits_one _ _ ["c"] []); vm_compute; reflexivity|].
  eapply visits_trans; [apply (visits_one _ _ [NL] []); vm_compute; reflexivity|].
  apply (visits_one _ _ ["y"] []). vm_compute. reflexivity.
Qed.

(** X2. In a session started at the welcome screen, whenever the loop is at
    the confirm, install or complete screen, validation of the state it then
    holds returns and every critical check passes. *)
Theorem session_validated_before_install (si : gmap string value)
    (devs : gmap string (gmap string value)) (app : ZBMNotcursesTUI.t) :
  visits (start_app si devs) app →
  current_screen app ∈ after_validation →
  ∃ vs, run_validations (ValidationScreen.init (state app) (system_info app))
        = Some vs
        ∧ all_passed vs = true
        ∧ Forall (λ c, critical c = true → passes c = true) (checks vs).
Proof.
  intros (Hsi & _ & _ & _ & _ & Hvalid & _)%session_inv_visits Hscreen.
  destruct (Hvalid Hscreen) as (vs & Hvs & Hall). rewrite Hsi.
  exists vs. split; [exact Hvs|]. split; [exact Hall|].
  apply all_critical_passed_Forall.
  destruct (all_passed_run _ _ Hvs) as [<- _]. exact Hall.
Qed.

Lemma session_validated_before_install_witness :
  ∃ vs, run_validations
          (ValidationScreen.init (state sample_install_app) efi_info) = Some vs
        ∧ all_passed vs = true
        ∧ Forall (λ c, critical c = true → passes c = true) (checks vs).
Proof.
  apply (session_validated_before_install efi_info sample_devices sample_install_app).
  - exact sample_visits_install.
  - apply in_after. reflexivity.
Defined.

(** X3. In a session started at the welcome screen the "drives" entry is
    always a list without repetition of names of the device mapping, and it
    is non-empty from the settings screen on. *)
Theorem session_drives_chosen (si : gmap string value)
    (devs : gmap string (gmap string value)) (app : ZBMNotcursesTUI.t) :
  visits (start_app si devs) app →
  ∃ l, state app !! "drives" = Some (VList l)
       ∧ NoDup l
       ∧ (∀ d, d ∈ l → d ∈ dom (devices app))
       ∧ (current_screen app ∈ after_devices → l ≠ []).
Proof.
  intros (_ & Hdevs & _ & (l & Hl & Hnd & Hsub & Hne) & _)%session_inv_visits.
  exists l. rewrite Hdevs. auto.
Qed.

Lemma session_drives_chosen_witness :
  ∃ l, state sample_install_app !! "drives" = Some (VList l)
       ∧ NoDup l
       ∧ (∀ d, d ∈ l → d ∈ dom sample_devices)
       ∧ l ≠ [].
Proof.
  destruct (session_drives_chosen efi_info sample_devices sample_install_app
              sample_visits_install) as (l & Hl & Hnd & Hsub & Hne).
  exists l. split; [exact Hl|]. split; [exact Hnd|]. split; [exact Hsub|].
  apply Hne, in_after. reflexivity.
Defined.



(** X5. No session changes "pool_name", "hostname", "efi_size",
    "swap_size", "source_root" or "exclude_paths": they keep the values
    [__init__] gave them. *)
Theorem session_constant_entries (si : gmap string value)
    (devs : gmap string (gmap string value)) (app : ZBMNotcursesTUI.t) (k : string) :
  visits (start_app si devs) app →
  k ∈ constant_keys →
  state app !! k = init_state !! k.
Proof.
  intros (_ & _ & _ & _ & _ & _ & Hconst)%session_inv_visits. apply Hconst.
Qed.

Lemma session_constant_entries_witness :
  state sample_install_app !! "pool_name" = init_state !! "pool_name".
Proof.
  apply (session_constant_entries efi_info sample_devices sample_install_app).
  - exact sample_visits_install.
  - apply in_after. reflexivity.
Defined.

(** ** Exceptions *)

Lemma welcome_loop_not_raised keys : WelcomeScreen.loop keys ≠ Raised.
Proof.
  induction keys as [|key keys IH]; cbn [WelcomeScreen.loop]; [discriminate|].
  destruct (key_in key [NL; CR; " "]); [discriminate|].
  destruct (String.eqb (lower key) "q"); [discriminate|exact IH].
Qed.

Lemma welcome_not_raised si keys :
  is_Some (WelcomeScreen.ram_ok si) → WelcomeScreen.show si keys ≠ Raised.
Proof.
  intros [b Hb]. unfold WelcomeScreen.show. rewrite Hb.
  apply welcome_loop_not_raised.
Qed.

Lemma ram_ok_typed si : typed_info si = true → is_Some (WelcomeScreen.ram_ok si).
Proof.
  unfold WelcomeScreen.ram_ok, typed_info.
  destruct (get si "ram_gb" (VInt 0)); try discriminate; cbn; eauto.
Qed.

Lemma mode_not_raised keys :
  ∀ sel, (0 ≤ sel < 2)%Z → ModeSelectionScreen.loop sel keys ≠ Raised.
Proof.
  induction keys as [|key keys IH]; intros sel Hsel;
    cbn [ModeSelectionScreen.loop]; [discriminate|].
  destruct (String.eqb key NL || String.eqb key CR).
  { assert (sel = 0 ∨ sel = 1)%Z as [-> | ->] by lia; cbn; discriminate. }
  change (Z.of_nat (List.length ModeSelectionScreen.modes)) with 2%Z.
  destruct (key_in key ["j"; "down"]); [apply IH, Z.mod_pos_bound; lia|].
  destruct (key_in key ["k"; "up"]); [apply IH, Z.mod_pos_bound; lia|].
  destruct (String.eqb key "escape"); [discriminate|].
  destruct (String.eqb (lower key) "q"); [discriminate|]. apply IH, Hsel.
Qed.

Lemma py_index_in_range {A} (l : list A) i :
  (0 ≤ i < Z.of_nat (List.length l))%Z → is_Some (py_index l i).
Proof.
  intros Hi. unfold py_index.
  destruct (Z.leb_spec 0 i) as [_|?]; [|lia].
  apply lookup_lt_is_Some_2. lia.
Qed.

(** An entry is drawn without an exception just when it holds a number
    under "size_bytes", a str under "model" and a value under "type". *)
Lemma draw_device_drawable dev_info :
  DeviceSelectionScreen.draw_device dev_info = Some ()
  ↔ drawable_entry dev_info = true.
Proof.
  unfold DeviceSelectionScreen.draw_device, drawable_entry,
    DeviceSelectionScreen.format_size.
  destruct (dev_info !! "size_bytes") as [[]|];
    destruct (dev_info !! "model") as [[]|];
    destruct (dev_info !! "type") as [?|]; cbn; split; congruence.
Qed.

Lemma draw_list_drawable (devs : gmap string (gmap string value)) l :
  (∀ dev, dev ∈ l → ∃ dev_info, devs !! dev = Some dev_info
                                 ∧ drawable_entry dev_info = true) →
  foldr (λ dev drawn, dev_info ← devs !! dev;
                      _ ← DeviceSelectionScreen.draw_device dev_info;
                      drawn)
        (Some ()) l = Some ().
Proof.
  induction l as [|dev l IH]; intros H; cbn [foldr]; [reflexivity|].
  destruct (H dev) as (dev_info & -> & Hd); [left|].
  apply draw_device_drawable in Hd. cbn [mbind option_bind]. rewrite Hd.
  cbn [mbind option_bind]. apply IH. intros d Hd'. apply H. right. exact Hd'.
Qed.

Lemma drawable_devices_lookup devs dev dev_info :
  drawable_devices devs = true → devs !! dev = Some dev_info →
  drawable_entry dev_info = true.
Proof.
  unfold drawable_devices. rewrite forallb_forall. intros H Hl.
  apply (H (dev, dev_info)). apply list_elem_of_In, elem_of_map_to_list, Hl.
Qed.

Lemma draw_init devs sel scr :
  drawable_devices devs = true →
  DeviceSelectionScreen.init devs sel = Some scr →
  DeviceSelectionScreen.draw scr = Some ().
Proof.
  intros Hd. unfold DeviceSelectionScreen.init.
  destruct (py_set sel); [|discriminate]. intros [= <-].
  unfold DeviceSelectionScreen.draw.
  cbn [DeviceSelectionScreen.devices DeviceSelectionScreen.device_list].
  apply draw_list_drawable. intros dev Hdev.
  apply elem_of_sorted, elem_of_elements, elem_of_dom in Hdev as [dev_info Hl].
  exists dev_info. split; [exact Hl|]. eapply drawable_devices_lookup; eassumption.
Qed.

Lemma device_not_raised keys :
  ∀ self,
    DeviceSelectionScreen.draw self = Some () →
    (0 ≤ DeviceSelectionScreen.cursor self
     < Z.of_nat (List.length (DeviceSelectionScreen.device_list self)))%Z
    ∨ DeviceSelectionScreen.device_list self = [] →
    DeviceSelectionScreen.show self keys ≠ Raised.
Proof.
  induction keys as [|key keys IH]; intros self Hdraw Hc;
    cbn [DeviceSelectionScreen.show]; rewrite Hdraw; [discriminate|].
  destruct (String.eqb key NL || String.eqb key CR).
  { destruct (Nat.ltb 0 _); [discriminate|apply IH; assumption]. }
  assert (Hmove : ∀ c, DeviceSelectionScreen.device_list self ≠ [] →
            DeviceSelectionScreen.show
              (DeviceSelectionScreen.set_cursor self
                 (c `mod` Z.of_nat (List.length (DeviceSelectionScreen.device_list self)))%Z)
              keys ≠ Raised).
  { intros c Hne. apply IH; [exact Hdraw|]. left. cbn. apply Z.mod_pos_bound.
    destruct (DeviceSelectionScreen.device_list self); [congruence|cbn; lia]. }
  destruct (String.eqb key " ").
  { destruct (DeviceSelectionScreen.device_list self) as [|d0 dl] eqn:Edl;
      [apply IH; [exact Hdraw|right; exact Edl]|].
    destruct Hc as [Hc|Hc]; [|discriminate Hc].
    destruct (py_index_in_range (d0 :: dl) _ Hc) as [dev ->].
    destruct (bool_decide _); (apply IH; [exact Hdraw|]); left; cbn; rewrite Edl;
      exact Hc. }
  destruct (key_in key ["j"; "down"]).
  { destruct (DeviceSelectionScreen.device_list self) eqn:Edl;
      [apply IH; [exact Hdraw|right; exact Edl]|].
    rewrite ?Edl. apply Hmove. discriminate. }
  destruct (key_in key ["k"; "up"]).
  { destruct (DeviceSelectionScreen.device_list self) eqn:Edl;
      [apply IH; [exact Hdraw|right; exact Edl]|].
    rewrite ?Edl. apply Hmove. discriminate. }
  destruct (String.eqb key "escape"); [discriminate|].
  destruct (String.eqb (lower key) "q"); [discriminate|]. apply IH; assumption.
Qed.

Lemma cycle_choice_total self k c choices :
  is_Some (SettingsScreen.cycle_choice self k (c :: choices)).
Proof.
  unfold SettingsScreen.cycle_choice. cbn [lookup list_lookup mbind option_bind].
  apply lookup_lt_is_Some_2.
  destruct (index_of _ _); [apply Nat.mod_upper_bound; discriminate|cbn; lia].
Qed.

Lemma fields_wf_init st :
  forallb field_wf (SettingsScreen.fields (SettingsScreen.init st)) = true.
Proof.
  unfold SettingsScreen.init. cbn [SettingsScreen.fields].
  destruct (eq_str _ "existing"); reflexivity.
Qed.

Lemma settings_not_raised keys :
  ∀ self,
    (0 ≤ SettingsScreen.cursor self
     < Z.of_nat (List.length (SettingsScreen.fields self)))%Z →
    forallb field_wf (SettingsScreen.fields self) = true →
    SettingsScreen.loop self keys ≠ Raised.
Proof.
  induction keys as [keys IH] using (induction_ltof1 _ (@List.length string)).
  unfold ltof in IH. intros self Hc Hwf.
  destruct keys as [|key keys]; cbn [SettingsScreen.loop]; [discriminate|].
  destruct (String.eqb (lower key) "c"); [discriminate|].
  destruct (key_in key [" "; NL; CR]).
  { destruct (py_index_in_range _ _ Hc) as [f Ef]. rewrite Ef.
    assert (Hf : field_wf f = true).
    { rewrite forallb_forall in Hwf. apply Hwf, list_elem_of_In.
      eapply py_index_elem, Ef. }
    unfold field_wf in Hf.
    destruct (String.eqb (field_type f) "text").
    { destruct keys as [|key2 keys]; [discriminate|].
      destruct (SettingsScreen.edit_text_field _ _ _);
        apply IH; cbn; try lia; assumption. }
    destruct (String.eqb (field_type f) "choice").
    { destruct (field_choices f) as [[|c choices]|]; try discriminate Hf.
      destruct (cycle_choice_total self (field_key f) c choices) as [v ->].
      apply IH; cbn; try lia; assumption. }
    destruct (String.eqb (field_type f) "bool"); apply IH; cbn; try lia; assumption. }
  assert (Hmove : ∀ c, (Z.of_nat (List.length (SettingsScreen.fields self)) ≠ 0)%Z →
            SettingsScreen.loop
              (SettingsScreen.set_cursor self
                 (c `mod` Z.of_nat (List.length (SettingsScreen.fields self)))%Z)
              keys ≠ Raised).
  { intros c Hn. apply IH; cbn; [lia| |exact Hwf]. apply Z.mod_pos_bound. lia. }
  destruct (key_in key ["j"; "down"]).
  { destruct (Z.eqb_spec (Z.of_nat (List.length (SettingsScreen.fields self))) 0);
      [lia|apply Hmove; assumption]. }
  destruct (key_in key ["k"; "up"]).
  { destruct (Z.eqb_spec (Z.of_nat (List.length (SettingsScreen.fields self))) 0);
      [lia|apply Hmove; assumption]. }
  destruct (String.eqb key "escape"); [discriminate|].
  destruct (String.eqb (lower key) "q"); [discriminate|].
  apply IH; cbn; try lia; assumption.
Qed.

Lemma settings_show_not_raised st keys :
  SettingsScreen.show (SettingsScreen.init st) keys ≠ Raised.
Proof.
  apply settings_not_raised; [|apply fields_wf_init].
  unfold SettingsScreen.init. cbn [SettingsScreen.cursor SettingsScreen.fields].
  destruct (eq_str _ "existing"); cbn; lia.
Qed.

Lemma wait_loop_not_raised vs keys : wait_loop vs keys ≠ Raised.
Proof.
  induction keys as [|key keys IH]; cbn [wait_loop]; [discriminate|].
  destruct (_ && _); [discriminate|].
  destruct (String.eqb key "escape"); [discriminate|].
  destruct (String.eqb (lower key) "q"); [discriminate|exact IH].
Qed.

Lemma confirmation_loop_not_raised keys : ConfirmationScreen.loop keys ≠ Raised.
Proof.
  induction keys as [|key keys IH]; cbn [ConfirmationScreen.loop]; [discriminate|].
  destruct (String.eqb (lower key) "y"); [discriminate|].
  destruct (_ || _); [discriminate|].
  destruct (String.eqb (lower key) "q"); [discriminate|exact IH].
Qed.

Lemma confirmation_not_raised st keys :
  ConfirmationScreen.draw st = Some () → ConfirmationScreen.show st keys ≠ Raised.
Proof.
  intros Hd. unfold ConfirmationScreen.show. rewrite Hd.
  apply confirmation_loop_not_raised.
Qed.

Lemma confirmation_draw_typed st :
  typed_state st = true → bootloader_str st = true →
  ConfirmationScreen.draw st = Some ().
Proof.
  intros (drives & _ & _ & _ & Hd & _)%typed_state_inv Hb.
  unfold ConfirmationScreen.draw, bootloader_str, get in *. rewrite Hd.
  cbn [default from_option id].
  destruct (default (VStr "zbm") (st !! "bootloader")); try discriminate Hb.
  reflexivity.
Qed.

(** *** The bootloader entry stays a str *)

Lemma fields_keep_bootloader_init st :
  forallb field_keeps_bootloader (SettingsScreen.fields (SettingsScreen.init st))
  = true.
Proof.
  unfold SettingsScreen.init. cbn [SettingsScreen.fields].
  destruct (eq_str _ "existing"); reflexivity.
Qed.

Lemma bootloader_insert_other (st : gmap string value) k v :
  k ≠ "bootloader" → bootloader_str (<[k := v]> st) = bootloader_str st.
Proof. intros. unfold bootloader_str. rewrite get_insert_ne by assumption. reflexivity. Qed.

Lemma bootloader_insert_str (st : gmap string value) k s :
  bootloader_str st = true → bootloader_str (<[k := VStr s]> st) = true.
Proof.
  intros H. destruct (decide (k = "bootloader")) as [->|Hk].
  - unfold bootloader_str. rewrite get_insert_eq. reflexivity.
  - rewrite bootloader_insert_other; assumption.
Qed.

Lemma settings_loop_bootloader keys :
  ∀ self r st' rest,
    forallb field_keeps_bootloader (SettingsScreen.fields self) = true →
    bootloader_str (SettingsScreen.state self) = true →
    SettingsScreen.loop self keys = Ret (r, st') rest →
    bootloader_str st' = true.
Proof.
  induction keys as [keys IH] using (induction_ltof1 _ (@List.length string)).
  unfold ltof in IH. intros self r st' rest Hkeep Hb.
  destruct keys as [|key keys]; cbn [SettingsScreen.loop]; [discriminate|].
  destruct (String.eqb (lower key) "c"); [intros [= _ <- _]; exact Hb|].
  destruct (key_in key [" "; NL; CR]).
  { destruct (py_index _ _) as [f|] eqn:Ef; [|discriminate].
    assert (Hf : field_keeps_bootloader f = true).
    { rewrite forallb_forall in Hkeep. apply Hkeep, list_elem_of_In.
      eapply py_index_elem, Ef. }
    unfold field_keeps_bootloader in Hf.
    destruct (String.eqb (field_type f) "choice") eqn:Ec.
    { apply String.eqb_eq in Ec. rewrite Ec. cbn [String.eqb Ascii.eqb Bool.eqb].
      destruct (field_choices f) as [choices|]; [|discriminate].
      destruct (SettingsScreen.cycle_choice _ _ _) as [c|]; [|discriminate].
      apply IH; [cbn; lia|exact Hkeep|]. apply bootloader_insert_str, Hb. }
    rewrite orb_false_r in Hf. apply negb_true_iff, String.eqb_neq in Hf.
    destruct (String.eqb (field_type f) "text").
    { destruct keys as [|key2 keys]; [discriminate|].
      destruct (SettingsScreen.edit_text_field _ _ _);
        (apply IH; [cbn; lia|exact Hkeep|]);
        first [exact Hb|cbn [SettingsScreen.state SettingsScreen.set_state];
                        rewrite bootloader_insert_other; assumption]. }
    destruct (String.eqb (field_type f) "bool");
      (apply IH; [cbn; lia|exact Hkeep|]);
      first [exact Hb|cbn [SettingsScreen.state SettingsScreen.set_state];
                      rewrite bootloader_insert_other; assumption]. }
  destruct (key_in key ["j"; "down"]).
  { destruct (_ =? 0)%Z; [discriminate|]. apply IH; [cbn; lia|exact Hkeep|exact Hb]. }
  destruct (key_in key ["k"; "up"]).
  { destruct (_ =? 0)%Z; [discriminate|]. apply IH; [cbn; lia|exact Hkeep|exact Hb]. }
  destruct (String.eqb key "escape"); [intros [= _ <- _]; exact Hb|].
  destruct (String.eqb (lower key) "q"); [intros [= _ <- _]; exact Hb|].
  apply IH; [cbn; lia|exact Hkeep|exact Hb].
Qed.

Lemma run_iter_bootloader a b keys rest :
  bootloader_str (state a) = true →
  run_iter a keys = Ret (Continue b) rest →
  bootloader_str (state b) = true.
Proof.
  intros Hb Hrun.
  destruct (run_iter_cases _ _ _ _ Hrun)
    as [[_ ->]|[[_ [->|(r & _ & ->)]]|[[_ [->|[(l & sel & _ & _ & _ & ->)
       |(s & sel & _ & _ & ->)]]]|[[_ (r & st' & Hs & [->| ->])]
       |[[_ [->|[-> _]]]|[[_ [->| ->]]|[_ ->]]]]]]];
    cbn [state goto set_state]; try exact Hb;
    try (rewrite bootloader_insert_other by discriminate; exact Hb);
    exact (settings_loop_bootloader _ _ _ _ _ (fields_keep_bootloader_init _) Hb Hs).
Qed.

Lemma visits_bootloader si devs app :
  visits (start_app si devs) app → bootloader_str (state app) = true.
Proof.
  induction 1 as [|b c keys rest _ IH Hrun]; [reflexivity|].
  exact (run_iter_bootloader _ _ _ _ IH Hrun).
Qed.

(** A pass does not raise when the welcome screen can compare "ram_gb", the
    state holds a list of drives, every device entry can be drawn, the checks
    run through and the summary can be drawn. *)
Lemma run_iter_not_raised a keys :
  is_Some (WelcomeScreen.ram_ok (system_info a)) →
  (∃ l, state a !! "drives" = Some (VList l)) →
  drawable_devices (devices a) = true →
  is_Some (run_validations (ValidationScreen.init (state a) (system_info a))) →
  ConfirmationScreen.draw (state a) = Some () →
  run_iter a keys ≠ Raised.
Proof.
  intros Hram [l Hl] Hdevs [vs Hvs] Hdraw. unfold run_iter.
  destruct (String.eqb (current_screen a) "welcome").
  { pose proof (welcome_not_raised _ keys Hram).
    destruct (WelcomeScreen.show _ keys) as [r rest| |]; try congruence.
    destruct (String.eqb r "quit"); discriminate. }
  destruct (String.eqb (current_screen a) "mode_select").
  { pose proof (mode_not_raised keys 0 ltac:(lia)) as H.
    unfold ModeSelectionScreen.show.
    destruct (ModeSelectionScreen.loop 0 keys) as [r rest| |]; try congruence.
    destruct (String.eqb r "back"); [discriminate|].
    destruct (key_in r _); [discriminate|].
    destruct (String.eqb r "quit"); discriminate. }
  destruct (String.eqb (current_screen a) "device_select").
  { rewrite Hl.
    destruct (DeviceSelectionScreen.init (devices a) (VList l)) as [scr|] eqn:Ei;
      [|discriminate Ei].
    pose proof (draw_init _ _ _ Hdevs Ei) as Hd.
    assert (Hn : DeviceSelectionScreen.show scr keys ≠ Raised).
    { apply device_not_raised; [exact Hd|].
      injection Ei as <-. cbn.
      destruct (sorted _); [right; reflexivity|left; cbn; lia]. }
    destruct (DeviceSelectionScreen.show scr keys) as [[r|l'] rest| |];
      try congruence.
    destruct (String.eqb r "back"); [discriminate|].
    destruct (String.eqb r "quit"); discriminate. }
  destruct (String.eqb (current_screen a) "settings").
  { pose proof (settings_show_not_raised (state a) keys).
    destruct (SettingsScreen.show _ keys) as [[r st'] rest| |]; try congruence.
    destruct (String.eqb r "back"); [discriminate|].
    destruct (String.eqb r "quit"); [discriminate|].
    destruct (String.eqb r "next"); discriminate. }
  destruct (String.eqb (current_screen a) "validation").
  { unfold ValidationScreen.show. rewrite Hvs.
    pose proof (wait_loop_not_raised vs keys).
    destruct (wait_loop vs keys) as [r rest| |]; try congruence.
    destruct (String.eqb r "back"); [discriminate|].
    destruct (String.eqb r "quit"); [discriminate|].
    destruct (String.eqb r "valid"); discriminate. }
  destruct (String.eqb (current_screen a) "confirm").
  { pose proof (confirmation_not_raised _ keys Hdraw).
    destruct (ConfirmationScreen.show _ keys) as [r rest| |]; try congruence.
    destruct (String.eqb r "back"); [discriminate|].
    destruct (String.eqb r "quit"); [discriminate|].
    destruct (String.eqb r "proceed"); discriminate. }
  destruct (String.eqb (current_screen a) "install").
  { destruct (InstallationScreen.show _) as [scr r].
    destruct (String.eqb r "success"); [discriminate|].
    destruct (String.eqb r "failed"); [discriminate|].
    destruct (String.eqb r "quit"); discriminate. }
  destruct (String.eqb (current_screen a) "complete").
  { destruct keys; discriminate. }
  discriminate.
Qed.

(** What a session keeps true, so that no screen raises. *)
Lemma session_safe si devs app :
  visits (start_app si devs) app →
  typed_info si = true →
  drawable_devices devs = true →
  is_Some (WelcomeScreen.ram_ok (system_info app))
  ∧ (∃ l, state app !! "drives" = Some (VList l))
  ∧ drawable_devices (devices app) = true
  ∧ is_Some (run_validations (ValidationScreen.init (state app) (system_info app)))
  ∧ ConfirmationScreen.draw (state app) = Some ().
Proof.
  intros Hv Hinfo Hdevs.
  pose proof (visits_bootloader _ _ _ Hv) as Hb.
  apply session_inv_visits in Hv as (Hsi & Hdv & Htyped & (l & Hl & _) & _).
  rewrite Hsi, Hdv. split; [apply ram_ok_typed, Hinfo|].
  split; [eauto|]. split; [exact Hdevs|]. split.
  - destruct (run_validations_typed _ _ Htyped Hinfo) as [vs Hvs]. eauto.
  - apply confirmation_draw_typed; assumption.
Qed.

(** An entry that lacks its keys makes the device screen raise before it
    reads a key. *)
Example device_select_raises_on_bare_entry :
  run_iter (goto (start_app efi_info bare_devices) "device_select") ["q"] = Raised.
Proof. vm_compute. reflexivity. Qed.

(** X7. In a session started at the welcome screen with a numeric "ram_gb"
    (or none) and a device mapping whose every entry holds a number under
    "size_bytes", a str under "model" and a value under "type", no pass of
    the main loop raises, and the comparison the welcome screen makes while
    drawing does not raise either. *)
Theorem session_never_raises (si : gmap string value)
    (devs : gmap string (gmap string value)) (app : ZBMNotcursesTUI.t)
    (keys : list string) :
  visits (start_app si devs) app →
  typed_info si = true →
  drawable_devices devs = true →
  run_iter app keys ≠ Raised
  ∧ is_Some (WelcomeScreen.ram_ok (system_info app)).
Proof.
  intros Hv Hinfo Hdevs.
  destruct (session_safe _ _ _ Hv Hinfo Hdevs) as (Hram & Hl & Hd & Hvs & Hdraw).
  split; [|exact Hram]. apply run_iter_not_raised; assumption.
Qed.

Lemma session_never_raises_witness :
  run_iter sample_install_app ["q"] ≠ Raised.
Proof.
  eapply proj1. apply (session_never_raises efi_info sample_devices).
  - exact sample_visits_install.
  - reflexivity.
  - vm_compute. reflexivity.
Defined.

(** A "ram_gb" that is no number makes check 2 raise, and nothing in [run]
    catches it. *)
(** X8. When "ram_gb" is None, a str or a list, [run_validations] raises, so
    does a pass of the main loop at the validation screen whatever the keys,
    and so does the comparison the welcome screen makes. *)
Theorem validation_raises_on_bad_ram (self : ZBMNotcursesTUI.t)
    (keys : list string) (v : value) :
  current_screen self = "validation" →
  system_info self !! "ram_gb" = Some v →
  (v = VNone ∨ (∃ s, v = VStr s) ∨ (∃ l, v = VList l)) →
  run_validations (ValidationScreen.init (state self) (system_info self)) = None
  ∧ run_iter self keys = Raised
  ∧ WelcomeScreen.ram_ok (system_info self) = None.
Proof.
  intros Hscr Hv Hbad.
  assert (Hnone : run_validations
                    (ValidationScreen.init (state self) (system_info self)) = None).
  { unfold run_validations, check_ram, get.
    cbn [ValidationScreen.system_info ValidationScreen.init].
    rewrite Hv. destruct Hbad as [-> |[[s ->]|[l ->]]]; reflexivity. }
  split; [exact Hnone|]. split.
  - rewrite (run_iter_validation _ _ Hscr). unfold ValidationScreen.show.
    rewrite Hnone. reflexivity.
  - unfold WelcomeScreen.ram_ok, get. rewrite Hv.
    destruct Hbad as [-> |[[s ->]|[l ->]]]; reflexivity.
Qed.

Lemma validation_raises_on_bad_ram_witness :
  run_iter (app_at "validation" one_drive_state
                   (<["ram_gb" := VStr "8"]> efi_info)) ["escape"] = Raised.
Proof.
  eapply proj1, proj2.
  apply (validation_raises_on_bad_ram
           (app_at "validation" one_drive_state (<["ram_gb" := VStr "8"]> efi_info))
           ["escape"] (VStr "8")).
  - reflexivity.
  - vm_compute. reflexivity.
  - right. left. eexists. reflexivity.
Defined.

(** ** The install log *)

(** X10. Adding messages to a log that is within its capacity keeps it
    within its capacity, and the log then holds the last [max_log_lines] of
    the old lines followed by the new messages, oldest dropped first. *)
Theorem add_log_keeps_last (self : InstallationScreen.t) (msgs : list string) :
  (List.length (InstallationScreen.log_lines self)
   ≤ InstallationScreen.max_log_lines self)%nat →
  InstallationScreen.log_lines (fold_left InstallationScreen.add_log msgs self)
  = drop (List.length (InstallationScreen.log_lines self ++ msgs)%list
          - InstallationScreen.max_log_lines self)
         (InstallationScreen.log_lines self ++ msgs)%list
  ∧ (List.length
       (InstallationScreen.log_lines (fold_left InstallationScreen.add_log msgs self))
     ≤ InstallationScreen.max_log_lines self)%nat
  ∧ InstallationScreen.max_log_lines (fold_left InstallationScreen.add_log msgs self)
    = InstallationScreen.max_log_lines self.
Proof. apply fold_add_log_last. Qed.

Lemma add_log_keeps_last_witness :
  InstallationScreen.log_lines
    (fold_left InstallationScreen.add_log
       ["a"; "b"; "c"; "d"; "e"; "f"; "g"; "h"; "i"; "j"; "k"; "l"]
       (InstallationScreen.init init_state))
  = ["c"; "d"; "e"; "f"; "g"; "h"; "i"; "j"; "k"; "l"].
Proof.
  destruct (add_log_keeps_last (InstallationScreen.init init_state)
              ["a"; "b"; "c"; "d"; "e"; "f"; "g"; "h"; "i"; "j"; "k"; "l"])
    as [H _]; [cbn; lia|].
  rewrite H. reflexivity.
Defined.

(** X11. When [InstallationScreen.show] returns, the log holds exactly the
    last ten of the "Starting: ..." and "Completed: ..." lines of the steps,
    in order, and the state dict is untouched. *)
Theorem install_log_last_ten (st : gmap string value) :
  InstallationScreen.log_lines
    (fst (InstallationScreen.show (InstallationScreen.init st)))
  = drop (2 * List.length
                (InstallationScreen.steps
                   (InstallationScreen.init_steps (InstallationScreen.init st)))
          - 10)
         (flat_map (λ s, ["Starting: " +:+ s; "Completed: " +:+ s])
            (InstallationScreen.steps
               (InstallationScreen.init_steps (InstallationScreen.init st))))
  ∧ List.length
      (InstallationScreen.log_lines
         (fst (InstallationScreen.show (InstallationScreen.init st)))) = 10%nat
  ∧ InstallationScreen.state
      (fst (InstallationScreen.show (InstallationScreen.init st))) = st.
Proof.
  unfold InstallationScreen.show.
  cbn [fst InstallationScreen.set_current_step InstallationScreen.log_lines
       InstallationScreen.state].
  set (self1 := InstallationScreen.init_steps (InstallationScreen.init st)).
  destruct (run_steps_log (InstallationScreen.steps self1) self1 0) as [Hlog Hst].
  rewrite Hlog, Hst.
  destruct (fold_add_log_last self1
              (flat_map (λ s, ["Starting: " +:+ s; "Completed: " +:+ s])
                 (InstallationScreen.steps self1))) as (H1 & _ & _).
  { cbn. lia. }
  rewrite H1. clear H1 Hlog Hst.
  subst self1. unfold InstallationScreen.init_steps, InstallationScreen.init.
  cbn [InstallationScreen.steps InstallationScreen.state
       InstallationScreen.log_lines InstallationScreen.max_log_lines].
  destruct (eq_str _ "existing"); (split; [reflexivity|split; reflexivity]).
Qed.

(** ** What [all_passed] amounts to *)

Lemma check_ram_passes si c :
  check_ram si = Some c →
  py_ge (get si "ram_gb" (VInt 0)) 2 = Some (passes c)
  ∧ name c = "RAM Check" ∧ critical c = true.
Proof.
  unfold check_ram. destruct (py_ge _ 2) as [ok|]; [|discriminate].
  destruct (py_str _); [|discriminate]. cbn. intros [= <-]. auto.
Qed.

(** X9. On a typed state validation returns; [all_passed] is true exactly
    when "is_efi" is true, "ram_gb" is at least 2, a drive is selected, the
    drive count reaches the RAID level's minimum and the pool name is
    accepted; the checks come in the fixed order EFI, RAM, drives, RAID, pool
    name, followed by the host name in migration mode. *)
Theorem all_passed_iff (st si : gmap string value) (drives : list string)
    (level pool : string) :
  typed_state st = true →
  typed_info si = true →
  get st "drives" (VList []) = VList drives →
  get st "raid_level" (VStr "none") = VStr level →
  get st "pool_name" (VStr "") = VStr pool →
  ∃ vs,
    run_validations (ValidationScreen.init st si) = Some vs
    ∧ (all_passed vs = true ↔
       truthy (get si "is_efi" (VBool false)) = true
       ∧ py_ge (get si "ram_gb" (VInt 0)) 2 = Some true
       ∧ drives ≠ []
       ∧ (spec_min_drives level ≤ List.length drives)%nat
       ∧ pool_ok pool = true)
    ∧ name <$> checks vs
      = (["EFI System Check"; "RAM Check"; "Drive Selection";
          "RAID Configuration"; "Pool Name"]
         ++ (if eq_str (get st "mode" VNone) "existing" then ["Hostname"] else []))%list.
Proof.
  intros (drives' & level' & pool' & host & Hd & Hl & Hp & Hh)%typed_state_inv
         Hsi Hd' Hl' Hp'.
  rewrite Hd' in Hd. injection Hd as <-. rewrite Hl' in Hl. injection Hl as <-.
  rewrite Hp' in Hp. injection Hp as <-.
  destruct (run_validations_shape _ _ _ _ _ _ Hsi Hd' Hl' Hp' Hh)
    as (c2 & vs & Hc2 & _ & _ & Hrun & Hchecks & Hall).
  destruct (check_ram_passes _ _ Hc2) as (Hram & Hn2 & Hcr2).
  exists vs. split; [exact Hrun|]. split.
  - rewrite Hall, Hchecks.
    rewrite all_critical_passed_app_noncritical by apply hostname_entries_noncritical.
    unfold all_critical_passed. cbn [List.filter critical check_efi drives_entry
      raid_entry pool_entry]. rewrite Hcr2.
    cbn [forallb passed truthy check_efi drives_entry raid_entry pool_entry].
    rewrite Hram. change (truthy (passed c2)) with (passes c2).
    rewrite !andb_true_iff, Nat.ltb_lt, Nat.leb_le.
    destruct drives; cbn [List.length]; split.
    + intros (_ & _ & H & _). lia.
    + intros (_ & _ & H & _). congruence.
    + intros (? & -> & ? & ? & ? & _). repeat split; try assumption. discriminate.
    + intros (? & [= ->] & ? & ? & ?). repeat split; try assumption; lia.
  - rewrite Hchecks, fmap_app. cbn [fmap list_fmap name check_efi drives_entry
      raid_entry pool_entry]. rewrite Hn2. f_equal.
    unfold hostname_entries. destruct (eq_str _ "existing"); reflexivity.
Qed.

Lemma all_passed_iff_witness :
  ∃ vs,
    run_validations (ValidationScreen.init migrate_state efi_info) = Some vs
    ∧ all_passed vs = true
    ∧ List.length (checks vs) = 6%nat.
Proof.
  destruct (all_passed_iff migrate_state efi_info ["sda"] "none" "zroot")
    as (vs & Hrun & Hiff & Hnames); [vm_compute; reflexivity ..|].
  exists vs. split; [exact Hrun|]. split.
  - apply Hiff. repeat split; try reflexivity; [discriminate|vm_compute; lia].
  - rewrite <- (length_fmap name), Hnames. reflexivity.
Defined.

(** ** Keys of the device screen *)

Lemma device_set_selected_same self :
  DeviceSelectionScreen.set_selected self (DeviceSelectionScreen.selected_drives self)
  = self.
Proof. destruct self; reflexivity. Qed.

Lemma device_show_raised self keys :
  DeviceSelectionScreen.draw self = None →
  DeviceSelectionScreen.show self keys = Raised.
Proof. intros H. destruct keys; cbn [DeviceSelectionScreen.show]; rewrite H; reflexivity. Qed.

Lemma draw_set_selected self s :
  DeviceSelectionScreen.draw (DeviceSelectionScreen.set_selected self s)
  = DeviceSelectionScreen.draw self.
Proof. reflexivity. Qed.

Lemma draw_set_cursor self c :
  DeviceSelectionScreen.draw (DeviceSelectionScreen.set_cursor self c)
  = DeviceSelectionScreen.draw self.
Proof. reflexivity. Qed.

(** X12. On the device screen, with the cursor on a device (or no device at
    all), two presses of the space bar leave the screen as it was, and Enter
    is skipped while no drive is selected. *)
Theorem device_screen_keys (self : DeviceSelectionScreen.t) (keys : list string) :
  (0 ≤ DeviceSelectionScreen.cursor self
   < Z.of_nat (List.length (DeviceSelectionScreen.device_list self)))%Z
  ∨ DeviceSelectionScreen.device_list self = [] →
  DeviceSelectionScreen.show self (" " :: " " :: keys)
  = DeviceSelectionScreen.show self keys
  ∧ (DeviceSelectionScreen.selected_drives self = ∅ →
     DeviceSelectionScreen.show self (NL :: keys)
     = DeviceSelectionScreen.show self keys
     ∧ DeviceSelectionScreen.show self (CR :: keys)
       = DeviceSelectionScreen.show self keys).
Proof.
  intros Hc.
  destruct (DeviceSelectionScreen.draw self) as [[]|] eqn:Hd;
    [|rewrite !device_show_raised by exact Hd; auto].
  split.
  - cbn [DeviceSelectionScreen.show]. rewrite Hd.
    replace (String.eqb " " NL || String.eqb " " CR) with false by reflexivity.
    replace (String.eqb " " " ") with true by reflexivity. cbv iota.
    destruct (DeviceSelectionScreen.device_list self) as [|d0 dl] eqn:Edl.
    { cbn [DeviceSelectionScreen.show]. rewrite ?Hd.
      replace (String.eqb " " NL || String.eqb " " CR) with false by reflexivity.
      replace (String.eqb " " " ") with true by reflexivity. cbv iota.
      rewrite ?Edl. reflexivity. }
    destruct Hc as [Hc|Hc]; [|discriminate Hc].
    destruct (py_index_in_range (d0 :: dl) _ Hc) as [dev Hdev]. rewrite Hdev.
    destruct (bool_decide_reflect (dev ∈ DeviceSelectionScreen.selected_drives self))
      as [Hin|Hout];
      cbn [DeviceSelectionScreen.show];
      rewrite ?draw_set_selected, ?Hd;
      replace (String.eqb " " NL || String.eqb " " CR) with false by reflexivity;
      replace (String.eqb " " " ") with true by reflexivity; cbv iota;
      cbn [DeviceSelectionScreen.device_list DeviceSelectionScreen.set_selected
           DeviceSelectionScreen.cursor DeviceSelectionScreen.selected_drives];
      rewrite ?Edl, ?Hdev.
    + rewrite bool_decide_eq_false_2 by set_solver.
      replace ({[dev]} ∪ DeviceSelectionScreen.selected_drives self ∖ {[dev]})
        with (DeviceSelectionScreen.selected_drives self).
      * destruct self; reflexivity.
      * apply leibniz_equiv. intros x. rewrite elem_of_union, elem_of_difference,
          elem_of_singleton. destruct (decide (x = dev)) as [-> |]; naive_solver.
    + rewrite bool_decide_eq_true_2 by set_solver.
      replace (({[dev]} ∪ DeviceSelectionScreen.selected_drives self) ∖ {[dev]})
        with (DeviceSelectionScreen.selected_drives self).
      * destruct self; reflexivity.
      * apply leibniz_equiv. intros x. rewrite elem_of_difference, elem_of_union,
          elem_of_singleton. destruct (decide (x = dev)) as [-> |]; naive_solver.
  - intros Hempty. cbn [DeviceSelectionScreen.show]. rewrite Hd, Hempty, size_empty.
    split; reflexivity.
Qed.

Lemma device_screen_keys_witness :
  DeviceSelectionScreen.show
    {| DeviceSelectionScreen.devices := sample_devices;
       DeviceSelectionScreen.selected_drives := ∅;
       DeviceSelectionScreen.cursor := 0;
       DeviceSelectionScreen.device_list := ["nvme0n1"; "sda"; "sdb"] |}
    [" "; " "; NL; "escape"]
  = Ret (AStr "back") [].
Proof.
  destruct (device_screen_keys
              {| DeviceSelectionScreen.devices := sample_devices;
                 DeviceSelectionScreen.selected_drives := ∅;
                 DeviceSelectionScreen.cursor := 0;
                 DeviceSelectionScreen.device_list := ["nvme0n1"; "sda"; "sdb"] |}
              [NL; "escape"]) as [H _]; [left; cbn; lia|].
  rewrite H. reflexivity.
Defined.

(** ** Screen names and quitting *)

Lemma visits_screen_name si devs app :
  visits (start_app si devs) app →
  current_screen app
  ∈ ["welcome"; "mode_select"; "device_select"; "settings"; "validation";
     "confirm"; "install"; "complete"].
Proof.
  induction 1 as [|b c keys rest _ IH Hrun]; [apply in_after; reflexivity|].
  apply run_iter_next in Hrun.
  repeat (apply elem_of_cons in IH as [IH|IH];
          [rewrite IH in Hrun; cbn in Hrun;
           repeat (apply elem_of_cons in Hrun as [-> |Hrun];
                   [apply in_after; reflexivity|]); inversion Hrun|]).
  inversion IH.
Qed.

Lemma tui_set_state_same a : set_state a (state a) = a.
Proof. destruct a; reflexivity. Qed.

(** X13. In a session with a numeric "ram_gb" (or none) and a device mapping
    whose every entry holds a number under "size_bytes", a str under "model"
    and a value under "type", on every screen but the install screen the key
    q (or Q), read first, ends the loop with the application unchanged. *)
Theorem session_quit_key (si : gmap string value)
    (devs : gmap string (gmap string value)) (app : ZBMNotcursesTUI.t)
    (key : string) (keys : list string) :
  visits (start_app si devs) app →
  typed_info si = true →
  drawable_devices devs = true →
  key = "q" ∨ key = "Q" →
  current_screen app ≠ "install" →
  run_iter app (key :: keys) = Ret (Break app) keys.
Proof.
  intros Hvis Hinfo Hdevs Hkey Hscr.
  pose proof (visits_screen_name _ _ _ Hvis) as Hname.
  destruct (session_safe _ _ _ Hvis Hinfo Hdevs)
    as ([ok Hram] & (l & Hl) & Hdraw & [vs Hvs] & Hsum).
  assert (Hq : String.eqb (lower key) "q" = true
               ∧ key_in key [NL; CR; " "] = false
               ∧ key_in key [NL; CR] = false
               ∧ key_in key [" "; NL; CR] = false
               ∧ (String.eqb key NL || String.eqb key CR) = false
               ∧ String.eqb key " " = false
               ∧ key_in key ["j"; "down"] = false
               ∧ key_in key ["k"; "up"] = false
               ∧ String.eqb key "escape" = false
               ∧ String.eqb (lower key) "c" = false
               ∧ String.eqb (lower key) "y" = false
               ∧ String.eqb (lower key) "n" = false)
    by (destruct Hkey as [-> | ->]; repeat split; reflexivity).
  destruct Hq as (Q1 & Q2 & Q3 & Q4 & Q5 & Q6 & Q7 & Q8 & Q9 & Q10 & Q11 & Q12).
  unfold run_iter.
  repeat (apply elem_of_cons in Hname as [E|Hname];
          [rewrite E; cbn [String.eqb Ascii.eqb Bool.eqb andb]|]).
  - unfold WelcomeScreen.show. rewrite Hram. cbn [WelcomeScreen.loop].
    rewrite Q2, Q1. reflexivity.
  - unfold ModeSelectionScreen.show. cbn [ModeSelectionScreen.loop].
    rewrite Q5, Q7, Q8, Q9, Q1. reflexivity.
  - rewrite Hl.
    destruct (DeviceSelectionScreen.init (devices app) (VList l)) as [scr|] eqn:Ei;
      [|discriminate Ei].
    pose proof (draw_init _ _ _ Hdraw Ei) as Hd.
    cbn [DeviceSelectionScreen.show]. rewrite Hd, Q5, Q6, Q7, Q8, Q9, Q1.
    reflexivity.
  - unfold SettingsScreen.show. cbn [SettingsScreen.loop].
    rewrite Q10, Q4, Q7, Q8, Q9, Q1.
    cbn [SettingsScreen.state SettingsScreen.init].
    replace (String.eqb "quit" "back") with false by reflexivity.
    replace (String.eqb "quit" "quit") with true by reflexivity.
    rewrite tui_set_state_same. reflexivity.
  - unfold ValidationScreen.show. rewrite Hvs.
    cbn [wait_loop]. rewrite Q3, Q9, Q1. reflexivity.
  - unfold ConfirmationScreen.show. rewrite Hsum. cbn [ConfirmationScreen.loop].
    rewrite Q11, Q12, Q9, Q1. reflexivity.
  - congruence.
  - reflexivity.
  - inversion Hname.
Qed.

Lemma session_quit_key_witness :
  run_iter (start_app efi_info sample_devices) ["Q"; "x"]
  = Ret (Break (start_app efi_info sample_devices)) ["x"].
Proof.
  apply (session_quit_key efi_info sample_devices).
  - apply visits_here.
  - reflexivity.
  - vm_compute. reflexivity.
  - right. reflexivity.
  - discriminate.
Defined.

(** ** The main loop ends *)

Lemma welcome_consumes si keys r rest :
  WelcomeScreen.show si keys = Ret r rest → (List.length rest < List.length keys)%nat.
Proof.
  unfold WelcomeScreen.show. destruct (WelcomeScreen.ram_ok si); [|discriminate].
  induction keys as [|key keys IH]; cbn [WelcomeScreen.loop]; [discriminate|].
  destruct (key_in key [NL; CR; " "]); [intros [= _ <-]; cbn; lia|].
  destruct (String.eqb (lower key) "q"); [intros [= _ <-]; cbn; lia|].
  intros H%IH. cbn. lia.
Qed.

Lemma mode_consumes keys :
  ∀ sel r rest,
    ModeSelectionScreen.loop sel keys = Ret r rest →
    (List.length rest < List.length keys)%nat.
Proof.
  induction keys as [|key keys IH]; intros sel r rest;
    cbn [ModeSelectionScreen.loop]; [discriminate|].
  destruct (String.eqb key NL || String.eqb key CR).
  { destruct (py_index _ _) as [[[m ?] ?]|]; [|discriminate].
    intros [= _ <-]. cbn. lia. }
  destruct (key_in key ["j"; "down"]); [intros H%IH; cbn; lia|].
  destruct (key_in key ["k"; "up"]); [intros H%IH; cbn; lia|].
  destruct (String.eqb key "escape"); [intros [= _ <-]; cbn; lia|].
  destruct (String.eqb (lower key) "q"); [intros [= _ <-]; cbn; lia|].
  intros H%IH. cbn. lia.
Qed.

Lemma device_consumes keys :
  ∀ self r rest,
    DeviceSelectionScreen.show self keys = Ret r rest →
    (List.length rest < List.length keys)%nat.
Proof.
  induction keys as [|key keys IH]; intros self r rest;
    cbn [DeviceSelectionScreen.show];
    (destruct (DeviceSelectionScreen.draw self); [|discriminate]);
    [discriminate|].
  destruct (String.eqb key NL || String.eqb key CR).
  { destruct (Nat.ltb 0 _); [intros [= _ <-]; cbn; lia|intros H%IH; cbn; lia]. }
  destruct (String.eqb key " ").
  { destruct (DeviceSelectionScreen.device_list self); [intros H%IH; cbn; lia|].
    destruct (py_index _ _); [|discriminate].
    destruct (bool_decide _); intros H%IH; cbn; lia. }
  destruct (key_in key ["j"; "down"]).
  { destruct (DeviceSelectionScreen.device_list self); intros H%IH; cbn; lia. }
  destruct (key_in key ["k"; "up"]).
  { destruct (DeviceSelectionScreen.device_list self); intros H%IH; cbn; lia. }
  destruct (String.eqb key "escape"); [intros [= _ <-]; cbn; lia|].
  destruct (String.eqb (lower key) "q"); [intros [= _ <-]; cbn; lia|].
  intros H%IH. cbn. lia.
Qed.

Lemma settings_consumes keys :
  ∀ self r rest,
    SettingsScreen.loop self keys = Ret r rest →
    (List.length rest < List.length keys)%nat.
Proof.
  induction keys as [keys IH] using (induction_ltof1 _ (@List.length string)).
  unfold ltof in IH. intros self r rest.
  destruct keys as [|key keys]; cbn [SettingsScreen.loop]; [discriminate|].
  assert (Hrec : ∀ self', SettingsScreen.loop self' keys = Ret r rest →
                          (List.length rest < List.length (key :: keys))%nat).
  { intros self' H. apply IH in H; cbn; lia. }
  destruct (String.eqb (lower key) "c"); [intros [= _ <-]; cbn; lia|].
  destruct (key_in key [" "; NL; CR]).
  { destruct (py_index _ _) as [f|]; [|discriminate].
    destruct (String.eqb (field_type f) "text").
    { destruct keys as [|key2 keys]; [discriminate|].
      destruct (SettingsScreen.edit_text_field _ _ _);
        intros H; apply IH in H; cbn in *; lia. }
    destruct (String.eqb (field_type f) "choice").
    { destruct (field_choices f); [|discriminate].
      destruct (SettingsScreen.cycle_choice _ _ _); [|discriminate]. apply Hrec. }
    destruct (String.eqb (field_type f) "bool"); apply Hrec. }
  destruct (key_in key ["j"; "down"]).
  { destruct (_ =? 0)%Z; [discriminate|apply Hrec]. }
  destruct (key_in key ["k"; "up"]).
  { destruct (_ =? 0)%Z; [discriminate|apply Hrec]. }
  destruct (String.eqb key "escape"); [intros [= _ <-]; cbn; lia|].
  destruct (String.eqb (lower key) "q"); [intros [= _ <-]; cbn; lia|].
  apply Hrec.
Qed.

Lemma wait_loop_consumes vs keys r rest :
  wait_loop vs keys = Ret r rest → (List.length rest < List.length keys)%nat.
Proof.
  induction keys as [|key keys IH]; cbn [wait_loop]; [discriminate|].
  destruct (_ && _); [intros [= _ <-]; cbn; lia|].
  destruct (String.eqb key "escape"); [intros [= _ <-]; cbn; lia|].
  destruct (String.eqb (lower key) "q"); [intros [= _ <-]; cbn; lia|].
  intros H%IH. cbn. lia.
Qed.

Lemma confirmation_consumes st keys r rest :
  ConfirmationScreen.show st keys = Ret r rest →
  (List.length rest < List.length keys)%nat.
Proof.
  unfold ConfirmationScreen.show. destruct (ConfirmationScreen.draw st); [|discriminate].
  induction keys as [|key keys IH]; cbn [ConfirmationScreen.loop]; [discriminate|].
  destruct (String.eqb (lower key) "y"); [intros [= _ <-]; cbn; lia|].
  destruct (_ || _); [intros [= _ <-]; cbn; lia|].
  destruct (String.eqb (lower key) "q"); [intros [= _ <-]; cbn; lia|].
  intros H%IH. cbn. lia.
Qed.

(** A pass that goes on reads at least one key, except from the install
    screen, which reads none and leads to the last screen. *)
Lemma run_iter_consumes a b keys rest :
  run_iter a keys = Ret (Continue b) rest →
  (current_screen a = "install" ∧ current_screen b = "complete" ∧ rest = keys)
  ∨ (List.length rest < List.length keys)%nat.
Proof.
  unfold run_iter.
  destruct (String.eqb (current_screen a) "welcome").
  { destruct (WelcomeScreen.show _ keys) as [r rest'| |] eqn:E; try discriminate.
    apply welcome_consumes in E.
    destruct (String.eqb r "quit"); intros [= _ <-]; auto. }
  destruct (String.eqb (current_screen a) "mode_select").
  { unfold ModeSelectionScreen.show.
    destruct (ModeSelectionScreen.loop 0 keys) as [r rest'| |] eqn:E;
      try discriminate.
    apply mode_consumes in E.
    destruct (String.eqb r "back"); [intros [= _ <-]; auto|].
    destruct (key_in r _); [intros [= _ <-]; auto|].
    destruct (String.eqb r "quit"); intros [= _ <-]; auto. }
  destruct (String.eqb (current_screen a) "device_select").
  { destruct (state a !! "drives"); [|discriminate].
    destruct (DeviceSelectionScreen.init _ _) as [scr|]; [|discriminate].
    destruct (DeviceSelectionScreen.show scr keys) as [[r|l] rest'| |] eqn:E;
      try discriminate; apply device_consumes in E.
    - destruct (String.eqb r "back"); [intros [= _ <-]; auto|].
      destruct (String.eqb r "quit"); intros [= _ <-]; auto.
    - intros [= _ <-]. auto. }
  destruct (String.eqb (current_screen a) "settings").
  { unfold SettingsScreen.show.
    destruct (SettingsScreen.loop _ keys) as [[r st'] rest'| |] eqn:E;
      try discriminate.
    apply settings_consumes in E.
    destruct (String.eqb r "back"); [intros [= _ <-]; auto|].
    destruct (String.eqb r "quit"); [discriminate|].
    destruct (String.eqb r "next"); intros [= _ <-]; auto. }
  destruct (String.eqb (current_screen a) "validation").
  { unfold ValidationScreen.show.
    destruct (run_validations _) as [vs|]; [|discriminate].
    destruct (wait_loop vs keys) as [r rest'| |] eqn:E; try discriminate.
    apply wait_loop_consumes in E.
    destruct (String.eqb r "back"); [intros [= _ <-]; auto|].
    destruct (String.eqb r "quit"); [discriminate|].
    destruct (String.eqb r "valid"); intros [= _ <-]; auto. }
  destruct (String.eqb (current_screen a) "confirm").
  { destruct (ConfirmationScreen.show _ keys) as [r rest'| |] eqn:E;
      try discriminate.
    apply confirmation_consumes in E.
    destruct (String.eqb r "back"); [intros [= _ <-]; auto|].
    destruct (String.eqb r "quit"); [discriminate|].
    destruct (String.eqb r "proceed"); intros [= _ <-]; auto. }
  destruct (String.eqb_spec (current_screen a) "install") as [E|_].
  { destruct (show_install_result (InstallationScreen.init (state a))) as (Hres & _).
    destruct (InstallationScreen.show _) as [scr r]. cbn in Hres. subst r. cbn.
    intros [= <- <-]. auto. }
  destruct (String.eqb (current_screen a) "complete").
  { destruct (CompletionScreen.show keys); discriminate. }
  discriminate.
Qed.

Lemma run_loop_measure fuel :
  ∀ a keys,
    (loop_measure a keys < fuel)%nat → run_loop fuel a keys ≠ None.
Proof.
  induction fuel as [|fuel IH]; intros a keys Hm; [lia|].
  cbn [run_loop].
  destruct (run_iter a keys) as [[b|b] rest| |] eqn:E; try discriminate.
  apply IH. unfold loop_measure in *.
  destruct (run_iter_consumes _ _ _ _ E) as [(Ea & Eb & ->)|Hlt].
  - rewrite Ea, Eb in *. cbn in *. lia.
  - destruct (String.eqb (current_screen b) "install"),
      (String.eqb (current_screen a) "install"); lia.
Qed.

(** X14. For every application and every finite sequence of keys, the main
    loop ends within 2 * (number of keys) + 2 passes: it leaves the loop,
    waits for a key that does not come, or raises. *)
Theorem run_loop_terminates (a : ZBMNotcursesTUI.t) (keys : list string)
    (fuel : nat) :
  (2 * List.length keys + 2 ≤ fuel)%nat →
  ∃ outcome, run_loop fuel a keys = Some outcome.
Proof.
  intros Hfuel. pose proof (run_loop_measure fuel a keys) as H.
  destruct (run_loop fuel a keys) as [o|]; [eauto|].
  exfalso. apply H; [|reflexivity]. unfold loop_measure.
  destruct (String.eqb (current_screen a) "install"); lia.
Qed.

Lemma run_loop_terminates_witness :
  ∃ outcome,
    run_loop 26 (start_app efi_info sample_devices) sample_keys = Some outcome.
Proof.
  apply (run_loop_terminates (start_app efi_info sample_devices) sample_keys 26).
  vm_compute. lia.
Defined.

(** ** Detected devices *)

Lemma detect_fold_lookup entries :
  ∀ (acc : gmap string (gmap string value)) dev info,
    fold_left
      (λ devs e,
         if skipped_device (entry_name e) then devs
         else <[entry_name e := device_info e]> devs)
      entries acc !! dev = Some info →
    acc !! dev = Some info
    ∨ ∃ e, e ∈ entries ∧ entry_name e = dev
           ∧ skipped_device dev = false ∧ info = device_info e.
Proof.
  induction entries as [|e entries IH]; intros acc dev info; cbn [fold_left];
    [auto|].
  intros H. apply IH in H as [H|(e' & He' & Hn & Hs & Hi)].
  - destruct (skipped_device (entry_name e)) eqn:Es; [auto|].
    destruct (decide (entry_name e = dev)) as [E|E].
    + rewrite E, lookup_insert_eq in H. injection H as <-.
      right. exists e. rewrite <- E. split; [left|]. auto.
    + rewrite lookup_insert_ne in H by exact E. auto.
  - right. exists e'. split; [right; exact He'|]. auto.
Qed.

Lemma detect_fold_present entries :
  ∀ (acc : gmap string (gmap string value)) dev,
    is_Some (acc !! dev)
    ∨ (∃ e, e ∈ entries ∧ entry_name e = dev ∧ skipped_device dev = false) →
    is_Some (fold_left
               (λ devs e,
                  if skipped_device (entry_name e) then devs
                  else <[entry_name e := device_info e]> devs)
               entries acc !! dev).
Proof.
  induction entries as [|e entries IH]; intros acc dev; cbn [fold_left].
  - intros [H|(e & He & _)]; [exact H|inversion He].
  - intros [H|(e' & He' & Hn & Hs)]; apply IH.
    + left. destruct (skipped_device (entry_name e)); [exact H|].
      destruct (decide (entry_name e = dev)) as [E|E].
      * rewrite E, lookup_insert_eq. eauto.
      * rewrite lookup_insert_ne by exact E. exact H.
    + apply elem_of_cons in He' as [-> |He'].
      * left. rewrite Hn, Hs, lookup_insert_eq. eauto.
      * right. eauto.
Qed.

Lemma detect_devices_lookup listing dev info :
  detect_devices listing !! dev = Some info →
  ∃ entries e, listing = Some entries ∧ e ∈ entries ∧ entry_name e = dev
               ∧ skipped_device dev = false ∧ info = device_info e.
Proof.
  destruct listing as [entries|]; cbn [detect_devices]; [|discriminate].
  intros [H|(e & He)]%detect_fold_lookup; [discriminate H|]. eauto 10.
Qed.

Lemma device_info_drawable e : drawable_entry (device_info e) = true.
Proof. reflexivity. Qed.

(** X15. Every entry of the mapping that [detect_devices] builds comes from
    an entry of /sys/block of that name, which starts with none of "loop",
    "ram", "dm-", and records what was read there: the sector count times
    512 as "size_bytes" (0 when the read fails), that size divided by
    1024^3, rounded down, as "size_gb", the model text as "model" ("Unknown"
    when the read fails), whether the rotational flag read is 1 as
    "rotational", and as "type" "NVMe" when the name starts with "nvme",
    else "HDD" when rotational, else "SSD"; the device screen draws such an
    entry without an exception. *)
Theorem detect_devices_entries (listing : option (list sysfs_entry))
    (dev : string) (info : gmap string value) :
  detect_devices listing !! dev = Some info →
  skipped_device dev = false
  ∧ ∃ entries e,
      listing = Some entries ∧ e ∈ entries ∧ entry_name e = dev
      ∧ info !! "size_bytes"
        = Some (VInt (default 0 ((λ sectors, sectors * 512) <$> entry_sectors e)))%Z
      ∧ info !! "size_gb"
        = Some (VInt (default 0 ((λ sectors, sectors * 512) <$> entry_sectors e)
                      / 1024 ^ 3))%Z
      ∧ info !! "model" = Some (VStr (default "Unknown" (entry_model e)))
      ∧ info !! "rotational"
        = Some (VBool (bool_decide (entry_rotational e = Some 1%Z)))
      ∧ info !! "type"
        = Some (VStr (if String.prefix "nvme" dev then "NVMe"
                      else if bool_decide (entry_rotational e = Some 1%Z)
                           then "HDD" else "SSD"))
      ∧ dom info = {[ "size_bytes"; "size_gb"; "model"; "type"; "rotational" ]}
      ∧ DeviceSelectionScreen.draw_device info = Some ().
Proof.
  intros (entries & e & -> & He & <- & Hs & ->)%detect_devices_lookup.
  split; [exact Hs|]. exists entries, e.
  split; [reflexivity|]. split; [exact He|]. split; [reflexivity|].
  assert (Hrot : match entry_rotational e with
                 | Some r => (r =? 1)%Z
                 | None => false
                 end = bool_decide (entry_rotational e = Some 1%Z)).
  { destruct (entry_rotational e) as [r|]; [|reflexivity].
    destruct (Z.eqb_spec r 1) as [-> |Hr]; [reflexivity|].
    rewrite bool_decide_eq_false_2; [reflexivity|]. intros [= E]. auto. }
  unfold device_info. rewrite Hrot.
  split; [destruct (entry_sectors e); reflexivity|].
  split; [destruct (entry_sectors e); reflexivity|].
  split; [reflexivity|]. split; [reflexivity|]. split; [reflexivity|].
  split.
  - rewrite !dom_insert_L, dom_empty_L. set_solver.
  - apply draw_device_drawable. reflexivity.
Qed.

Lemma detect_devices_entries_witness :
  ∃ info,
    detect_devices (Some sample_listing) !! "sda" = Some info
    ∧ info !! "size_bytes" = Some (VInt 1000204886016)
    ∧ info !! "size_gb" = Some (VInt 931)
    ∧ info !! "model" = Some (VStr "disk")
    ∧ info !! "rotational" = Some (VBool true)
    ∧ info !! "type" = Some (VStr "HDD").
Proof.
  exists (device_info (mk_sysfs_entry "sda" (Some 1953525168%Z) (Some "disk")
                                      (Some 1%Z))).
  assert (Hl : detect_devices (Some sample_listing) !! "sda"
               = Some (device_info (mk_sysfs_entry "sda" (Some 1953525168%Z)
                                                   (Some "disk") (Some 1%Z))))
    by (vm_compute; reflexivity).
  split; [exact Hl|].
  destruct (detect_devices_entries _ _ _ Hl)
    as (_ & entries & e & [= <-] & He & Hn & H1 & H2 & H3 & H4 & H5 & _).
  assert (e = mk_sysfs_entry "sda" (Some 1953525168%Z) (Some "disk") (Some 1%Z))
    as ->.
  { unfold sample_listing in He.
    repeat (apply elem_of_cons in He as [-> |He]; [try discriminate Hn|]).
    - reflexivity.
    - inversion He. }
  repeat split; assumption.
Defined.

(** X16. [detect_devices] lists a name exactly when /sys/block has it and it
    starts with none of "loop", "ram", "dm-". *)
Theorem detect_devices_lists (entries : list sysfs_entry) (dev : string) :
  dev ∈ dom (detect_devices (Some entries))
  ↔ (∃ e, e ∈ entries ∧ entry_name e = dev) ∧ skipped_device dev = false.
Proof.
  rewrite elem_of_dom. split.
  - intros [info (entries' & e & [= <-] & He & Hn & Hs & _)%detect_devices_lookup].
    eauto.
  - intros [(e & He & Hn) Hs]. cbn [detect_devices].
    apply detect_fold_present. right. eauto.
Qed.

(** X17. In a session whose device mapping comes from [detect_devices], no
    drive that is ever selected is a loop, ram or dm- device. *)
Theorem session_skips_pseudo_devices (si : gmap string value)
    (listing : option (list sysfs_entry)) (app : ZBMNotcursesTUI.t)
    (l : list string) (d : string) :
  visits (start_app si (detect_devices listing)) app →
  state app !! "drives" = Some (VList l) →
  d ∈ l →
  skipped_device d = false.
Proof.
  intros (_ & _ & _ & (l' & Hl' & _ & Hsub & _) & _)%session_inv_visits Hl Hd.
  rewrite Hl in Hl'. injection Hl' as <-.
  apply Hsub, elem_of_dom in Hd as [info Hinfo].
  apply detect_devices_lookup in Hinfo as (? & ? & _ & _ & _ & Hs & _). exact Hs.
Qed.

(** Enter; Enter; down, space, Enter: the one drive that can be chosen
    besides the NVMe drive is "sda", never "loop0". *)
Lemma session_skips_pseudo_devices_witness :
  skipped_device "sda" = false.
Proof.
  eapply (session_skips_pseudo_devices efi_info (Some sample_listing) _ ["sda"] "sda").
  - eapply visits_trans;
      [apply (visits_one _ _ [NL] []); vm_compute; reflexivity|].
    eapply visits_trans;
      [apply (visits_one _ _ [NL] []); vm_compute; reflexivity|].
    apply (visits_one _ _ ["j"; " "; NL] []). vm_compute. reflexivity.
  - reflexivity.
  - left.
Defined.

(** ** Confirmation *)

(** X18. The confirmation screen returns "proceed" only on the key y or Y,
    every key read before it being one the screen ignores. *)
Theorem confirmation_needs_y (st : gmap string value) (keys rest : list string) :
  ConfirmationScreen.show st keys = Ret "proceed" rest →
  ∃ ignored key,
    keys = (ignored ++ key :: rest)%list
    ∧ (key = "y" ∨ key = "Y")
    ∧ Forall (λ k, String.eqb (lower k) "y" = false
                   ∧ String.eqb (lower k) "n" = false
                   ∧ String.eqb k "escape" = false
                   ∧ String.eqb (lower k) "q" = false) ignored.
Proof.
  unfold ConfirmationScreen.show. destruct (ConfirmationScreen.draw st); [|discriminate].
  induction keys as [|key keys IH]; cbn [ConfirmationScreen.loop]; [discriminate|].
  destruct (String.eqb (lower key) "y") eqn:Ey.
  { intros [= <-]. exists [], key. split; [reflexivity|]. split; [|constructor].
    apply String.eqb_eq in Ey.
    destruct key as [|c [|c' key']]; try discriminate Ey.
    cbn in Ey. injection Ey as Ec.
    destruct c as [[] [] [] [] [] [] [] []]; vm_compute in Ec; try discriminate Ec;
      auto. }
  destruct (String.eqb (lower key) "n") eqn:En; [discriminate|].
  destruct (String.eqb key "escape") eqn:Ee; [discriminate|]. cbn [orb].
  destruct (String.eqb (lower key) "q") eqn:Eq; [discriminate|].
  intros (ignored & k & -> & Hk & Hign)%IH.
  exists (key :: ignored), k. split; [reflexivity|]. split; [exact Hk|].
  constructor; auto.
Qed.

Lemma confirmation_needs_y_witness :
  ∃ ignored key,
    [NL; "x"; "Y"; "q"] = (ignored ++ key :: ["q"])%list
    ∧ (key = "y" ∨ key = "Y").
Proof.
  destruct (confirmation_needs_y migrate_state [NL; "x"; "Y"; "q"] ["q"])
    as (ignored & key & H1 & H2 & _); [vm_compute; reflexivity|].
  exists ignored, key. auto.
Defined.

